(** * py-nbody: the physics core, embedded and verified

    A shallow embedding of [src/physics/vector3d.py], [body.py], [forces.py],
    [integrators.py] and [engine.py].

    - Python floats are IEEE 754 binary64 values: Rocq's primitive [float],
      whose operations are the correctly rounded ones.
    - Python exceptions are values of [exn]; a computation that may raise
      returns a [result].  Code that mutates objects and may raise in the
      middle is a function from the state before to the state at the point
      of return or raise, paired with the outcome.
    - The engine's list of [Body] objects is a [list Body]: the position in
      the list stands for the object's identity (each object is held once).
    - [x ** 2] is the rounded square of [x], raising [OverflowError] as
      [float_pow] does; [sum] adds from left to right.
    - The wall-clock bookkeeping of the engine ([simulation_start_time],
      [last_step_time], read from [time.time()]) is left out: no numerical
      path reads it. *)

From Stdlib Require Import Floats ZArith Strings.String Strings.Ascii.
From stdpp Require Import base list.

Set Warnings "-inexact-float".
Set Default Proof Using "Type".

(** ** Python outcomes *)

Inductive exn : Set :=
  | ZeroDivisionError
  | OverflowError
  | ValueError
  | TypeError
  | IndexError.

Inductive result (A : Type) : Type :=
  | Ok (a : A)
  | Raise (e : exn).
Arguments Ok {A} a.
Arguments Raise {A} e.

Definition rbind {A B : Type} (r : result A) (k : A -> result B) : result B :=
  match r with
  | Ok a => k a
  | Raise e => Raise e
  end.

Notation "'let?' x ':=' c 'in' k" := (rbind c (fun x => k))
  (at level 10, x name, c at level 100, k at level 200).

(** Mutating code: from the state before to the state reached, with the
    outcome. A raise keeps the mutations made so far. *)
Definition M (S A : Type) : Type := S -> S * result A.

Definition mret {S A : Type} (a : A) : M S A := fun s => (s, Ok a).

Definition mraise {S A : Type} (e : exn) : M S A := fun s => (s, Raise e).

Definition mbind_ {S A B : Type} (c : M S A) (k : A -> M S B) : M S B :=
  fun s =>
    match c s with
    | (s', Ok a) => k a s'
    | (s', Raise e) => (s', Raise e)
    end.

Notation "'let*' x ':=' c 'in' k" := (mbind_ c (fun x => k))
  (at level 10, x name, c at level 100, k at level 200).
Notation "c ';;' k" := (mbind_ c (fun _ => k))
  (at level 100, k at level 200, right associativity).

Definition mget {S : Type} : M S S := fun s => (s, Ok s).
Definition mmodify {S : Type} (f : S -> S) : M S unit := fun s => (f s, Ok tt).
Definition mlift {S A : Type} (r : result A) : M S A := fun s => (s, r).

(** [l[i]] *)
Definition getitem {A : Type} (i : nat) : M (list A) A :=
  fun l =>
    match l !! i with
    | Some a => (l, Ok a)
    | None => (l, Raise IndexError)
    end.

(** [l[i] = a] *)
Definition setitem {A : Type} (i : nat) (a : A) : M (list A) unit :=
  fun l =>
    match l !! i with
    | Some _ => (<[i:=a]> l, Ok tt)
    | None => (l, Raise IndexError)
    end.

(** A method that either completes, giving the mutated object, or raises
    before it has mutated anything. *)
Definition atomic {A : Type} (method : A -> result A) : M A unit :=
  fun a =>
    match method a with
    | Ok a' => (a', Ok tt)
    | Raise e => (a, Raise e)
    end.

(** [l[i].method(...)], and more generally code that mutates the object
    [l[i]]: the object is left as the code left it, also on a raise. *)
Definition call_method {A : Type} (i : nat) (method : M A unit)
    : M (list A) unit :=
  fun l =>
    match l !! i with
    | Some a =>
        match method a with
        | (a', r) => (<[i:=a']> l, r)
        end
    | None => (l, Raise IndexError)
    end.

(** [for x in l: body(x)] *)
Fixpoint for_each {S X : Type} (l : list X) (body : X -> M S unit) : M S unit :=
  match l with
  | [] => mret tt
  | x :: l' => body x ;; for_each l' body
  end.

(** ** Python float arithmetic *)

Module PyFloat.

Definition is_zero (a : float) : bool := (a =? 0)%float.

(** [a / b] on two Python floats: [float_div] raises on a zero divisor. *)
Definition truediv (a b : float) : result float :=
  if is_zero b then Raise ZeroDivisionError else Ok (a / b)%float.

(** [a / b] where [b] is a numpy float64 (the result of [np.sqrt]):
    numpy's division, which never raises. *)
Definition np_truediv (a b : float) : float := (a / b)%float.

(** [a ** 2]: [float_pow] with exponent [2]. NaN, infinities and zeros are
    answered without calling [pow]; a finite base whose square is out of
    range raises [OverflowError]. The value is the rounded square. *)
Definition pow2 (a : float) : result float :=
  let r := (a * a)%float in
  if is_finite a && is_infinity r then Raise OverflowError else Ok r.

(** [np.sqrt] on a scalar. *)
Definition np_sqrt (a : float) : float := PrimFloat.sqrt a.

End PyFloat.

(** ** vector3d.py *)

Record Vector3D : Set := mkVector3D { x : float; y : float; z : float }.

Module Vector3D.

(** [Vector3D()] and [Vector3D(0, 0, 0)] *)
Definition zero : Vector3D := mkVector3D 0 0 0.

Definition add (a b : Vector3D) : Vector3D :=
  mkVector3D (x a + x b) (y a + y b) (z a + z b).

Definition sub (a b : Vector3D) : Vector3D :=
  mkVector3D (x a - x b) (y a - y b) (z a - z b).

Definition mul (a : Vector3D) (scalar : float) : Vector3D :=
  mkVector3D (x a * scalar) (y a * scalar) (z a * scalar).

(** [__truediv__] with a Python float divisor. *)
Definition truediv (a : Vector3D) (scalar : float) : result Vector3D :=
  let? qx := PyFloat.truediv (x a) scalar in
  let? qy := PyFloat.truediv (y a) scalar in
  let? qz := PyFloat.truediv (z a) scalar in
  Ok (mkVector3D qx qy qz).

(** [__truediv__] with a numpy float64 divisor. *)
Definition np_truediv (a : Vector3D) (scalar : float) : Vector3D :=
  mkVector3D (PyFloat.np_truediv (x a) scalar)
             (PyFloat.np_truediv (y a) scalar)
             (PyFloat.np_truediv (z a) scalar).

Definition neg (a : Vector3D) : Vector3D :=
  mkVector3D (- x a) (- y a) (- z a).

Definition magnitude_squared (a : Vector3D) : result float :=
  let? xx := PyFloat.pow2 (x a) in
  let? yy := PyFloat.pow2 (y a) in
  let? zz := PyFloat.pow2 (z a) in
  Ok (xx + yy + zz)%float.

Definition magnitude (a : Vector3D) : result float :=
  let? s := magnitude_squared a in
  Ok (PyFloat.np_sqrt s).

Definition cross (a b : Vector3D) : Vector3D :=
  mkVector3D (y a * z b - z a * y b)
             (z a * x b - x a * z b)
             (x a * y b - y a * x b).

Definition distance_to (a b : Vector3D) : result float :=
  magnitude (sub a b).

(** A fresh vector with the same components. *)
Definition copy (a : Vector3D) : Vector3D := mkVector3D (x a) (y a) (z a).

(** [__rmul__]: [scalar * a] *)
Definition rmul (scalar : float) (a : Vector3D) : Vector3D := mul a scalar.

(** [mag] is a numpy float64, so the division is numpy's. *)
Definition normalize (a : Vector3D) : result Vector3D :=
  let? mag := magnitude a in
  if (mag =? 0)%float then Ok zero
  else Ok (np_truediv a mag).

Definition dot (a b : Vector3D) : float :=
  (x a * x b + y a * y b + z a * z b)%float.

(** [__eq__]: equality with small tolerance. *)
Definition eq (a b : Vector3D) : bool :=
  let tolerance := 1e-10%float in
  (abs (x a - x b) <? tolerance)%float
  && (abs (y a - y b) <? tolerance)%float
  && (abs (z a - z b) <? tolerance)%float.

End Vector3D.

(** ** body.py *)

Record Body : Set := mkBody {
  mass : float;
  position : Vector3D;
  velocity : Vector3D;
  acceleration : Vector3D;
  name : string;
  color : string;
  radius : float;
  trajectory : list Vector3D;
  kinetic_energy : float;
  potential_energy : float
}.

Module Body.

(** [Body.__init__]; the arguments are already floats and strings. *)
Definition init (mass : float) (position velocity : Vector3D)
    (name color : string) (radius : float) : result Body :=
  Ok (mkBody mass position velocity Vector3D.zero name color radius
             [position] 0 0).

Definition set_position (p : Vector3D) (b : Body) : Body :=
  mkBody (mass b) p (velocity b) (acceleration b) (name b) (color b)
         (radius b) (trajectory b) (kinetic_energy b) (potential_energy b).

Definition set_velocity (v : Vector3D) (b : Body) : Body :=
  mkBody (mass b) (position b) v (acceleration b) (name b) (color b)
         (radius b) (trajectory b) (kinetic_energy b) (potential_energy b).

Definition set_acceleration (a : Vector3D) (b : Body) : Body :=
  mkBody (mass b) (position b) (velocity b) a (name b) (color b)
         (radius b) (trajectory b) (kinetic_energy b) (potential_energy b).

Definition set_trajectory (t : list Vector3D) (b : Body) : Body :=
  mkBody (mass b) (position b) (velocity b) (acceleration b) (name b)
         (color b) (radius b) t (kinetic_energy b) (potential_energy b).

Definition set_kinetic_energy (k : float) (b : Body) : Body :=
  mkBody (mass b) (position b) (velocity b) (acceleration b) (name b)
         (color b) (radius b) (trajectory b) k (potential_energy b).

Definition update_position (dt : float) (b : Body) : Body :=
  let p := Vector3D.add (position b) (Vector3D.mul (velocity b) dt) in
  set_trajectory (trajectory b ++ [Vector3D.copy p]) (set_position p b).

Definition update_velocity (dt : float) (b : Body) : Body :=
  set_velocity
    (Vector3D.add (velocity b) (Vector3D.mul (acceleration b) dt)) b.

Definition apply_force (force : Vector3D) (b : Body) : result Body :=
  let? a := Vector3D.truediv force (mass b) in
  Ok (set_acceleration a b).

Definition add_force (force : Vector3D) (b : Body) : result Body :=
  let? a := Vector3D.truediv force (mass b) in
  Ok (set_acceleration (Vector3D.add (acceleration b) a) b).

Definition reset_forces (b : Body) : Body :=
  set_acceleration Vector3D.zero b.

(** Stores the value in the body and returns it. *)
Definition calculate_kinetic_energy (b : Body) : result (Body * float) :=
  let? v_squared := Vector3D.magnitude_squared (velocity b) in
  let k := (0.5 * mass b * v_squared)%float in
  Ok (set_kinetic_energy k b, k).

Definition distance_to (b other : Body) : result float :=
  Vector3D.distance_to (position b) (position other).

Definition momentum (b : Body) : Vector3D :=
  Vector3D.mul (velocity b) (mass b).

Definition angular_momentum (b : Body) (origin : option Vector3D) : Vector3D :=
  let origin := match origin with
                | None => Vector3D.zero
                | Some o => o
                end in
  let r := Vector3D.sub (position b) origin in
  let p := momentum b in
  Vector3D.cross r p.

Definition clear_trajectory (b : Body) : Body :=
  set_trajectory [Vector3D.copy (position b)] b.

Definition get_trajectory_arrays (b : Body)
    : list float * list float * list float :=
  match trajectory b with
  | [] => ([], [], [])
  | _ :: _ =>
      let x_coords := x <$> trajectory b in
      let y_coords := y <$> trajectory b in
      let z_coords := z <$> trajectory b in
      (x_coords, y_coords, z_coords)
  end.

End Body.

(** ** forces.py *)

(** Gravitational constant (m^3/kg s^2) *)
Definition G : float := 6.67430e-11%float.

Record GravitationalForceCalculator : Set := mkGravitationalForceCalculator {
  fc_G : float;
  softening_length : float;
  softening_squared : float
}.

Module GravitationalForceCalculator.

Definition init (gravitational_constant softening_length : float)
    : result GravitationalForceCalculator :=
  let? sq := PyFloat.pow2 softening_length in
  Ok (mkGravitationalForceCalculator gravitational_constant
        softening_length sq).

Definition _calculate_pairwise_force (self : GravitationalForceCalculator)
    (body1 body2 : Body) : result Vector3D :=
  let r_vector := Vector3D.sub (position body2) (position body1) in
  let? m2 := Vector3D.magnitude_squared r_vector in
  let r_squared := (m2 + softening_squared self)%float in
  let r := PyFloat.np_sqrt r_squared in
  if (r <? 1e-10)%float then Ok Vector3D.zero
  else
    let r_hat := Vector3D.np_truediv r_vector r in
    let? force_magnitude :=
      PyFloat.truediv (fc_G self * mass body1 * mass body2) r_squared in
    let force := Vector3D.mul r_hat force_magnitude in
    Ok force.

(** The body of the two nested loops, for one pair [(i, j)]. *)
Definition pair_forces (self : GravitationalForceCalculator) (i j : nat)
    : M (list Body) unit :=
  let* body_i := getitem i in
  let* body_j := getitem j in
  let* force := mlift (_calculate_pairwise_force self body_i body_j) in
  call_method i (atomic (Body.add_force force)) ;;
  call_method j (atomic (Body.add_force (Vector3D.neg force))).

(** [range(i + 1, n)] *)
Definition range_from (i n : nat) : list nat := seq (i + 1) (n - (i + 1)).

Definition calculate_forces (self : GravitationalForceCalculator)
    : M (list Body) unit :=
  fun bodies =>
    let n := length bodies in
    (mmodify (fmap Body.reset_forces) ;;
     for_each (seq 0 n) (fun i =>
       for_each (range_from i n) (fun j =>
         pair_forces self i j))) bodies.

(** The body of the potential-energy loops for one pair; the state is the
    running [potential_energy]. [r] is a numpy float64, so the division is
    numpy's. *)
Definition pair_potential (self : GravitationalForceCalculator)
    (bodies : list Body) (i j : nat) : M float unit :=
  fun potential_energy =>
    match bodies !! i, bodies !! j with
    | Some body_i, Some body_j =>
        match Body.distance_to body_i body_j with
        | Raise e => (potential_energy, Raise e)
        | Ok r =>
            if (1e-10 <? r)%float then
              ((potential_energy
                - PyFloat.np_truediv
                    (fc_G self * mass body_i * mass body_j) r)%float,
               Ok tt)
            else (potential_energy, Ok tt)
        end
    | _, _ => (potential_energy, Raise IndexError)
    end.

Definition calculate_potential_energy (self : GravitationalForceCalculator)
    (bodies : list Body) : result float :=
  let n := length bodies in
  match for_each (seq 0 n) (fun i =>
          for_each (range_from i n) (fun j =>
            pair_potential self bodies i j)) 0%float with
  | (potential_energy, Ok _) => Ok potential_energy
  | (_, Raise e) => Raise e
  end.

(** [sum(body.calculate_kinetic_energy() for body in bodies)]: every call
    stores the value in its body; the state is the list of bodies and the
    running sum. *)
Definition sum_kinetic_energy : M (list Body * float) unit :=
  fun '(bodies, acc) =>
    for_each (seq 0 (length bodies)) (fun i => fun '(bodies, acc) =>
      match bodies !! i with
      | None => ((bodies, acc), Raise IndexError)
      | Some body =>
          match Body.calculate_kinetic_energy body with
          | Raise e => ((bodies, acc), Raise e)
          | Ok (body', k) => ((<[i:=body']> bodies, (acc + k)%float), Ok tt)
          end
      end) (bodies, acc).

Definition calculate_total_energy (self : GravitationalForceCalculator)
    : M (list Body) (float * float * float) :=
  fun bodies =>
    match sum_kinetic_energy (bodies, 0%float) with
    | ((bodies', _), Raise e) => (bodies', Raise e)
    | ((bodies', kinetic_energy), Ok _) =>
        match calculate_potential_energy self bodies' with
        | Raise e => (bodies', Raise e)
        | Ok potential_energy =>
            let total_energy := (kinetic_energy + potential_energy)%float in
            (bodies', Ok (kinetic_energy, potential_energy, total_energy))
        end
    end.

Definition calculate_total_momentum (self : GravitationalForceCalculator)
    (bodies : list Body) : Vector3D :=
  fold_left (fun total_momentum body =>
               Vector3D.add total_momentum (Body.momentum body))
            bodies Vector3D.zero.

Definition calculate_total_angular_momentum
    (self : GravitationalForceCalculator) (bodies : list Body)
    (origin : option Vector3D) : Vector3D :=
  let origin := match origin with
                | None => Vector3D.zero
                | Some o => o
                end in
  fold_left (fun total body =>
               Vector3D.add total (Body.angular_momentum body (Some origin)))
            bodies Vector3D.zero.

(** [sum(f(body) for body in bodies)] for a float-valued [f]. *)
Definition sum_over (f : Body -> float) (bodies : list Body) : float :=
  fold_left (fun acc body => (acc + f body)%float) bodies 0%float.

Definition calculate_center_of_mass (self : GravitationalForceCalculator)
    (bodies : list Body) : result Vector3D :=
  let total_mass := sum_over mass bodies in
  if (total_mass =? 0)%float then Ok Vector3D.zero
  else
    let? com_x :=
      PyFloat.truediv
        (sum_over (fun body => mass body * x (position body))%float bodies)
        total_mass in
    let? com_y :=
      PyFloat.truediv
        (sum_over (fun body => mass body * y (position body))%float bodies)
        total_mass in
    let? com_z :=
      PyFloat.truediv
        (sum_over (fun body => mass body * z (position body))%float bodies)
        total_mass in
    Ok (mkVector3D com_x com_y com_z).

End GravitationalForceCalculator.

(** Keyword arguments of [create_force_calculator]. *)
Record force_kwargs : Set := mkForceKwargs {
  kw_gravitational_constant : option float;
  kw_softening_length : option float
}.

Definition create_force_calculator (method : string) (kwargs : force_kwargs)
    : result GravitationalForceCalculator :=
  let g := default G (kw_gravitational_constant kwargs) in
  if String.eqb method "standard" then
    GravitationalForceCalculator.init g
      (default 0%float (kw_softening_length kwargs))
  else if String.eqb method "softened" then
    (* [softening_length] is passed both by name and inside [**kwargs] when
       the caller supplied it *)
    match kw_softening_length kwargs with
    | Some _ => Raise TypeError
    | None => GravitationalForceCalculator.init g 1e6%float
    end
  else Raise ValueError.

(** ** integrators.py *)

(** The force callback handed to an integrator is any Python callable taking
    the list of bodies: it may mutate the bodies, keep state of its own (of
    type [W]: a call counter, say) and raise. *)
Abbreviation St W := (list Body * W)%type (only parsing).

Definition Callable (W : Type) : Type := M (St W) unit.

(** Code that touches the bodies only, run where the callback's state is
    carried along. *)
Definition on_bodies {W A : Type} (c : M (list Body) A) : M (St W) A :=
  fun '(bodies, w) =>
    match c bodies with
    | (bodies', r) => ((bodies', w), r)
    end.

(** [for body in bodies: body.method(...)] for a method that cannot raise. *)
Definition for_bodies (method : Body -> Body) : M (list Body) unit :=
  fun bodies =>
    for_each (seq 0 (length bodies))
             (fun i => call_method i (mmodify method)) bodies.

(** [for i, body in enumerate(bodies): ...] where the loop body mutates
    [body] and may raise. *)
Definition for_enumerate (body_fn : nat -> M Body unit)
    : M (list Body) unit :=
  fun bodies =>
    for_each (seq 0 (length bodies))
             (fun i => call_method i (body_fn i)) bodies.

(** [l[i]] as an expression. *)
Definition index {A : Type} (l : list A) (i : nat) : result A :=
  match l !! i with
  | Some a => Ok a
  | None => Raise IndexError
  end.

Module EulerIntegrator.

Definition step {W : Type} (dt : float) (force_calculator : Callable W)
    : M (St W) unit :=
  force_calculator ;;
  on_bodies (for_bodies (Body.update_velocity dt)) ;;
  on_bodies (for_bodies (Body.update_position dt)).

End EulerIntegrator.

Module RK4Integrator.

(** [k_pos[i] = body.velocity * dt; k_vel[i] = body.acceleration * dt];
    the state is the two local lists. *)
Definition capture_one (dt : float) (ib : nat * Body)
    : M (list Vector3D * list Vector3D) unit :=
  fun '(k_pos, k_vel) =>
    let '(i, body) := ib in
    match setitem i (Vector3D.mul (velocity body) dt) k_pos with
    | (k_pos', Raise e) => ((k_pos', k_vel), Raise e)
    | (k_pos', Ok _) =>
        match setitem i (Vector3D.mul (acceleration body) dt) k_vel with
        | (k_vel', r) => ((k_pos', k_vel'), r)
        end
    end.

(** [for i, body in enumerate(bodies): ...] *)
Definition capture (dt : float) (bodies : list Body)
    : M (list Vector3D * list Vector3D) unit :=
  for_each (imap (fun i body => (i, body)) bodies) (capture_one dt).

(** One evaluation stage: call the force callback, then capture the
    derivatives into fresh lists of [n] zero vectors. *)
Definition stage {W : Type} (n : nat) (dt : float)
    (force_calculator : Callable W)
    : M (St W) (list Vector3D * list Vector3D) :=
  force_calculator ;;
  (fun '(bodies, w) =>
     match capture dt bodies
             (replicate n Vector3D.zero, replicate n Vector3D.zero) with
     | (k, Ok _) => ((bodies, w), Ok k)
     | (_, Raise e) => ((bodies, w), Raise e)
     end).

(** [body.position = initial_positions[i] + k_pos[i] * c;
    body.velocity = initial_velocities[i] + k_vel[i] * c] *)
Definition set_working_state (initial_positions initial_velocities : list Vector3D)
    (k : list Vector3D * list Vector3D) (scale : Vector3D -> Vector3D)
    (i : nat) : M Body unit :=
  atomic (fun body =>
    let? p0 := index initial_positions i in
    let? kp := index (fst k) i in
    Ok (Body.set_position (Vector3D.add p0 (scale kp)) body)) ;;
  atomic (fun body =>
    let? v0 := index initial_velocities i in
    let? kv := index (snd k) i in
    Ok (Body.set_velocity (Vector3D.add v0 (scale kv)) body)).

(** [(k1 + k2 * 2 + k3 * 2 + k4) / 6] *)
Definition increment (k1 k2 k3 k4 : Vector3D) : result Vector3D :=
  Vector3D.truediv
    (Vector3D.add
       (Vector3D.add (Vector3D.add k1 (Vector3D.mul k2 2))
                     (Vector3D.mul k3 2))
       k4)
    6.

Definition final_update (initial_positions initial_velocities : list Vector3D)
    (k1 k2 k3 k4 : list Vector3D * list Vector3D)
    (i : nat) : M Body unit :=
  let* pos_increment := mlift (
    let? k1p := index (fst k1) i in
    let? k2p := index (fst k2) i in
    let? k3p := index (fst k3) i in
    let? k4p := index (fst k4) i in
    increment k1p k2p k3p k4p) in
  let* vel_increment := mlift (
    let? k1v := index (snd k1) i in
    let? k2v := index (snd k2) i in
    let? k3v := index (snd k3) i in
    let? k4v := index (snd k4) i in
    increment k1v k2v k3v k4v) in
  atomic (fun body =>
    let? p0 := index initial_positions i in
    Ok (Body.set_position (Vector3D.add p0 pos_increment) body)) ;;
  atomic (fun body =>
    let? v0 := index initial_velocities i in
    Ok (Body.set_velocity (Vector3D.add v0 vel_increment) body)) ;;
  (* update trajectory *)
  mmodify (fun body =>
    Body.set_trajectory
      (trajectory body ++ [Vector3D.copy (position body)]) body).

Definition step {W : Type} (dt : float) (force_calculator : Callable W)
    : M (St W) unit :=
  fun '(bodies, w) =>
    let n := length bodies in
    let initial_positions :=
      (fun body => Vector3D.copy (position body)) <$> bodies in
    let initial_velocities :=
      (fun body => Vector3D.copy (velocity body)) <$> bodies in
    (* k1: derivatives at t *)
    (let* k1 := stage n dt force_calculator in
     (* k2: derivatives at t + dt/2 using k1 *)
     on_bodies (for_enumerate
       (set_working_state initial_positions initial_velocities k1
          (fun k => Vector3D.mul k 0.5))) ;;
     let* k2 := stage n dt force_calculator in
     (* k3: derivatives at t + dt/2 using k2 *)
     on_bodies (for_enumerate
       (set_working_state initial_positions initial_velocities k2
          (fun k => Vector3D.mul k 0.5))) ;;
     let* k3 := stage n dt force_calculator in
     (* k4: derivatives at t + dt using k3 *)
     on_bodies (for_enumerate
       (set_working_state initial_positions initial_velocities k3
          (fun k => k))) ;;
     let* k4 := stage n dt force_calculator in
     (* final update using the weighted average of the k values *)
     on_bodies (for_enumerate
       (final_update initial_positions initial_velocities k1 k2 k3 k4)))
      (bodies, w).

End RK4Integrator.

Module LeapfrogIntegrator.

(** The state also holds [self.first_step]. *)
Definition with_flag {W A : Type} (c : M (St W) A) : M (bool * St W) A :=
  fun '(first_step, st) =>
    match c st with
    | (st', r) => ((first_step, st'), r)
    end.

Definition set_first_step {W : Type} (v : bool) : M (bool * St W) unit :=
  fun '(_, st) => ((v, st), Ok tt).

Definition half_kick (dt : float) (body : Body) : Body :=
  Body.set_velocity
    (Vector3D.add (velocity body)
                  (Vector3D.mul (acceleration body) (dt / 2))) body.

Definition kick (dt : float) (body : Body) : Body :=
  Body.set_velocity
    (Vector3D.add (velocity body) (Vector3D.mul (acceleration body) dt))
    body.

(** [if self.first_step: ...] *)
Definition bootstrap {W : Type} (dt : float) (force_calculator : Callable W)
    : M (bool * St W) unit :=
  fun s =>
    if fst s then
      (* for the first step, use Euler to get v(t+dt/2) *)
      (with_flag force_calculator ;;
       with_flag (on_bodies (for_bodies (half_kick dt))) ;;
       set_first_step false) s
    else (s, Ok tt).

Definition step {W : Type} (dt : float) (force_calculator : Callable W)
    : M (bool * St W) unit :=
  bootstrap dt force_calculator ;;
  (* calculate forces at current positions *)
  with_flag force_calculator ;;
  (* update velocities by full step *)
  with_flag (on_bodies (for_bodies (kick dt))) ;;
  (* update positions using new velocities *)
  with_flag (on_bodies (for_bodies (Body.update_position dt))).

End LeapfrogIntegrator.

Inductive Integrator : Set :=
  | EulerIntegrator
  | RK4Integrator
  | LeapfrogIntegrator (first_step : bool).

Definition Integrator_name (i : Integrator) : string :=
  match i with
  | EulerIntegrator => "Euler"
  | RK4Integrator => "RK4"
  | LeapfrogIntegrator _ => "Leapfrog"
  end.

(** [integrator.step(bodies, dt, force_calculator)], dispatched on the
    class of [integrator]. *)
Definition Integrator_step {W : Type} (dt : float)
    (force_calculator : Callable W) : M (Integrator * St W) unit :=
  fun '(integrator, st) =>
    match integrator with
    | EulerIntegrator =>
        match EulerIntegrator.step dt force_calculator st with
        | (st', r) => ((EulerIntegrator, st'), r)
        end
    | RK4Integrator =>
        match RK4Integrator.step dt force_calculator st with
        | (st', r) => ((RK4Integrator, st'), r)
        end
    | LeapfrogIntegrator first_step =>
        match LeapfrogIntegrator.step dt force_calculator (first_step, st) with
        | ((first_step', st'), r) => ((LeapfrogIntegrator first_step', st'), r)
        end
    end.

(** [str.lower] on ASCII letters. *)
Definition lower_ascii (c : ascii) : ascii :=
  let n := nat_of_ascii c in
  if (65 <=? n)%nat && (n <=? 90)%nat then ascii_of_nat (n + 32) else c.

Fixpoint lower (s : string) : string :=
  match s with
  | EmptyString => EmptyString
  | String c s' => String (lower_ascii c) (lower s')
  end.

Definition get_integrator (method : string) : result Integrator :=
  let method := lower method in
  if String.eqb method "euler" then Ok EulerIntegrator
  else if String.eqb method "rk4" then Ok RK4Integrator
  else if String.eqb method "leapfrog" then Ok (LeapfrogIntegrator true)
  else Raise ValueError.

(** ** engine.py *)

Record energy_sample : Set := mkEnergySample {
  es_time : float;
  es_kinetic : float;
  es_potential : float;
  es_total : float
}.

Record momentum_sample : Set := mkMomentumSample {
  ms_time : float;
  ms_momentum : Vector3D
}.

Record angular_momentum_sample : Set := mkAngularMomentumSample {
  as_time : float;
  as_angular_momentum : Vector3D
}.

Record PhysicsEngine : Set := mkPhysicsEngine {
  integrator : Integrator;
  force_calculator : GravitationalForceCalculator;
  bodies : list Body;
  time : float;
  step_count : Z;
  dt : float;
  max_steps : option Z;
  max_time : option float;
  energy_history : list energy_sample;
  momentum_history : list momentum_sample;
  angular_momentum_history : list angular_momentum_sample
}.

Module PhysicsEngine.

Definition init (integration_method force_method : string)
    (kwargs : force_kwargs) : result PhysicsEngine :=
  let? integrator := get_integrator integration_method in
  let? force_calculator := create_force_calculator force_method kwargs in
  Ok (mkPhysicsEngine integrator force_calculator [] 0 0 1 None None
        [] [] []).

Definition set_bodies (bs : list Body) (e : PhysicsEngine) : PhysicsEngine :=
  mkPhysicsEngine (integrator e) (force_calculator e) bs (time e)
    (step_count e) (dt e) (max_steps e) (max_time e) (energy_history e)
    (momentum_history e) (angular_momentum_history e).

Definition add_body (body : Body) (self : PhysicsEngine) : PhysicsEngine :=
  set_bodies (bodies self ++ [body]) self.

Definition add_bodies (new_bodies : list Body) (self : PhysicsEngine)
    : PhysicsEngine :=
  set_bodies (bodies self ++ new_bodies) self.

(** [remove_body] of the body object held at position [i]. *)
Definition remove_body (i : nat) (self : PhysicsEngine) : PhysicsEngine :=
  set_bodies (delete i (bodies self)) self.

Definition clear_bodies (self : PhysicsEngine) : PhysicsEngine :=
  set_bodies [] self.

Definition set_time_step (new_dt : float) : M PhysicsEngine unit :=
  mmodify (fun self =>
    mkPhysicsEngine (integrator self) (force_calculator self) (bodies self)
      (time self) (step_count self) new_dt (max_steps self) (max_time self)
      (energy_history self) (momentum_history self)
      (angular_momentum_history self)).

Definition reset_simulation : M PhysicsEngine unit :=
  mmodify (fun self =>
    mkPhysicsEngine (integrator self) (force_calculator self)
      (* clear trajectories *)
      (Body.clear_trajectory <$> bodies self)
      0 0 (dt self) (max_steps self) (max_time self) [] [] []).

Definition get_system_energy : M PhysicsEngine (float * float * float) :=
  fun self =>
    match GravitationalForceCalculator.calculate_total_energy
            (force_calculator self) (bodies self) with
    | (bodies', r) => (set_bodies bodies' self, r)
    end.

Definition get_total_momentum (self : PhysicsEngine) : Vector3D :=
  GravitationalForceCalculator.calculate_total_momentum
    (force_calculator self) (bodies self).

Definition get_total_angular_momentum (self : PhysicsEngine)
    (origin : option Vector3D) : Vector3D :=
  GravitationalForceCalculator.calculate_total_angular_momentum
    (force_calculator self) (bodies self) origin.

Definition _record_conservation_quantities : M PhysicsEngine unit :=
  let* energy := get_system_energy in
  mmodify (fun self =>
    let '(kinetic, potential, total) := energy in
    let momentum := get_total_momentum self in
    let angular_momentum := get_total_angular_momentum self None in
    mkPhysicsEngine (integrator self) (force_calculator self) (bodies self)
      (time self) (step_count self) (dt self) (max_steps self)
      (max_time self)
      (energy_history self
         ++ [mkEnergySample (time self) kinetic potential total])
      (momentum_history self ++ [mkMomentumSample (time self) momentum])
      (angular_momentum_history self
         ++ [mkAngularMomentumSample (time self) angular_momentum])).

(** [self.integrator.step(self.bodies, self.dt,
    self.force_calculator.calculate_forces)] *)
Definition integrate : M PhysicsEngine unit :=
  fun self =>
    let callback : Callable unit :=
      on_bodies (GravitationalForceCalculator.calculate_forces
                   (force_calculator self)) in
    match Integrator_step (dt self) callback
            (integrator self, (bodies self, tt)) with
    | ((integrator', (bodies', _)), r) =>
        (mkPhysicsEngine integrator' (force_calculator self) bodies'
           (time self) (step_count self) (dt self) (max_steps self)
           (max_time self) (energy_history self) (momentum_history self)
           (angular_momentum_history self), r)
    end.

Definition advance_clock : M PhysicsEngine unit :=
  mmodify (fun self =>
    mkPhysicsEngine (integrator self) (force_calculator self) (bodies self)
      (time self + dt self)%float (step_count self + 1)%Z (dt self)
      (max_steps self) (max_time self) (energy_history self)
      (momentum_history self) (angular_momentum_history self)).

Definition step : M PhysicsEngine unit :=
  fun self =>
    match bodies self with
    | [] => (self, Ok tt)
    | _ :: _ =>
        (integrate ;;
         advance_clock ;;
         _record_conservation_quantities) self
    end.

Definition get_center_of_mass (self : PhysicsEngine) : result Vector3D :=
  GravitationalForceCalculator.calculate_center_of_mass
    (force_calculator self) (bodies self).

(** The dictionary that [get_conservation_analysis] returns. *)
Record conservation_analysis : Set := mkConservationAnalysis {
  energy_initial : float;
  energy_final : float;
  energy_drift : float;
  energy_drift_percent : float;
  momentum_initial_magnitude : float;
  momentum_final_magnitude : float;
  momentum_drift : float;
  angular_momentum_initial_magnitude : float;
  angular_momentum_final_magnitude : float;
  angular_momentum_drift : float;
  info_time : float;
  info_steps : Z;
  info_dt : float;
  info_integrator : string
}.

Inductive analysis_result : Set :=
  | NotEnoughData
  | Analysis (a : conservation_analysis).

(** [l[0]] and [l[-1]] *)
Definition first_item {A : Type} (l : list A) : result A := index l 0.

Definition last_item {A : Type} (l : list A) : result A :=
  match last l with
  | Some a => Ok a
  | None => Raise IndexError
  end.

Definition get_conservation_analysis (self : PhysicsEngine)
    : result analysis_result :=
  if (length (energy_history self) <? 2)%nat then Ok NotEnoughData
  else
    (* energy conservation analysis *)
    let? e0 := first_item (energy_history self) in
    let initial_energy := es_total e0 in
    let? e1 := last_item (energy_history self) in
    let final_energy := es_total e1 in
    let energy_drift := abs (final_energy - initial_energy) in
    let? energy_drift_percent :=
      if negb (initial_energy =? 0)%float then
        let? q := PyFloat.truediv energy_drift (abs initial_energy) in
        Ok (q * 100)%float
      else Ok 0%float in
    (* momentum conservation analysis *)
    let? m0 := first_item (momentum_history self) in
    let initial_momentum := ms_momentum m0 in
    let? m1 := last_item (momentum_history self) in
    let final_momentum := ms_momentum m1 in
    let? momentum_drift :=
      Vector3D.magnitude (Vector3D.sub final_momentum initial_momentum) in
    (* angular momentum conservation analysis *)
    let? a0 := first_item (angular_momentum_history self) in
    let initial_angular_momentum := as_angular_momentum a0 in
    let? a1 := last_item (angular_momentum_history self) in
    let final_angular_momentum := as_angular_momentum a1 in
    let? angular_momentum_drift :=
      Vector3D.magnitude
        (Vector3D.sub final_angular_momentum initial_angular_momentum) in
    let? mi := Vector3D.magnitude initial_momentum in
    let? mf := Vector3D.magnitude final_momentum in
    let? ai := Vector3D.magnitude initial_angular_momentum in
    let? af := Vector3D.magnitude final_angular_momentum in
    Ok (Analysis
          (mkConservationAnalysis initial_energy final_energy energy_drift
             energy_drift_percent mi mf momentum_drift ai af
             angular_momentum_drift (time self) (step_count self) (dt self)
             (Integrator_name (integrator self)))).

(** The callback of [run]: any callable taking the engine. *)
Definition run_callback : Type := M PhysicsEngine unit.

(** [if callback and self.step_count % callback_interval == 0:
    callback(self)] *)
Definition maybe_callback (callback : option run_callback)
    (callback_interval : Z) : M PhysicsEngine unit :=
  fun self =>
    match callback with
    | None => (self, Ok tt)
    | Some cb =>
        if (callback_interval =? 0)%Z then (self, Raise ZeroDivisionError)
        else if (step_count self mod callback_interval =? 0)%Z then cb self
        else (self, Ok tt)
    end.

(** What a call that is given [fuel] loop iterations comes to. *)
Inductive outcome : Type :=
  | Returned (self : PhysicsEngine)
  | Raised (self : PhysicsEngine) (e : exn)
  | StillRunning (self : PhysicsEngine).

(** [while cond(self): self.step(); maybe callback] *)
Fixpoint while_loop (fuel : nat) (cond : PhysicsEngine -> bool)
    (callback : option run_callback) (callback_interval : Z)
    (self : PhysicsEngine) : outcome :=
  if cond self then
    match fuel with
    | O => StillRunning self
    | S fuel' =>
        match (step ;; maybe_callback callback callback_interval) self with
        | (self', Ok _) =>
            while_loop fuel' cond callback callback_interval self'
        | (self', Raise e) => Raised self' e
        end
    end
  else Returned self.

Definition run (fuel : nat) (steps : option Z) (duration : option float)
    (callback : option run_callback) (callback_interval : Z)
    (self : PhysicsEngine) : outcome :=
  match steps, duration with
  | None, None => Raised self ValueError
  | Some steps, _ =>
      let target_steps := (step_count self + steps)%Z in
      while_loop fuel (fun self => (step_count self <? target_steps)%Z)
                 callback callback_interval self
  | None, Some duration =>
      let target_time := (time self + duration)%float in
      while_loop fuel (fun self => (time self <? target_time)%float)
                 callback callback_interval self
  end.

End PhysicsEngine.

(** * Vocabulary of the properties *)

(** What [clear_trajectory] leaves of a body [b] in [b']. *)
Definition cleared (b b' : Body) : Prop :=
  trajectory b' = [position b]
  /\ position b' = position b
  /\ velocity b' = velocity b
  /\ acceleration b' = acceleration b
  /\ mass b' = mass b.

(** Whether the loop of [run] is entered at all. *)
Definition enters_loop (steps : option Z) (duration : option float)
    (e : PhysicsEngine) : bool :=
  match steps, duration with
  | Some n, _ => (1 <=? n)%Z
  | None, Some d => (time e <? time e + d)%float
  | None, None => false
  end.

(** ** Counting the invocations of a force callback *)

(** The callback [f] instrumented with a counter: every invocation adds
    one, whether [f] returns or raises. *)
Definition counting {W : Type} (f : Callable W) : Callable (W * nat) :=
  fun '(bodies, (w, n)) =>
    match f (bodies, w) with
    | ((bodies', w'), r) => ((bodies', (w', S n)), r)
    end.

(** A callback that returns normally on every input and keeps the list of
    bodies at its length (it mutates the bodies in place). *)
Definition returns_normally {W : Type} (f : Callable W) : Prop :=
  forall bodies w, exists bodies' w',
    f (bodies, w) = ((bodies', w'), Ok tt) /\ length bodies' = length bodies.

(** [k] calls of [integrator.step] in a row, stopping at the first raise. *)
Fixpoint repeat_step {W : Type} (k : nat) (dt : float)
    (force_calculator : Callable W) : M (Integrator * St W) unit :=
  match k with
  | O => mret tt
  | S k' =>
      Integrator_step dt force_calculator ;;
      repeat_step k' dt force_calculator
  end.

(** The integrator, the outcome and the number of invocations of [f] after
    [k] calls of [step] on [bodies]. *)
Definition instrumented_run {W : Type} (k : nat) (integrator : Integrator)
    (dt : float) (f : Callable W) (bodies : list Body) (w : W)
    : Integrator * result unit * nat :=
  match repeat_step k dt (counting f) (integrator, (bodies, (w, 0))) with
  | ((integrator', (_, (_, n))), r) => (integrator', r, n)
  end.

(** [c] makes exactly [n] invocations of the instrumented callback whenever
    it returns normally. *)
Definition ticks {W A : Type} (n : nat) (c : M (list Body * (W * nat)) A)
    : Prop :=
  forall bodies w k bodies' w' k' a,
    c (bodies, (w, k)) = ((bodies', (w', k')), Ok a) -> k' = n + k.

(** The number of force evaluations of one step of [integrator]. *)
Definition evaluations (integrator : Integrator) : nat :=
  match integrator with
  | EulerIntegrator => 1
  | RK4Integrator => 4
  | LeapfrogIntegrator true => 2
  | LeapfrogIntegrator false => 1
  end.

(** The engine's force callback. *)
Definition gravity (fc : GravitationalForceCalculator) : Callable unit :=
  on_bodies (GravitationalForceCalculator.calculate_forces fc).

(** A uniform downward field: a force callback that never raises. *)
Definition uniform_field : Callable unit :=
  on_bodies (for_bodies (Body.set_acceleration (mkVector3D 0 (-9.81) 0))).

(** What one Euler step makes of a body [b], as the force evaluation left
    it, in [b']: the velocity moves by [a * dt], the position by the new
    velocity times [dt], and the new position is appended to the
    trajectory. *)
Definition euler_updated (dt : float) (b b' : Body) : Prop :=
  let v' := Vector3D.add (velocity b) (Vector3D.mul (acceleration b) dt) in
  let p' := Vector3D.add (position b) (Vector3D.mul v' dt) in
  velocity b' = v'
  /\ position b' = p'
  /\ trajectory b' = trajectory b ++ [p']
  /\ acceleration b' = acceleration b
  /\ mass b' = mass b.

(** ** The frame and the accumulation of [calculate_forces] *)

(** [b'] is [b] up to its acceleration. *)
Definition same_but_acceleration (b b' : Body) : Prop :=
  mass b' = mass b
  /\ position b' = position b
  /\ velocity b' = velocity b
  /\ trajectory b' = trajectory b
  /\ name b' = name b
  /\ color b' = color b
  /\ radius b' = radius b
  /\ kinetic_energy b' = kinetic_energy b
  /\ potential_energy b' = potential_energy b.

(** The pairs [(i, j)], [i < j < n], in the order of the two nested loops. *)
Definition pairs (n : nat) : list (nat * nat) :=
  flat_map (fun i => pair i <$> GravitationalForceCalculator.range_from i n)
           (seq 0 n).

(** The force vector of the pair [(i, j)] of [bodies], computed once. *)
Definition pair_force (fc : GravitationalForceCalculator)
    (bodies : list Body) (ij : nat * nat) : result Vector3D :=
  match bodies !! ij.1, bodies !! ij.2 with
  | Some body_i, Some body_j =>
      GravitationalForceCalculator._calculate_pairwise_force fc body_i body_j
  | _, _ => Raise IndexError
  end.

(** [v / m], component by component. *)
Definition divided (v : Vector3D) (m : float) : Vector3D :=
  mkVector3D (x v / m) (y v / m) (z v / m).

(** Following the specification's words: what the pair [(i, j)] with force [F] adds to the
    acceleration [a] of body [k] of mass [m]: [F / m] when [k] is [i],
    [(-F) / m] when [k] is [j], nothing otherwise. *)
Definition contribute (fc : GravitationalForceCalculator)
    (bodies : list Body) (k : nat) (m : float) (a : Vector3D)
    (ij : nat * nat) : Vector3D :=
  match pair_force fc bodies ij with
  | Ok F =>
      if (k =? ij.1)%nat then Vector3D.add a (divided F m)
      else if (k =? ij.2)%nat then
        Vector3D.add a (divided (Vector3D.neg F) m)
      else a
  | Raise _ => a
  end.

(** Following the specification's words: the acceleration of body [k] after one call, the
    contributions of all pairs added to zero in the order of the loops. *)
Definition accumulated (fc : GravitationalForceCalculator)
    (bodies : list Body) (k : nat) : Vector3D :=
  match bodies !! k with
  | Some body_k =>
      fold_left (contribute fc bodies k (mass body_k))
                (pairs (length bodies)) Vector3D.zero
  | None => Vector3D.zero
  end.

(** ** Coincident bodies *)

Definition finite_vector (v : Vector3D) : bool :=
  is_finite (x v) && is_finite (y v) && is_finite (z v).

(** The softened distance of two bodies at the same place. *)
Definition coincident_r (fc : GravitationalForceCalculator) : float :=
  PyFloat.np_sqrt (0 + softening_squared fc).

(** The force magnitude the code computes for two bodies at the same place
    when the guard does not fire. *)
Definition coincident_magnitude (fc : GravitationalForceCalculator)
    (b1 b2 : Body) : float :=
  (fc_G fc * mass b1 * mass b2 / (0 + softening_squared fc))%float.

(** A float that is [+0.0] or positive and finite. *)
Definition nonneg_finite (a : float) : bool :=
  match classify a with
  | PZero | PSubn | PNormal => true
  | _ => false
  end.

(** The configurations in which two coincident bodies exert no force on
    each other: the guard fires (as it does without softening), or the
    softened magnitude is a finite, non-negative number. *)
Definition zero_force_expected (fc : GravitationalForceCalculator)
    (b1 b2 : Body) : bool :=
  (coincident_r fc <? 1e-10)%float
  || ((1e-10 <=? coincident_r fc)%float
      && nonneg_finite (coincident_magnitude fc b1 b2)).

(** A mass that is a number other than zero. *)
Definition proper_mass (m : float) : bool :=
  negb (PyFloat.is_zero m) && negb (is_nan m).

(** ** Concrete systems used as test inputs *)

Module Examples.

Definition sun : Body :=
  mkBody 1.989e30 Vector3D.zero Vector3D.zero Vector3D.zero "Sun" "yellow" 1
         [Vector3D.zero] 0 0.

Definition earth : Body :=
  mkBody 5.972e24 (mkVector3D 1.496e11 0 0) (mkVector3D 0 29780 0)
         Vector3D.zero "Earth" "blue" 1 [mkVector3D 1.496e11 0 0] 0 0.

Definition no_kwargs : force_kwargs := mkForceKwargs None None.

Definition standard : GravitationalForceCalculator :=
  mkGravitationalForceCalculator G 0 0.

(** An engine built as the drivers build it. *)
Definition engine (integration_method : string) (new_dt : float)
    : result PhysicsEngine :=
  let? e := PhysicsEngine.init integration_method "standard" no_kwargs in
  let e := fst (PhysicsEngine.set_time_step new_dt e) in
  Ok (PhysicsEngine.add_bodies [sun; earth] e).

(** The state of [e] after [c], whatever the outcome. *)
Definition after (c : M PhysicsEngine unit) (e : result PhysicsEngine)
    : result PhysicsEngine :=
  let? e := e in Ok (fst (c e)).

End Examples.

(** A calculator with the default softening of the "softened" method and two
    very heavy bodies at the same place. *)
Definition softened : GravitationalForceCalculator :=
  mkGravitationalForceCalculator G 1e6 1e12.

Definition heavy : Body :=
  mkBody 1e200 (mkVector3D 1 2 3) Vector3D.zero Vector3D.zero "heavy" "red" 1
         [mkVector3D 1 2 3] 0 0.

Definition empty_engine : PhysicsEngine :=
  mkPhysicsEngine (LeapfrogIntegrator true) Examples.standard [] 0 0 1
    None None [] [] [].

(** An engine that has run one step of 1e20 seconds and was then emptied. *)
Definition late_empty_engine : result PhysicsEngine :=
  let? e := Examples.after PhysicsEngine.step (Examples.engine "euler" 1e20) in
  Ok (PhysicsEngine.clear_bodies e).

(** ** Outcomes and frames *)

(** What [calculate_forces] on [bodies] may come to. *)
Definition forces_outcome (bodies : list Body) (r : result unit) : Prop :=
  match r with
  | Ok _ => True
  | Raise e =>
      e = OverflowError
      \/ (e = ZeroDivisionError
          /\ Exists (fun b => PyFloat.is_zero (mass b) = true) bodies)
  end.

(** [b'] has the mass, the names and the trajectory of [b]. *)
Definition same_static (b b' : Body) : Prop :=
  mass b' = mass b
  /\ name b' = name b
  /\ color b' = color b
  /\ radius b' = radius b
  /\ trajectory b' = trajectory b.

(** [b'] is [b] one step later: the same mass and names, and one more
    trajectory entry, the position [b'] is at. *)
Definition advanced (b b' : Body) : Prop :=
  mass b' = mass b
  /\ name b' = name b
  /\ color b' = color b
  /\ radius b' = radius b
  /\ trajectory b' = trajectory b ++ [position b'].

(** A callback that leaves the masses, names and trajectories alone,
    whether it returns or raises. *)
Definition keeps_static {W : Type} (f : Callable W) : Prop :=
  forall bodies w, Forall2 same_static bodies (fst (fst (f (bodies, w)))).

(** [b'] is [b] up to the stored kinetic energy. *)
Definition same_but_kinetic (b b' : Body) : Prop :=
  mass b' = mass b
  /\ position b' = position b
  /\ velocity b' = velocity b
  /\ acceleration b' = acceleration b
  /\ name b' = name b
  /\ color b' = color b
  /\ radius b' = radius b
  /\ trajectory b' = trajectory b
  /\ potential_energy b' = potential_energy b.

(** [b'] is [b] with its kinetic energy [0.5 * m * |v|^2] stored. *)
Definition kinetic_stored (b b' : Body) : Prop :=
  exists v_squared,
    Vector3D.magnitude_squared (velocity b) = Ok v_squared
    /\ b' = Body.set_kinetic_energy (0.5 * mass b * v_squared)%float b.

(** The body of the loop of [sum_kinetic_energy]. *)
Definition kinetic_step (i : nat) : M (list Body * float) unit :=
  fun '(bodies, acc) =>
    match bodies !! i with
    | None => ((bodies, acc), Raise IndexError)
    | Some body =>
        match Body.calculate_kinetic_energy body with
        | Raise e => ((bodies, acc), Raise e)
        | Ok (body', k) => ((<[i:=body']> bodies, (acc + k)%float), Ok tt)
        end
    end.

(** An outcome that is a return or an [OverflowError]. *)
Definition overflow_at_most {A : Type} (r : result A) : Prop :=
  match r with
  | Ok _ => True
  | Raise e => e = OverflowError
  end.

(** What a step that returns has appended to the three histories of [e],
    seen in the engine [e'] it leaves. *)
Definition sample_recorded (e e' : PhysicsEngine) : Prop :=
  exists kinetic potential,
    energy_history e'
    = energy_history e
      ++ [mkEnergySample (time e') kinetic potential (kinetic + potential)]
    /\ momentum_history e'
       = momentum_history e
         ++ [mkMomentumSample (time e')
               (PhysicsEngine.get_total_momentum e')]
    /\ angular_momentum_history e'
       = angular_momentum_history e
         ++ [mkAngularMomentumSample (time e')
               (PhysicsEngine.get_total_angular_momentum e' None)].

(** The three histories hold the same number of samples. *)
Definition histories_aligned (e : PhysicsEngine) : Prop :=
  length (momentum_history e) = length (energy_history e)
  /\ length (angular_momentum_history e) = length (energy_history e).

(** The energy part of an analysis [a] of the engine [e]. *)
Definition energy_analysed (e : PhysicsEngine) (a : PhysicsEngine.conservation_analysis)
    : Prop :=
  exists first_sample last_sample,
    head (energy_history e) = Some first_sample
    /\ last (energy_history e) = Some last_sample
    /\ PhysicsEngine.energy_initial a = es_total first_sample
    /\ PhysicsEngine.energy_final a = es_total last_sample
    /\ PhysicsEngine.energy_drift a
       = abs (es_total last_sample - es_total first_sample)
    /\ PhysicsEngine.energy_drift_percent a
       = (if (es_total first_sample =? 0)%float then 0
          else PhysicsEngine.energy_drift a / abs (es_total first_sample) * 100)%float.

(** The engine an outcome of [run] leaves. *)
Definition engine_of (o : PhysicsEngine.outcome) : PhysicsEngine :=
  match o with
  | PhysicsEngine.Returned e => e
  | PhysicsEngine.Raised e _ => e
  | PhysicsEngine.StillRunning e => e
  end.

(** What a computation on the bodies [bodies] may come to: a return, an
    [OverflowError], or a [ZeroDivisionError] when a body has mass zero. *)
Definition may_raise {A : Type} (bodies : list Body) (r : result A) : Prop :=
  match r with
  | Ok _ => True
  | Raise e =>
      e = OverflowError
      \/ (e = ZeroDivisionError
          /\ Exists (fun b => PyFloat.is_zero (mass b) = true) bodies)
  end.

(** A callback that raises nothing but what [may_raise] allows. *)
Definition raises_like_gravity {W : Type} (f : Callable W) : Prop :=
  forall bodies w, may_raise bodies (snd (f (bodies, w))).

(** ** Engines used as test inputs *)

(** The Sun and the Earth in an engine with the given integrator and time
    step, before its first step. *)
Definition two_body_engine (integrator : Integrator) (new_dt : float)
    : PhysicsEngine :=
  mkPhysicsEngine integrator Examples.standard
    [Examples.sun; Examples.earth] 0 0 new_dt None None [] [] [].

(** A body without mass, and an engine that holds it. *)
Definition probe : Body :=
  mkBody 0 (mkVector3D 7 0 0) Vector3D.zero Vector3D.zero "probe" "grey" 1
         [mkVector3D 7 0 0] 0 0.

Definition probe_engine : PhysicsEngine :=
  mkPhysicsEngine RK4Integrator Examples.standard [probe; Examples.earth]
    0 0 1 None None [] [] [].

(** * Properties *)

(** ** Basic facts *)

Lemma copy_id (v : Vector3D) : Vector3D.copy v = v.
Proof. by destruct v. Qed.

(** ** Body construction *)

(** C2 (as the code has it): [Body.__init__] does not look at the sign of
    [mass]. For every mass, also zero, a negative one or NaN, construction
    returns a body holding exactly that mass, at rest in its acceleration and
    with a trajectory of the initial position only. No validation error is
    ever raised. *)
Theorem body_init_accepts_every_mass (m : float) (p v : Vector3D)
    (n c : string) (r : float) :
  exists b : Body,
    Body.init m p v n c r = Ok b
    /\ mass b = m /\ position b = p /\ velocity b = v
    /\ acceleration b = Vector3D.zero /\ trajectory b = [p].
Proof.
  eexists; split; [reflexivity|]. by repeat split.
Qed.

(** C2 as stated fails: a negative mass and a zero mass are both accepted. *)
Lemma body_init_nonpositive_mass_accepted :
  ((-1 <=? 0)%float = true
   /\ exists b, Body.init (-1) Vector3D.zero Vector3D.zero "a" "blue" 1 = Ok b
                /\ mass b = (-1)%float)
  /\ ((0 <=? 0)%float = true
      /\ exists b, Body.init 0 Vector3D.zero Vector3D.zero "a" "blue" 1 = Ok b
                   /\ mass b = 0%float).
Proof.
  split; (split; [reflexivity | eexists; split; reflexivity]).
Qed.

(** ** The engine's time step *)

(** C3 (as the code has it): [set_time_step] stores whatever it is given.
    For every [dt], positive or not, the call returns normally, the engine's
    time step is [dt] afterwards and nothing else in the engine changes. *)
Theorem set_time_step_stores_every_dt (new_dt : float) (e : PhysicsEngine) :
  exists e' : PhysicsEngine,
    PhysicsEngine.set_time_step new_dt e = (e', Ok tt)
    /\ dt e' = new_dt
    /\ integrator e' = integrator e
    /\ force_calculator e' = force_calculator e
    /\ bodies e' = bodies e
    /\ time e' = time e
    /\ step_count e' = step_count e
    /\ energy_history e' = energy_history e
    /\ momentum_history e' = momentum_history e
    /\ angular_momentum_history e' = angular_momentum_history e.
Proof.
  eexists; split; [reflexivity|]. by repeat split.
Qed.

(** C3 as stated fails: on a freshly built engine, whose time step is 1.0,
    [set_time_step(-5.0)] and [set_time_step(0.0)] return normally and leave
    the time step at [-5.0] and [0.0]. *)
Lemma set_time_step_nonpositive_accepted :
  exists e0 : PhysicsEngine,
    PhysicsEngine.init "rk4" "standard" Examples.no_kwargs = Ok e0
    /\ dt e0 = 1%float
    /\ (-5 <=? 0)%float = true
    /\ snd (PhysicsEngine.set_time_step (-5) e0) = Ok tt
    /\ dt (fst (PhysicsEngine.set_time_step (-5) e0)) = (-5)%float
    /\ snd (PhysicsEngine.set_time_step 0 e0) = Ok tt
    /\ dt (fst (PhysicsEngine.set_time_step 0 e0)) = 0%float.
Proof.
  eexists; split; [vm_compute; reflexivity|]. by repeat split.
Qed.

(** ** [run] without a target *)

(** C4: [run()] with neither [steps] nor [duration] raises [ValueError]
    before the loop is entered: whatever the callback, its interval and the
    number of iterations allowed, the engine at the raise is the engine at
    the call, so time, step counter, bodies and the three histories are
    untouched. *)
Theorem run_without_target_raises (fuel : nat)
    (callback : option PhysicsEngine.run_callback) (callback_interval : Z)
    (e : PhysicsEngine) :
  PhysicsEngine.run fuel None None callback callback_interval e
  = PhysicsEngine.Raised e ValueError.
Proof. reflexivity. Qed.

(** ** Reset *)

Lemma clear_trajectory_spec (b : Body) :
  trajectory (Body.clear_trajectory b) = [position b]
  /\ position (Body.clear_trajectory b) = position b
  /\ velocity (Body.clear_trajectory b) = velocity b
  /\ acceleration (Body.clear_trajectory b) = acceleration b
  /\ mass (Body.clear_trajectory b) = mass b.
Proof. unfold Body.clear_trajectory; simpl. by rewrite copy_id. Qed.

(** C1 (as the code has it): [reset_simulation] returns normally, zeroes the
    time and the step counter, empties the three histories and gives every
    body a trajectory of one entry, its current position, leaving the body
    otherwise as it was. It does not touch the integrator: a Leapfrog
    integrator keeps its [first_step] flag, whatever its value. *)
Theorem reset_simulation_spec (e : PhysicsEngine) :
  exists e' : PhysicsEngine,
    PhysicsEngine.reset_simulation e = (e', Ok tt)
    /\ time e' = 0%float
    /\ step_count e' = 0%Z
    /\ energy_history e' = []
    /\ momentum_history e' = []
    /\ angular_momentum_history e' = []
    /\ Forall2 cleared (bodies e) (bodies e')
    /\ integrator e' = integrator e.
Proof.
  eexists; split; [reflexivity|]. simpl.
  repeat split; try done.
  apply Forall2_fmap_r, Forall_Forall2_diag, Forall_forall.
  intros b _. apply clear_trajectory_spec.
Qed.

(** C1 as stated fails: a Leapfrog engine that has made one step is Warm
    ([first_step = False]); after [reset_simulation] it still is, and the
    next [step] of its integrator evaluates the forces once, not twice: the
    half-step bootstrap is not repeated. *)
Lemma reset_simulation_keeps_leapfrog_warm :
  exists e1 e2 : PhysicsEngine,
    Examples.after PhysicsEngine.step (Examples.engine "leapfrog" 86400) = Ok e1
    /\ integrator e1 = LeapfrogIntegrator false
    /\ PhysicsEngine.reset_simulation e1 = (e2, Ok tt)
    /\ integrator e2 = LeapfrogIntegrator false
    /\ integrator e2 <> LeapfrogIntegrator true
    /\ instrumented_run 1 (integrator e2) (dt e2)
         (gravity (force_calculator e2)) (bodies e2) tt
       = (LeapfrogIntegrator false, Ok tt, 1).
Proof.
  eexists; eexists; split; [vm_compute; reflexivity|].
  split; [reflexivity|]. split; [vm_compute; reflexivity|].
  split; [reflexivity|]. split; [discriminate|].
  vm_compute. reflexivity.
Qed.

(** ** Floating-point facts *)

Section FloatFacts.

Lemma Prim2SF_zero : Prim2SF 0 = S754_zero false.
Proof. reflexivity. Qed.

(** Adding a positive float to [0.0] is exact. *)
Lemma zero_add_positive (d : float) :
  (0 <? d)%float = true -> (0 + d)%float = d.
Proof.
  intros Hd. apply Prim2SF_inj.
  rewrite FloatAxioms.add_spec. rewrite FloatAxioms.ltb_spec, Prim2SF_zero in Hd.
  rewrite Prim2SF_zero. unfold SF64add.
  by destruct (Prim2SF d) as [[]|[]| |[] m ex].
Qed.

Lemma finite_cases (a : float) :
  is_finite a = true ->
  (exists s, Prim2SF a = S754_zero s)
  \/ (exists s m ex, Prim2SF a = S754_finite s m ex).
Proof.
  unfold is_finite, is_nan, is_infinity.
  rewrite !FloatAxioms.eqb_spec, FloatAxioms.abs_spec.
  change (Prim2SF infinity) with (S754_infinity false).
  destruct (Prim2SF a) as [s|[]| |s m ex]; simpl; try discriminate; eauto.
Qed.

(** A finite float minus itself is [+0.0]. *)
Lemma sub_diag_finite (a : float) :
  is_finite a = true -> (a - a)%float = 0%float.
Proof.
  intros Ha. apply Prim2SF_inj. rewrite FloatAxioms.sub_spec, Prim2SF_zero.
  destruct (finite_cases a Ha) as [[s ->]|(s & m & ex & ->)].
  - by destruct s.
  - unfold SF64sub, SFsub. by rewrite Z.sub_diag.
Qed.

End FloatFacts.

(** ** Running an engine that holds no body *)

Lemma step_no_bodies (e : PhysicsEngine) :
  bodies e = [] -> PhysicsEngine.step e = (e, Ok tt).
Proof. unfold PhysicsEngine.step. by intros ->. Qed.

Lemma while_loop_stuck (cond : PhysicsEngine -> bool) (ci : Z)
    (e : PhysicsEngine) (fuel : nat) :
  bodies e = [] -> cond e = true ->
  PhysicsEngine.while_loop fuel cond None ci e = PhysicsEngine.StillRunning e.
Proof.
  intros Hb Hc. induction fuel as [|fuel IH]; simpl; rewrite Hc; [done|].
  unfold mbind_. by rewrite (step_no_bodies e Hb).
Qed.

(** C9 (as the code has it): on an engine with no body, [step()] returns
    with the engine exactly as it was, so a [run] without callback that
    enters its loop never leaves it: however many iterations it is given, it
    is still running, on the unchanged engine. [run(steps=N)] enters the loop
    for every [N >= 1]; [run(duration=d)] enters it when
    [time < time + d] holds for the floats. *)
Theorem run_no_bodies_never_returns (fuel : nat) (steps : option Z)
    (duration : option float) (callback_interval : Z) (e : PhysicsEngine) :
  bodies e = [] ->
  enters_loop steps duration e = true ->
  PhysicsEngine.step e = (e, Ok tt)
  /\ PhysicsEngine.run fuel steps duration None callback_interval e
     = PhysicsEngine.StillRunning e.
Proof.
  intros Hb He. split; [by apply step_no_bodies|].
  unfold PhysicsEngine.run.
  destruct steps as [n|]; [|destruct duration as [d|]]; simpl in He;
    try discriminate; apply while_loop_stuck; try done.
  apply Z.leb_le in He. apply Z.ltb_lt. lia.
Qed.

(** At time [0.0], every [d > 0] makes [run(duration=d)] enter its loop. *)
Lemma enters_loop_fresh (d : float) (e : PhysicsEngine) :
  time e = 0%float -> (0 <? d)%float = true ->
  enters_loop None (Some d) e = true.
Proof.
  intros Ht Hd. unfold enters_loop. by rewrite Ht, zero_add_positive.
Qed.

Lemma run_no_bodies_never_returns_witness :
  PhysicsEngine.run 1000 (Some 3%Z) None None 1 empty_engine
  = PhysicsEngine.StillRunning empty_engine
  /\ PhysicsEngine.run 1000 None (Some 86400%float) None 1 empty_engine
     = PhysicsEngine.StillRunning empty_engine.
Proof.
  split.
  - apply (run_no_bodies_never_returns 1000 (Some 3%Z) None 1 empty_engine);
      reflexivity.
  - apply (run_no_bodies_never_returns 1000 None (Some 86400%float) 1
             empty_engine); reflexivity.
Defined.

(** C9 as stated fails for [duration]: with no body, a positive duration
    that the clock's float absorbs makes [run] return at once. *)
Lemma run_no_bodies_duration_returns :
  exists e : PhysicsEngine,
    late_empty_engine = Ok e
    /\ bodies e = []
    /\ time e = 1e20%float
    /\ (0 <? 1)%float = true
    /\ PhysicsEngine.run 0 None (Some 1%float) None 1 e
       = PhysicsEngine.Returned e.
Proof.
  eexists. split; [vm_compute; reflexivity|]. by repeat split.
Qed.

(** ** Loops over the bodies *)

Lemma call_method_modify_loop {A : Type} (f : A -> A) (todo done : list A) :
  for_each (seq (length done) (length todo))
           (fun i => call_method i (mmodify f)) (done ++ todo)
  = (done ++ (f <$> todo), Ok tt).
Proof.
  revert done. induction todo as [|a todo IH]; intros done; simpl.
  - by rewrite !app_nil_r.
  - unfold mbind_ at 1, call_method at 1, mmodify at 1.
    rewrite list_lookup_middle by done.
    rewrite insert_app_r_alt, Nat.sub_diag by done. simpl.
    specialize (IH (done ++ [f a])).
    rewrite length_app, Nat.add_comm in IH. simpl in IH.
    by rewrite <- !(assoc_L (++)) in IH.
Qed.

Lemma for_bodies_fmap (f : Body -> Body) (bodies : list Body) :
  for_bodies f bodies = (f <$> bodies, Ok tt).
Proof. apply (call_method_modify_loop f bodies []). Qed.

Lemma on_bodies_for_bodies {W : Type} (f : Body -> Body) (bodies : list Body)
    (w : W) :
  on_bodies (for_bodies f) (bodies, w) = ((f <$> bodies, w), Ok tt).
Proof. unfold on_bodies. by rewrite for_bodies_fmap. Qed.

Lemma euler_update_spec (dt : float) (b : Body) :
  euler_updated dt b (Body.update_position dt (Body.update_velocity dt b)).
Proof.
  unfold euler_updated, Body.update_position, Body.update_velocity; simpl.
  by rewrite copy_id.
Qed.

Lemma euler_step_eq {W : Type} (dt : float) (f : Callable W) (s : St W) :
  EulerIntegrator.step dt f s
  = match f s with
    | ((bodies1, w1), Ok _) =>
        ((Body.update_position dt <$> (Body.update_velocity dt <$> bodies1),
          w1), Ok tt)
    | (s1, Raise e) => (s1, Raise e)
    end.
Proof.
  unfold EulerIntegrator.step, mbind_.
  destruct (f s) as [[bodies1 w1] [[]|e]]; [|done].
  by rewrite !on_bodies_for_bodies.
Qed.

(** ** The Euler step *)



(** ** Counting force evaluations *)

Lemma counting_returns {W : Type} (f : Callable W) :
  returns_normally f ->
  forall bodies w c, exists bodies' w',
    counting f (bodies, (w, c)) = ((bodies', (w', S c)), Ok tt)
    /\ length bodies' = length bodies.
Proof.
  intros Hf bodies w c. destruct (Hf bodies w) as (bodies' & w' & Hfw & Hlen).
  exists bodies', w'. unfold counting. by rewrite Hfw.
Qed.

(** A loop of method calls none of which raises completes and keeps the
    list at its length. *)
Lemma call_method_loop_ok {A : Type} (g : nat -> M A unit) (n : nat) :
  forall (k : nat) (l : list A),
    k + n <= length l ->
    (forall i a, i < length l -> snd (g i a) = Ok tt) ->
    exists l', for_each (seq k n) (fun i => call_method i (g i)) l = (l', Ok tt)
               /\ length l' = length l.
Proof.
  induction n as [|n IH]; intros k l Hk Hg; simpl.
  - by exists l.
  - unfold mbind_ at 1, call_method at 1.
    destruct (lookup_lt_is_Some_2 l k) as [a Ha]; [lia|]. rewrite Ha.
    specialize (Hg k a ltac:(lia)) as Hga.
    destruct (g k a) as [a' r]. simpl in Hga. subst r.
    destruct (IH (S k) (<[k:=a']> l)) as (l' & Hl' & Hlen).
    + rewrite length_insert. lia.
    + intros i b Hi. rewrite length_insert in Hi. by apply Hg.
    + exists l'. split; [done|]. by rewrite Hlen, length_insert.
Qed.

Lemma for_enumerate_ok (g : nat -> M Body unit) (bodies : list Body) :
  (forall i b, i < length bodies -> snd (g i b) = Ok tt) ->
  exists bodies', for_enumerate g bodies = (bodies', Ok tt)
                  /\ length bodies' = length bodies.
Proof. intros Hg. by apply (call_method_loop_ok g (length bodies) 0). Qed.

Lemma index_lt {A : Type} (l : list A) (i : nat) :
  i < length l -> exists a, index l i = Ok a.
Proof.
  intros Hi. destruct (lookup_lt_is_Some_2 l i Hi) as [a Ha].
  exists a. unfold index. by rewrite Ha.
Qed.

Lemma capture_loop_ok (dt : float) (bodies : list Body) :
  forall (off : nat) (kp kv : list Vector3D),
    off + length bodies <= length kp -> length kv = length kp ->
    exists kp' kv',
      for_each (imap (fun i body => (off + i, body)) bodies)
               (RK4Integrator.capture_one dt) (kp, kv)
      = ((kp', kv'), Ok tt)
      /\ length kp' = length kp /\ length kv' = length kp.
Proof.
  induction bodies as [|b bodies IH]; intros off kp kv Hoff Hkv; simpl.
  - by exists kp, kv.
  - simpl in Hoff. rewrite Nat.add_0_r.
    unfold mbind_ at 1, RK4Integrator.capture_one at 1, setitem.
    destruct (lookup_lt_is_Some_2 kp off) as [a Ha]; [lia|]. rewrite Ha.
    destruct (lookup_lt_is_Some_2 kv off) as [a' Ha']; [lia|]. rewrite Ha'.
    rewrite (imap_ext _ (fun i body => (S off + i, body)))
      by (intros; simpl; f_equal; lia).
    destruct (IH (S off) (<[off:=Vector3D.mul (velocity b) dt]> kp)
                 (<[off:=Vector3D.mul (acceleration b) dt]> kv))
      as (kp' & kv' & Heq & Hl1 & Hl2).
    + rewrite length_insert. lia.
    + by rewrite !length_insert.
    + exists kp', kv'. rewrite Heq. by rewrite Hl1, Hl2, !length_insert.
Qed.

Lemma capture_ok (dt : float) (bodies : list Body) (n : nat) :
  length bodies <= n ->
  exists k,
    RK4Integrator.capture dt bodies
      (replicate n Vector3D.zero, replicate n Vector3D.zero) = (k, Ok tt)
    /\ length (fst k) = n /\ length (snd k) = n.
Proof.
  intros Hn.
  destruct (capture_loop_ok dt bodies 0 (replicate n Vector3D.zero)
              (replicate n Vector3D.zero)) as (kp & kv & Heq & H1 & H2).
  - by rewrite length_replicate.
  - done.
  - exists (kp, kv). rewrite length_replicate in H1, H2. by split.
Qed.

Lemma stage_counting {W : Type} (f : Callable W) (n : nat) (dt : float) :
  returns_normally f ->
  forall bodies w c, length bodies <= n ->
    exists bodies' w' k,
      RK4Integrator.stage n dt (counting f) (bodies, (w, c))
      = ((bodies', (w', S c)), Ok k)
      /\ length bodies' = length bodies
      /\ length (fst k) = n /\ length (snd k) = n.
Proof.
  intros Hf bodies w c Hn.
  destruct (counting_returns f Hf bodies w c) as (bodies' & w' & Heq & Hlen).
  destruct (capture_ok dt bodies' n) as (k & Hk & Hk1 & Hk2); [lia|].
  exists bodies', w', k. unfold RK4Integrator.stage, mbind_.
  by rewrite Heq, Hk.
Qed.

Lemma set_working_state_ok (ip iv : list Vector3D)
    (k : list Vector3D * list Vector3D) (scale : Vector3D -> Vector3D)
    (i : nat) (b : Body) :
  i < length ip -> i < length iv -> i < length (fst k) -> i < length (snd k) ->
  snd (RK4Integrator.set_working_state ip iv k scale i b) = Ok tt.
Proof.
  intros H1 H2 H3 H4.
  destruct (index_lt ip i H1) as [p0 Hp0], (index_lt iv i H2) as [v0 Hv0],
    (index_lt (fst k) i H3) as [kp Hkp], (index_lt (snd k) i H4) as [kv Hkv].
  unfold RK4Integrator.set_working_state, mbind_, atomic.
  by rewrite Hp0, Hkp, Hv0, Hkv.
Qed.

Lemma increment_ok (k1 k2 k3 k4 : Vector3D) :
  exists v, RK4Integrator.increment k1 k2 k3 k4 = Ok v.
Proof. eexists. reflexivity. Qed.

Lemma final_update_ok (ip iv : list Vector3D)
    (k1 k2 k3 k4 : list Vector3D * list Vector3D) (i : nat) (b : Body) :
  i < length ip -> i < length iv ->
  i < length (fst k1) -> i < length (snd k1) ->
  i < length (fst k2) -> i < length (snd k2) ->
  i < length (fst k3) -> i < length (snd k3) ->
  i < length (fst k4) -> i < length (snd k4) ->
  snd (RK4Integrator.final_update ip iv k1 k2 k3 k4 i b) = Ok tt.
Proof.
  intros Hp Hv H1 H1' H2 H2' H3 H3' H4 H4'.
  destruct (index_lt ip i Hp) as [p0 Hp0], (index_lt iv i Hv) as [v0 Hv0],
    (index_lt _ i H1) as [a1 E1], (index_lt _ i H1') as [a1' E1'],
    (index_lt _ i H2) as [a2 E2], (index_lt _ i H2') as [a2' E2'],
    (index_lt _ i H3) as [a3 E3], (index_lt _ i H3') as [a3' E3'],
    (index_lt _ i H4) as [a4 E4], (index_lt _ i H4') as [a4' E4'].
  unfold RK4Integrator.final_update, mbind_, atomic, mlift, mmodify.
  rewrite E1, E2, E3, E4, E1', E2', E3', E4', Hp0, Hv0. reflexivity.
Qed.

Lemma on_bodies_enumerate_ok {W : Type} (g : nat -> M Body unit)
    (bodies : list Body) (w : W) :
  (forall i b, i < length bodies -> snd (g i b) = Ok tt) ->
  exists bodies',
    on_bodies (for_enumerate g) (bodies, w) = ((bodies', w), Ok tt)
    /\ length bodies' = length bodies.
Proof.
  intros Hg. destruct (for_enumerate_ok g bodies Hg) as (bodies' & Heq & Hl).
  exists bodies'. unfold on_bodies. by rewrite Heq.
Qed.

Lemma rk4_step_counting {W : Type} (f : Callable W) (dt : float) :
  returns_normally f ->
  forall bodies w c, exists bodies' w',
    RK4Integrator.step dt (counting f) (bodies, (w, c))
    = ((bodies', (w', 4 + c)), Ok tt)
    /\ length bodies' = length bodies.
Proof.
  intros Hf bodies w c. unfold RK4Integrator.step.
  set (n := length bodies).
  set (ip := (fun body => Vector3D.copy (position body)) <$> bodies).
  set (iv := (fun body => Vector3D.copy (velocity body)) <$> bodies).
  assert (Hip : length ip = n) by apply length_fmap.
  assert (Hiv : length iv = n) by apply length_fmap.
  destruct (stage_counting f n dt Hf bodies w c) as
    (b1 & w1 & k1 & E1 & L1 & K1 & K1'); [done|].
  destruct (on_bodies_enumerate_ok
              (RK4Integrator.set_working_state ip iv k1
                 (fun k => Vector3D.mul k 0.5)) b1 (w1, S c))
    as (b1' & E1' & L1').
  { intros i b Hi. apply set_working_state_ok; lia. }
  destruct (stage_counting f n dt Hf b1' w1 (S c)) as
    (b2 & w2 & k2 & E2 & L2 & K2 & K2'); [lia|].
  destruct (on_bodies_enumerate_ok
              (RK4Integrator.set_working_state ip iv k2
                 (fun k => Vector3D.mul k 0.5)) b2 (w2, S (S c)))
    as (b2' & E2' & L2').
  { intros i b Hi. apply set_working_state_ok; lia. }
  destruct (stage_counting f n dt Hf b2' w2 (S (S c))) as
    (b3 & w3 & k3 & E3 & L3 & K3 & K3'); [lia|].
  destruct (on_bodies_enumerate_ok
              (RK4Integrator.set_working_state ip iv k3 (fun k => k))
              b3 (w3, S (S (S c))))
    as (b3' & E3' & L3').
  { intros i b Hi. apply set_working_state_ok; lia. }
  destruct (stage_counting f n dt Hf b3' w3 (S (S (S c)))) as
    (b4 & w4 & k4 & E4 & L4 & K4 & K4'); [lia|].
  destruct (on_bodies_enumerate_ok
              (RK4Integrator.final_update ip iv k1 k2 k3 k4)
              b4 (w4, S (S (S (S c)))))
    as (b4' & E4' & L4').
  { intros i b Hi. apply final_update_ok; lia. }
  exists b4', w4. unfold mbind_.
  rewrite E1, E1', E2, E2', E3, E3', E4, E4'. split; [done|]. lia.
Qed.

Lemma euler_step_counting {W : Type} (f : Callable W) (dt : float) :
  returns_normally f ->
  forall bodies w c, exists bodies' w',
    EulerIntegrator.step dt (counting f) (bodies, (w, c))
    = ((bodies', (w', 1 + c)), Ok tt)
    /\ length bodies' = length bodies.
Proof.
  intros Hf bodies w c.
  destruct (counting_returns f Hf bodies w c) as (b1 & w1 & E1 & L1).
  eexists _, w1. rewrite euler_step_eq, E1. split; [reflexivity|].
  by rewrite !length_fmap.
Qed.

Lemma leapfrog_step_counting {W : Type} (f : Callable W) (dt : float) :
  returns_normally f ->
  forall (first_step : bool) bodies w c, exists bodies' w',
    LeapfrogIntegrator.step dt (counting f) (first_step, (bodies, (w, c)))
    = ((false, (bodies', (w', (if first_step then 2 else 1) + c))), Ok tt)
    /\ length bodies' = length bodies.
Proof.
  intros Hf first_step bodies w c.
  unfold LeapfrogIntegrator.step, LeapfrogIntegrator.bootstrap, mbind_,
    LeapfrogIntegrator.with_flag, LeapfrogIntegrator.set_first_step.
  destruct first_step; cbn [fst snd].
  - destruct (counting_returns f Hf bodies w c) as (b1 & w1 & E1 & L1).
    rewrite E1, on_bodies_for_bodies.
    destruct (counting_returns f Hf
                (LeapfrogIntegrator.half_kick dt <$> b1) w1 (S c))
      as (b2 & w2 & E2 & L2).
    rewrite E2, !on_bodies_for_bodies. eexists _, w2.
    split; [reflexivity|]. rewrite !length_fmap, L2, length_fmap. done.
  - destruct (counting_returns f Hf bodies w c) as (b1 & w1 & E1 & L1).
    rewrite E1, !on_bodies_for_bodies. eexists _, w1.
    split; [reflexivity|]. by rewrite !length_fmap.
Qed.

Section Counting.

Context {W : Type} (f : Callable W) (dt : float).
Hypothesis Hf : returns_normally f.

Lemma repeat_euler_counting (k : nat) :
  forall bodies w c, exists bodies' w',
    repeat_step k dt (counting f) (EulerIntegrator, (bodies, (w, c)))
    = ((EulerIntegrator, (bodies', (w', k + c))), Ok tt).
Proof using Hf.
  induction k as [|k IH]; intros bodies w c; simpl repeat_step.
  - by exists bodies, w.
  - unfold mbind_, Integrator_step.
    destruct (euler_step_counting f dt Hf bodies w c) as (b1 & w1 & -> & _).
    destruct (IH b1 w1 (1 + c)) as (b2 & w2 & E2).
    exists b2, w2. rewrite E2. do 3 f_equal. f_equal. lia.
Qed.

Lemma repeat_rk4_counting (k : nat) :
  forall bodies w c, exists bodies' w',
    repeat_step k dt (counting f) (RK4Integrator, (bodies, (w, c)))
    = ((RK4Integrator, (bodies', (w', 4 * k + c))), Ok tt).
Proof using Hf.
  induction k as [|k IH]; intros bodies w c; simpl repeat_step.
  - by exists bodies, w.
  - unfold mbind_, Integrator_step.
    destruct (rk4_step_counting f dt Hf bodies w c) as (b1 & w1 & -> & _).
    destruct (IH b1 w1 (4 + c)) as (b2 & w2 & E2).
    exists b2, w2. rewrite E2. do 3 f_equal. f_equal. lia.
Qed.

Lemma repeat_warm_leapfrog_counting (k : nat) :
  forall bodies w c, exists bodies' w',
    repeat_step k dt (counting f) (LeapfrogIntegrator false, (bodies, (w, c)))
    = ((LeapfrogIntegrator false, (bodies', (w', k + c))), Ok tt).
Proof using Hf.
  induction k as [|k IH]; intros bodies w c; simpl repeat_step.
  - by exists bodies, w.
  - unfold mbind_, Integrator_step.
    destruct (leapfrog_step_counting f dt Hf false bodies w c)
      as (b1 & w1 & -> & _).
    destruct (IH b1 w1 (1 + c)) as (b2 & w2 & E2).
    exists b2, w2. rewrite E2. do 3 f_equal. f_equal. lia.
Qed.

Lemma repeat_cold_leapfrog_counting (k : nat) :
  forall bodies w c, exists bodies' w',
    repeat_step (S k) dt (counting f)
      (LeapfrogIntegrator true, (bodies, (w, c)))
    = ((LeapfrogIntegrator false, (bodies', (w', S k + 1 + c))), Ok tt).
Proof using Hf.
  intros bodies w c. simpl repeat_step. unfold mbind_, Integrator_step.
  destruct (leapfrog_step_counting f dt Hf true bodies w c)
    as (b1 & w1 & -> & _).
  destruct (repeat_warm_leapfrog_counting k b1 w1 (2 + c)) as (b2 & w2 & E2).
  exists b2, w2. rewrite E2. do 3 f_equal. f_equal. lia.
Qed.

End Counting.


Lemma uniform_field_returns_normally : returns_normally uniform_field.
Proof.
  intros bodies w. eexists _, w. unfold uniform_field.
  rewrite on_bodies_for_bodies. split; [reflexivity|]. by rewrite length_fmap.
Defined.


(** ** Force evaluations of a step that returns, whatever the callback *)

Section Ticks.

Context {W : Type}.
Implicit Types f : Callable W.

Lemma ticks_counting f : ticks 1 (counting f).
Proof.
  intros bodies w k bodies' w' k' a. unfold counting.
  destruct (f (bodies, w)) as [[b1 w1] r]. by intros [= _ _ <- _].
Qed.

Lemma ticks_on_bodies {A : Type} (c : M (list Body) A) :
  ticks (W:=W) 0 (on_bodies c).
Proof.
  intros bodies w k bodies' w' k' a. unfold on_bodies.
  destruct (c bodies) as [b1 r]. by intros [= _ _ <- _].
Qed.

Lemma ticks_bind {A B : Type} (n m : nat)
    (c : M (list Body * (W * nat)) A) (g : A -> M (list Body * (W * nat)) B) :
  ticks n c -> (forall a, ticks m (g a)) -> ticks (m + n) (mbind_ c g).
Proof.
  intros Hc Hg bodies w k bodies' w' k' b. unfold mbind_.
  destruct (c (bodies, (w, k))) as [[b1 [w1 k1]] [a|e]] eqn:Hck; [|done].
  intros Hgk. apply Hc in Hck. apply Hg in Hgk. lia.
Qed.

Lemma ticks_stage f (n : nat) (dt : float) :
  ticks 1 (RK4Integrator.stage n dt (counting f)).
Proof.
  unfold RK4Integrator.stage. apply (ticks_bind 1 0); [apply ticks_counting|].
  intros _ bodies w k bodies' w' k' a.
  destruct (RK4Integrator.capture dt bodies _) as [ks [[]|e]]; [|done].
  by intros [= _ _ <- _].
Qed.

Lemma ticks_euler f (dt : float) :
  ticks 1 (EulerIntegrator.step dt (counting f)).
Proof.
  unfold EulerIntegrator.step.
  apply (ticks_bind 1 0); [apply ticks_counting|]. intros _.
  apply (ticks_bind 0 0); [apply ticks_on_bodies|]. intros _.
  apply ticks_on_bodies.
Qed.

Lemma ticks_rk4 f (dt : float) :
  ticks 4 (RK4Integrator.step dt (counting f)).
Proof.
  intros bodies w k bodies' w' k' a. unfold RK4Integrator.step.
  cbv beta iota zeta.
  match goal with
  | |- ?c _ = _ -> _ => assert (ticks 4 c) as Ht; [|by apply Ht]
  end.
  apply (ticks_bind 1 3); [apply ticks_stage|]. intros k1.
  apply (ticks_bind 0 3); [apply ticks_on_bodies|]. intros _.
  apply (ticks_bind 1 2); [apply ticks_stage|]. intros k2.
  apply (ticks_bind 0 2); [apply ticks_on_bodies|]. intros _.
  apply (ticks_bind 1 1); [apply ticks_stage|]. intros k3.
  apply (ticks_bind 0 1); [apply ticks_on_bodies|]. intros _.
  apply (ticks_bind 1 0); [apply ticks_stage|]. intros k4.
  apply ticks_on_bodies.
Qed.

Lemma leapfrog_step_ticks f (dt : float) (first_step first_step' : bool)
    (bodies bodies' : list Body) (w w' : W) (k k' : nat) :
  LeapfrogIntegrator.step dt (counting f) (first_step, (bodies, (w, k)))
  = ((first_step', (bodies', (w', k'))), Ok tt) ->
  first_step' = false /\ k' = (if first_step then 2 else 1) + k.
Proof.
  unfold LeapfrogIntegrator.step, LeapfrogIntegrator.bootstrap, mbind_,
    LeapfrogIntegrator.with_flag, LeapfrogIntegrator.set_first_step.
  destruct first_step; cbn [fst snd].
  - destruct (counting f (bodies, (w, k))) as [[b1 [w1 k1]] [[]|e]] eqn:E1;
      [|done].
    apply ticks_counting in E1. rewrite !on_bodies_for_bodies.
    destruct (counting f _) as [[b2 [w2 k2]] [[]|e]] eqn:E2; [|done].
    apply ticks_counting in E2. rewrite !on_bodies_for_bodies.
    intros [= <- _ _ <-]. split; [done|lia].
  - destruct (counting f (bodies, (w, k))) as [[b1 [w1 k1]] [[]|e]] eqn:E1;
      [|done].
    apply ticks_counting in E1. rewrite !on_bodies_for_bodies.
    intros [= <- _ _ <-]. split; [done|lia].
Qed.

(** Whatever the callback does, a step that returns normally has made
    exactly [evaluations] invocations of it. *)
Lemma evaluations_when_step_returns f (dt : float)
    (integrator integrator' : Integrator) (bodies bodies' : list Body)
    (w w' : W) (k k' : nat) :
  Integrator_step dt (counting f) (integrator, (bodies, (w, k)))
  = ((integrator', (bodies', (w', k'))), Ok tt) ->
  k' = evaluations integrator + k.
Proof.
  unfold Integrator_step. destruct integrator as [| |first_step].
  - destruct (EulerIntegrator.step _ _ _) as [[b1 [w1 k1]] r] eqn:E.
    intros [= _ _ _ <- ->]. by apply ticks_euler in E.
  - destruct (RK4Integrator.step _ _ _) as [[b1 [w1 k1]] r] eqn:E.
    intros [= _ _ _ <- ->]. by apply ticks_rk4 in E.
  - destruct (LeapfrogIntegrator.step _ _ _) as [[fs [b1 [w1 k1]]] r] eqn:E.
    intros [= _ _ _ <- ->]. by apply leapfrog_step_ticks in E as [_ ->].
Qed.

End Ticks.

(** The engine's own callback on the Sun and the Earth. *)
Lemma gravity_evaluations_example :
  instrumented_run 1 EulerIntegrator 86400 (gravity Examples.standard)
    [Examples.sun; Examples.earth] tt = (EulerIntegrator, Ok tt, 1)
  /\ instrumented_run 1 RK4Integrator 86400 (gravity Examples.standard)
       [Examples.sun; Examples.earth] tt = (RK4Integrator, Ok tt, 4)
  /\ instrumented_run 1 (LeapfrogIntegrator true) 86400
       (gravity Examples.standard) [Examples.sun; Examples.earth] tt
     = (LeapfrogIntegrator false, Ok tt, 2)
  /\ instrumented_run 5 (LeapfrogIntegrator true) 86400
       (gravity Examples.standard) [Examples.sun; Examples.earth] tt
     = (LeapfrogIntegrator false, Ok tt, 6).
Proof. repeat split; vm_compute; reflexivity. Qed.

Lemma standard_is_default :
  GravitationalForceCalculator.init G 0 = Ok Examples.standard
  /\ create_force_calculator "standard" Examples.no_kwargs
     = Ok Examples.standard.
Proof. split; vm_compute; reflexivity. Qed.


(** ** Loops *)

Lemma for_each_invariant {S X : Type} (P : S -> Prop) (body : X -> M S unit)
    (l : list X) :
  (forall x s, P s -> P (fst (body x s))) ->
  forall s, P s -> P (fst (for_each l body s)).
Proof.
  intros Hbody. induction l as [|x l IH]; intros s Hs; simpl; [done|].
  unfold mbind_. specialize (Hbody x s Hs).
  destruct (body x s) as [s' [[]|e]]; simpl in *; [by apply IH | done].
Qed.

Lemma for_each_app {S X : Type} (body : X -> M S unit) (l1 l2 : list X)
    (s : S) :
  for_each (l1 ++ l2) body s = (for_each l1 body ;; for_each l2 body) s.
Proof.
  revert s. induction l1 as [|x l1 IH]; intros s; simpl; [done|].
  unfold mbind_ in *. destruct (body x s) as [s' [[]|e]]; [apply IH | done].
Qed.

Lemma for_each_fmap {S X Y : Type} (g : X -> Y) (body : Y -> M S unit)
    (l : list X) (s : S) :
  for_each (g <$> l) body s = for_each l (fun x => body (g x)) s.
Proof.
  revert s. induction l as [|x l IH]; intros s; simpl; [done|].
  unfold mbind_. destruct (body (g x) s) as [s' [[]|e]]; [apply IH | done].
Qed.

Lemma for_each_flat_map {S X Y : Type} (g : X -> list Y)
    (body : Y -> M S unit) (l : list X) (s : S) :
  for_each (flat_map g l) body s = for_each l (fun x => for_each (g x) body) s.
Proof.
  revert s. induction l as [|x l IH]; intros s; simpl; [done|].
  rewrite for_each_app. unfold mbind_.
  destruct (for_each (g x) body s) as [s' [[]|e]]; [apply IH | done].
Qed.

Lemma for_each_ext {S X : Type} (body body' : X -> M S unit) (l : list X) :
  (forall x s, body x s = body' x s) ->
  forall s, for_each l body s = for_each l body' s.
Proof.
  intros Hext. induction l as [|x l IH]; intros s; simpl; [done|].
  unfold mbind_. rewrite Hext.
  destruct (body' x s) as [s' [[]|e]]; [apply IH | done].
Qed.

(** The two nested loops of [calculate_forces] run over [pairs]. *)
Lemma calculate_forces_pairs (fc : GravitationalForceCalculator)
    (bodies : list Body) :
  GravitationalForceCalculator.calculate_forces fc bodies
  = for_each (pairs (length bodies))
      (fun ij => GravitationalForceCalculator.pair_forces fc ij.1 ij.2)
      (Body.reset_forces <$> bodies).
Proof.
  unfold GravitationalForceCalculator.calculate_forces, pairs, mbind_, mmodify.
  rewrite for_each_flat_map. apply for_each_ext.
  intros i s. by rewrite for_each_fmap.
Qed.

(** ** The frame of [calculate_forces] *)

Lemma same_but_acceleration_refl (b : Body) : same_but_acceleration b b.
Proof. by repeat split. Qed.

Lemma same_but_acceleration_trans (b1 b2 b3 : Body) :
  same_but_acceleration b1 b2 -> same_but_acceleration b2 b3 ->
  same_but_acceleration b1 b3.
Proof.
  unfold same_but_acceleration. intros H1 H2.
  destruct_and!. repeat split; congruence.
Qed.

Lemma set_acceleration_frame (a : Vector3D) (b : Body) :
  same_but_acceleration b (Body.set_acceleration a b).
Proof. by repeat split. Qed.

Lemma add_force_frame (force : Vector3D) (b : Body) :
  same_but_acceleration b (fst (atomic (Body.add_force force) b)).
Proof.
  unfold atomic, Body.add_force.
  destruct (Vector3D.truediv force (mass b)) as [a|e]; simpl.
  - apply set_acceleration_frame.
  - apply same_but_acceleration_refl.
Qed.

Lemma call_method_frame (R : Body -> Body -> Prop) (i : nat)
    (method : M Body unit) (bodies0 bodies : list Body) :
  (forall b, R b b) ->
  (forall b1 b2 b3, R b1 b2 -> R b2 b3 -> R b1 b3) ->
  (forall b, R b (fst (method b))) ->
  Forall2 R bodies0 bodies ->
  Forall2 R bodies0 (fst (call_method i method bodies)).
Proof.
  intros Hrefl Htrans Hm H. unfold call_method.
  destruct (bodies !! i) as [b|] eqn:Hb; [|done].
  specialize (Hm b). destruct (method b) as [b' r]. simpl in *.
  apply Forall2_same_length_lookup. apply Forall2_same_length_lookup in H.
  destruct H as [Hlen H]. split; [by rewrite length_insert|].
  intros k b0 b1 Hb0 Hb1.
  destruct (decide (k = i)) as [->|Hne].
  - rewrite list_lookup_insert_eq in Hb1 by (by eapply lookup_lt_Some).
    injection Hb1 as <-. eapply Htrans; [by eapply H|done].
  - rewrite list_lookup_insert_ne in Hb1 by done. by eapply H.
Qed.

Lemma pair_forces_frame (fc : GravitationalForceCalculator) (i j : nat)
    (bodies0 bodies : list Body) :
  Forall2 same_but_acceleration bodies0 bodies ->
  Forall2 same_but_acceleration bodies0
    (fst (GravitationalForceCalculator.pair_forces fc i j bodies)).
Proof.
  intros H. unfold GravitationalForceCalculator.pair_forces, mbind_, getitem,
    mlift.
  destruct (bodies !! i) as [bi|]; [|done].
  destruct (bodies !! j) as [bj|]; [|done].
  destruct (GravitationalForceCalculator._calculate_pairwise_force fc bi bj)
    as [force|e]; [|done].
  pose proof (call_method_frame same_but_acceleration i
                (atomic (Body.add_force force)) bodies0 bodies
                same_but_acceleration_refl same_but_acceleration_trans
                (add_force_frame force) H) as H1.
  destruct (call_method i (atomic (Body.add_force force)) bodies)
    as [bodies1 [[]|e]]; [|done]. simpl in H1.
  apply (call_method_frame same_but_acceleration j
           (atomic (Body.add_force (Vector3D.neg force))) bodies0 bodies1
           same_but_acceleration_refl same_but_acceleration_trans
           (add_force_frame _) H1).
Qed.

Lemma calculate_forces_preserves (fc : GravitationalForceCalculator)
    (bodies : list Body) :
  Forall2 same_but_acceleration bodies
    (fst (GravitationalForceCalculator.calculate_forces fc bodies)).
Proof.
  rewrite calculate_forces_pairs.
  apply (for_each_invariant (Forall2 same_but_acceleration bodies)).
  - intros ij s Hs. by apply pair_forces_frame.
  - apply Forall2_fmap_r, Forall_Forall2_diag, Forall_forall.
    intros b _. apply set_acceleration_frame.
Qed.

(** C10: one call of [calculate_forces] changes nothing of a body but its
    acceleration: whether the call returns or raises, the list it leaves has
    the same bodies in the same order, each with the mass, position,
    velocity, trajectory, name, color, radius and stored energies it had. *)
Theorem calculate_forces_frame (fc : GravitationalForceCalculator)
    (bodies : list Body) :
  length (fst (GravitationalForceCalculator.calculate_forces fc bodies))
  = length bodies
  /\ Forall2 same_but_acceleration bodies
       (fst (GravitationalForceCalculator.calculate_forces fc bodies)).
Proof.
  pose proof (calculate_forces_preserves fc bodies) as H.
  split; [symmetry; by eapply Forall2_length | done].
Qed.

(** ** Newton's third law in [calculate_forces] *)

Lemma truediv_ok (v q : Vector3D) (m : float) :
  Vector3D.truediv v m = Ok q -> q = divided v m.
Proof.
  unfold Vector3D.truediv, PyFloat.truediv, divided.
  destruct (PyFloat.is_zero m); simpl; [discriminate|]. by intros [= <-].
Qed.

Lemma pairwise_force_ext (fc : GravitationalForceCalculator)
    (b1 b1' b2 b2' : Body) :
  same_but_acceleration b1 b1' -> same_but_acceleration b2 b2' ->
  GravitationalForceCalculator._calculate_pairwise_force fc b1' b2'
  = GravitationalForceCalculator._calculate_pairwise_force fc b1 b2.
Proof.
  intros (Hm1 & Hp1 & _) (Hm2 & Hp2 & _).
  unfold GravitationalForceCalculator._calculate_pairwise_force.
  by rewrite Hm1, Hp1, Hm2, Hp2.
Qed.

Lemma pair_force_ext (fc : GravitationalForceCalculator)
    (bodies0 bodies : list Body) (ij : nat * nat) :
  Forall2 same_but_acceleration bodies0 bodies ->
  pair_force fc bodies ij = pair_force fc bodies0 ij.
Proof.
  intros H. unfold pair_force.
  pose proof (proj1 (Forall2_lookup _ _ _) H ij.1) as Hi.
  pose proof (proj1 (Forall2_lookup _ _ _) H ij.2) as Hj.
  destruct Hi as [bi0 bi Hi|]; [|done].
  destruct Hj as [bj0 bj Hj|]; [|done].
  by apply pairwise_force_ext.
Qed.

Lemma pair_forces_ok (fc : GravitationalForceCalculator) (i j : nat)
    (bodies bodies1 : list Body) :
  i <> j ->
  GravitationalForceCalculator.pair_forces fc i j bodies = (bodies1, Ok tt) ->
  exists bi bj F,
    bodies !! i = Some bi /\ bodies !! j = Some bj
    /\ GravitationalForceCalculator._calculate_pairwise_force fc bi bj = Ok F
    /\ bodies1
       = <[j:=Body.set_acceleration
                (Vector3D.add (acceleration bj)
                   (divided (Vector3D.neg F) (mass bj))) bj]>
           (<[i:=Body.set_acceleration
                   (Vector3D.add (acceleration bi) (divided F (mass bi))) bi]>
              bodies).
Proof.
  intros Hij.
  unfold GravitationalForceCalculator.pair_forces, mbind_, getitem, mlift.
  destruct (bodies !! i) as [bi|] eqn:Hi; [|done].
  destruct (bodies !! j) as [bj|] eqn:Hj; [|done].
  destruct (GravitationalForceCalculator._calculate_pairwise_force fc bi bj)
    as [F|e] eqn:HF; [|done].
  unfold call_method at 1, atomic at 1, Body.add_force at 1. rewrite Hi.
  destruct (Vector3D.truediv F (mass bi)) as [qi|e] eqn:Hqi; simpl; [|done].
  unfold call_method, atomic, Body.add_force.
  rewrite list_lookup_insert_ne, Hj by done.
  destruct (Vector3D.truediv (Vector3D.neg F) (mass bj)) as [qj|e] eqn:Hqj;
    simpl; [|done].
  intros [= <-]. exists bi, bj, F.
  by rewrite (truediv_ok _ _ _ Hqi), (truediv_ok _ _ _ Hqj).
Qed.

Lemma pairs_lt (n : nat) : Forall (fun ij => ij.1 < ij.2 < n) (pairs n).
Proof.
  unfold pairs, GravitationalForceCalculator.range_from.
  apply Forall_forall. intros [i j] Hin.
  apply list_elem_of_In, in_flat_map in Hin. destruct Hin as (i' & _ & Hin).
  apply list_elem_of_In, list_elem_of_fmap in Hin.
  destruct Hin as (j' & [= -> ->] & Hj).
  apply elem_of_seq in Hj. simpl. lia.
Qed.

Lemma pairs_loop_accumulates (fc : GravitationalForceCalculator)
    (bodies0 : list Body) (ps : list (nat * nat)) :
  forall bodies bodies' : list Body,
    Forall (fun ij => ij.1 <> ij.2) ps ->
    Forall2 same_but_acceleration bodies0 bodies ->
    for_each ps
      (fun ij => GravitationalForceCalculator.pair_forces fc ij.1 ij.2) bodies
    = (bodies', Ok tt) ->
    Forall (fun ij => exists F, pair_force fc bodies0 ij = Ok F) ps
    /\ forall k b b', bodies !! k = Some b -> bodies' !! k = Some b' ->
         acceleration b'
         = fold_left (contribute fc bodies0 k (mass b)) ps (acceleration b).
Proof.
  induction ps as [|[i j] ps IH]; intros bodies bodies' Hne Hframe Hrun.
  - simpl in Hrun. injection Hrun as <-. split; [constructor|].
    intros k b b' Hb Hb'. simpl. congruence.
  - simpl in Hrun. unfold mbind_ in Hrun.
    destruct (GravitationalForceCalculator.pair_forces fc i j bodies)
      as [bodies1 [[]|e]] eqn:Hpair; [|done].
    apply Forall_cons in Hne as [Hij Hne]. simpl in Hij.
    pose proof (pair_forces_frame fc i j bodies0 bodies Hframe) as Hframe1.
    rewrite Hpair in Hframe1. simpl in Hframe1.
    destruct (pair_forces_ok fc i j bodies bodies1 Hij Hpair)
      as (bi & bj & F & Hi & Hj & HF & Hb1).
    assert (HF0 : pair_force fc bodies0 (i, j) = Ok F).
    { rewrite <- (pair_force_ext fc bodies0 bodies (i, j) Hframe).
      unfold pair_force. simpl. by rewrite Hi, Hj. }
    destruct (IH bodies1 bodies' Hne Hframe1 Hrun) as [Hall Hacc].
    split; [constructor; [by exists F | done]|].
    intros k b b' Hb Hb'. simpl fold_left.
    assert (exists b1, bodies1 !! k = Some b1 /\ mass b1 = mass b
              /\ acceleration b1
                 = contribute fc bodies0 k (mass b) (acceleration b) (i, j))
      as (b1 & Hk1 & Hm1 & Ha1).
    { unfold contribute. rewrite HF0. simpl. subst bodies1.
      destruct (decide (k = j)) as [->|Hkj].
      - rewrite list_lookup_insert_eq
          by (rewrite length_insert; by eapply lookup_lt_Some).
        eexists. split; [done|]. assert (b = bj) as -> by congruence.
        simpl. split; [done|].
        destruct (Nat.eqb_spec j i) as [->|_]; [done|].
        by rewrite Nat.eqb_refl.
      - rewrite list_lookup_insert_ne by done.
        destruct (decide (k = i)) as [->|Hki].
        + rewrite list_lookup_insert_eq by (by eapply lookup_lt_Some).
          eexists. split; [done|]. assert (b = bi) as -> by congruence.
          simpl. split; [done|]. by rewrite Nat.eqb_refl.
        + rewrite list_lookup_insert_ne by done. exists b. split; [done|].
          split; [done|].
          destruct (Nat.eqb_spec k i) as [->|_]; [done|].
          by destruct (Nat.eqb_spec k j) as [->|_]. }
    rewrite (Hacc k b1 b' Hk1 Hb'), Hm1, Ha1. done.
Qed.

Lemma calculate_forces_accumulates (fc : GravitationalForceCalculator)
    (bodies bodies' : list Body) :
  GravitationalForceCalculator.calculate_forces fc bodies = (bodies', Ok tt) ->
  Forall (fun ij => exists F, pair_force fc bodies ij = Ok F)
         (pairs (length bodies))
  /\ acceleration <$> bodies'
     = accumulated fc bodies <$> seq 0 (length bodies).
Proof.
  intros Hrun.
  pose proof (calculate_forces_preserves fc bodies) as Hframe.
  rewrite Hrun in Hframe. simpl in Hframe.
  rewrite calculate_forces_pairs in Hrun.
  destruct (pairs_loop_accumulates fc bodies (pairs (length bodies))
              (Body.reset_forces <$> bodies) bodies') as [Hall Hacc]; try done.
  - eapply Forall_impl; [apply pairs_lt|]. intros [i j]; simpl. lia.
  - apply Forall2_fmap_r, Forall_Forall2_diag, Forall_forall.
    intros b _. apply set_acceleration_frame.
  - split; [done|].
    apply Forall2_length in Hframe as Hlen.
    apply list_eq_same_length with (length bodies);
      [by rewrite length_fmap, length_seq | rewrite length_fmap; congruence |].
    intros k a a' Hk Ha Ha'.
    rewrite list_lookup_fmap in Ha. rewrite list_lookup_fmap in Ha'.
    rewrite lookup_seq_lt in Ha' by done. simpl in Ha'. injection Ha' as <-.
    destruct (bodies' !! k) as [b'|] eqn:Hb'; [|done]. injection Ha as <-.
    destruct (lookup_lt_is_Some_2 bodies k Hk) as [b Hb].
    unfold accumulated. rewrite Hb.
    apply (Hacc k (Body.reset_forces b) b'); [|done].
    by rewrite list_lookup_fmap, Hb.
Qed.



(** Negation of a vector is exact: it flips the sign bits and nothing
    else. *)
Lemma neg_involutive (v : Vector3D) : Vector3D.neg (Vector3D.neg v) = v.
Proof.
  assert (Hopp : forall a : float, (- - a)%float = a).
  { intros a. apply Prim2SF_inj. rewrite !FloatAxioms.opp_spec.
    by destruct (Prim2SF a) as [[]|[]| |[] m ex]. }
  destruct v as [vx vy vz]. unfold Vector3D.neg. simpl. by rewrite !Hopp.
Qed.

(** For two bodies: one force, given to the first and, negated, to the
    second. *)
Lemma two_body_accelerations (fc : GravitationalForceCalculator)
    (b1 b2 : Body) (bodies' : list Body) :
  GravitationalForceCalculator.calculate_forces fc [b1; b2]
  = (bodies', Ok tt) ->
  exists F,
    GravitationalForceCalculator._calculate_pairwise_force fc b1 b2 = Ok F
    /\ acceleration <$> bodies'
       = [Vector3D.add Vector3D.zero (divided F (mass b1));
          Vector3D.add Vector3D.zero (divided (Vector3D.neg F) (mass b2))].
Proof.
  intros Hrun.
  destruct (calculate_forces_accumulates fc _ _ Hrun) as [Hall Hacc].
  apply Forall_cons in Hall as [[F HF] _]. exists F.
  change (GravitationalForceCalculator._calculate_pairwise_force fc b1 b2
          = Ok F) in HF.
  split; [exact HF|]. rewrite Hacc.
  change (accumulated fc [b1; b2] <$> seq 0 (length [b1; b2]))
    with [contribute fc [b1; b2] 0 (mass b1) Vector3D.zero (0, 1);
          contribute fc [b1; b2] 1 (mass b2) Vector3D.zero (0, 1)].
  unfold contribute.
  change (pair_force fc [b1; b2] (0, 1))
    with (GravitationalForceCalculator._calculate_pairwise_force fc b1 b2).
  by rewrite HF.
Qed.

(** ** When [calculate_forces] returns *)

Lemma truediv_nonzero (v : Vector3D) (m : float) :
  PyFloat.is_zero m = false -> Vector3D.truediv v m = Ok (divided v m).
Proof.
  intros Hm. unfold Vector3D.truediv, PyFloat.truediv. by rewrite Hm.
Qed.

Lemma pair_forces_returns (fc : GravitationalForceCalculator) (i j : nat)
    (bodies0 bodies : list Body) (F : Vector3D) :
  i <> j ->
  Forall2 same_but_acceleration bodies0 bodies ->
  Forall (fun b => PyFloat.is_zero (mass b) = false) bodies0 ->
  pair_force fc bodies0 (i, j) = Ok F ->
  exists bodies1,
    GravitationalForceCalculator.pair_forces fc i j bodies = (bodies1, Ok tt).
Proof.
  intros Hij Hframe Hmass HF.
  rewrite <- (pair_force_ext fc bodies0 bodies (i, j) Hframe) in HF.
  unfold pair_force in HF. simpl in HF.
  destruct (bodies !! i) as [bi|] eqn:Hi; [|done].
  destruct (bodies !! j) as [bj|] eqn:Hj; [|done].
  assert (Hnz : forall k b, bodies !! k = Some b ->
                            PyFloat.is_zero (mass b) = false).
  { intros k b Hb.
    destruct (Forall2_lookup_r _ _ _ _ _ Hframe Hb) as (b0 & Hb0 & Hsame).
    destruct Hsame as [-> _].
    by apply (proj1 (Forall_lookup _ _) Hmass k b0). }
  unfold GravitationalForceCalculator.pair_forces, mbind_, getitem, mlift.
  rewrite Hi, Hj, HF.
  unfold call_method at 1, atomic at 1, Body.add_force at 1.
  rewrite Hi, (truediv_nonzero _ _ (Hnz i bi Hi)). simpl.
  unfold call_method, atomic, Body.add_force.
  rewrite list_lookup_insert_ne, Hj by done.
  rewrite (truediv_nonzero _ _ (Hnz j bj Hj)). simpl. by eexists.
Qed.

Lemma pairs_loop_returns (fc : GravitationalForceCalculator)
    (bodies0 : list Body) (ps : list (nat * nat)) :
  Forall (fun b => PyFloat.is_zero (mass b) = false) bodies0 ->
  Forall (fun ij => ij.1 <> ij.2) ps ->
  Forall (fun ij => exists F, pair_force fc bodies0 ij = Ok F) ps ->
  forall bodies,
    Forall2 same_but_acceleration bodies0 bodies ->
    exists bodies',
      for_each ps
        (fun ij => GravitationalForceCalculator.pair_forces fc ij.1 ij.2)
        bodies = (bodies', Ok tt).
Proof.
  intros Hmass Hne Hok.
  induction ps as [|[i j] ps IH]; intros bodies Hframe; simpl.
  - by exists bodies.
  - apply Forall_cons in Hne as [Hij Hne].
    apply Forall_cons in Hok as [[F HF] Hok]. simpl in Hij.
    destruct (pair_forces_returns fc i j bodies0 bodies F Hij Hframe Hmass HF)
      as [bodies1 Hpair].
    pose proof (pair_forces_frame fc i j bodies0 bodies Hframe) as Hframe1.
    unfold mbind_. rewrite Hpair in Hframe1 |- *. simpl in Hframe1.
    by apply IH.
Qed.

(** [calculate_forces] returns normally as soon as no mass is zero and no
    pair's force computation overflows. *)
Lemma calculate_forces_returns (fc : GravitationalForceCalculator)
    (bodies : list Body) :
  Forall (fun b => PyFloat.is_zero (mass b) = false) bodies ->
  Forall (fun ij => exists F, pair_force fc bodies ij = Ok F)
         (pairs (length bodies)) ->
  exists bodies',
    GravitationalForceCalculator.calculate_forces fc bodies
    = (bodies', Ok tt).
Proof.
  intros Hmass Hok. rewrite calculate_forces_pairs.
  apply (pairs_loop_returns fc bodies); try done.
  - eapply Forall_impl; [apply pairs_lt|]. intros [i j]; simpl. lia.
  - apply Forall2_fmap_r, Forall_Forall2_diag, Forall_forall.
    intros b _. apply set_acceleration_frame.
Qed.

(** A body without mass makes [calculate_forces] raise, wherever the
    bodies are. *)
Lemma massless_body_raises :
  snd (GravitationalForceCalculator.calculate_forces Examples.standard
         [Body.set_acceleration Vector3D.zero
            (mkBody 0 (mkVector3D 7 0 0) Vector3D.zero Vector3D.zero
                    "probe" "grey" 1 [mkVector3D 7 0 0] 0 0);
          Examples.earth])
  = Raise ZeroDivisionError.
Proof. vm_compute. reflexivity. Qed.


Section MoreFloatFacts.

Lemma zero_div_large (r : float) :
  (1e-10 <=? r)%float = true -> (0 / r)%float = 0%float.
Proof.
  intros Hr. apply Prim2SF_inj.
  rewrite FloatAxioms.div_spec, Prim2SF_zero.
  rewrite FloatAxioms.leb_spec in Hr.
  change (Prim2SF 1e-10) with
    (S754_finite false 7737125245533627 (-86)) in Hr.
  by destruct (Prim2SF r) as [[]|[]| |[] m ex].
Qed.

Lemma zero_mul_nonneg_finite (a : float) :
  nonneg_finite a = true -> (0 * a)%float = 0%float.
Proof.
  unfold nonneg_finite. rewrite FloatAxioms.classify_spec.
  intros Ha. apply Prim2SF_inj.
  rewrite FloatAxioms.mul_spec, Prim2SF_zero.
  unfold SF64classify, SFclassify in Ha.
  destruct (Prim2SF a) as [[]|[]| |[] m ex]; try done.
  by destruct (Z.eqb _ _).
Qed.

Lemma sqrt_large_nonzero (q : float) :
  (1e-10 <=? PyFloat.np_sqrt q)%float = true -> PyFloat.is_zero q = false.
Proof.
  unfold PyFloat.np_sqrt, PyFloat.is_zero.
  rewrite FloatAxioms.leb_spec, FloatAxioms.sqrt_spec, FloatAxioms.eqb_spec.
  rewrite Prim2SF_zero.
  change (Prim2SF 1e-10) with (S754_finite false 7737125245533627 (-86)).
  by destruct (Prim2SF q) as [[]|[]| |[] m ex].
Qed.

End MoreFloatFacts.

(** ** Bodies at the same place *)

Lemma sub_self_finite (p : Vector3D) :
  finite_vector p = true -> Vector3D.sub p p = Vector3D.zero.
Proof.
  unfold finite_vector, Vector3D.sub, Vector3D.zero.
  intros H. apply andb_prop in H as [H Hz]. apply andb_prop in H as [Hx Hy].
  by rewrite !sub_diag_finite.
Qed.

Lemma magnitude_squared_zero :
  Vector3D.magnitude_squared Vector3D.zero = Ok 0%float.
Proof. reflexivity. Qed.

Lemma coincident_force (fc : GravitationalForceCalculator) (b1 b2 : Body) :
  finite_vector (position b1) = true ->
  position b2 = position b1 ->
  zero_force_expected fc b1 b2 = true ->
  GravitationalForceCalculator._calculate_pairwise_force fc b1 b2
  = Ok Vector3D.zero.
Proof.
  intros Hfin Hpos Hexp.
  unfold GravitationalForceCalculator._calculate_pairwise_force.
  rewrite Hpos, sub_self_finite, magnitude_squared_zero by done.
  unfold rbind. fold (coincident_r fc).
  unfold zero_force_expected in Hexp.
  destruct (coincident_r fc <? 1e-10)%float; [done|]. simpl in Hexp.
  apply andb_prop in Hexp as [Hr Hm].
  unfold PyFloat.truediv.
  rewrite (sqrt_large_nonzero _ Hr). fold (coincident_magnitude fc b1 b2).
  unfold Vector3D.np_truediv, PyFloat.np_truediv, Vector3D.mul,
    Vector3D.zero. simpl.
  by rewrite (zero_div_large _ Hr), (zero_mul_nonneg_finite _ Hm).
Qed.

Lemma coincident_distance (b1 b2 : Body) :
  finite_vector (position b1) = true ->
  position b2 = position b1 ->
  Body.distance_to b1 b2 = Ok 0%float.
Proof.
  intros Hfin Hpos.
  unfold Body.distance_to, Vector3D.distance_to, Vector3D.magnitude.
  by rewrite Hpos, sub_self_finite, magnitude_squared_zero.
Qed.

Lemma coincident_potential (fc : GravitationalForceCalculator)
    (bodies : list Body) (i j : nat) (b1 b2 : Body) (pe : float) :
  bodies !! i = Some b1 -> bodies !! j = Some b2 ->
  finite_vector (position b1) = true ->
  position b2 = position b1 ->
  GravitationalForceCalculator.pair_potential fc bodies i j pe = (pe, Ok tt).
Proof.
  intros Hi Hj Hfin Hpos.
  unfold GravitationalForceCalculator.pair_potential.
  by rewrite Hi, Hj, coincident_distance.
Qed.




(** ** Two coincident bodies through [calculate_forces] *)

Lemma signed_zero_div (a m : float) (s : bool) :
  Prim2SF a = S754_zero s -> proper_mass m = true ->
  exists s', Prim2SF (a / m) = S754_zero s'.
Proof.
  unfold proper_mass, PyFloat.is_zero, is_nan.
  rewrite !FloatAxioms.eqb_spec, FloatAxioms.div_spec, Prim2SF_zero.
  intros -> Hm.
  destruct (Prim2SF m) as [[]|[]| |[] mm ex]; simpl in *; try done; eauto.
Qed.

Lemma zero_add_signed_zero (a : float) (s : bool) :
  Prim2SF a = S754_zero s -> (0 + a)%float = 0%float.
Proof.
  intros Ha. apply Prim2SF_inj.
  rewrite FloatAxioms.add_spec, Prim2SF_zero, Ha. by destruct s.
Qed.

Lemma zero_add_zero_div (a m : float) (s : bool) :
  Prim2SF a = S754_zero s -> proper_mass m = true ->
  (0 + a / m)%float = 0%float.
Proof.
  intros Ha Hm. destruct (signed_zero_div a m s Ha Hm) as [s' Hs'].
  by apply (zero_add_signed_zero _ s').
Qed.

(** Two bodies alone at the same place, both with a proper mass: the call
    returns and leaves both accelerations at exactly zero. *)
Lemma coincident_two_bodies (fc : GravitationalForceCalculator)
    (b1 b2 : Body) :
  finite_vector (position b1) = true ->
  position b2 = position b1 ->
  zero_force_expected fc b1 b2 = true ->
  proper_mass (mass b1) = true -> proper_mass (mass b2) = true ->
  exists bodies',
    GravitationalForceCalculator.calculate_forces fc [b1; b2]
    = (bodies', Ok tt)
    /\ acceleration <$> bodies' = [Vector3D.zero; Vector3D.zero].
Proof.
  intros Hfin Hpos Hexp Hm1 Hm2.
  pose proof (coincident_force fc b1 b2 Hfin Hpos Hexp) as HF.
  destruct (calculate_forces_returns fc [b1; b2]) as [bodies' Hrun].
  - unfold proper_mass in Hm1, Hm2.
    apply andb_prop in Hm1 as [Hm1 _]. apply andb_prop in Hm2 as [Hm2 _].
    apply negb_true_iff in Hm1, Hm2. by repeat constructor.
  - repeat constructor. by exists Vector3D.zero.
  - exists bodies'. split; [done|].
    destruct (two_body_accelerations fc b1 b2 bodies' Hrun) as (F & HF' & ->).
    assert (F = Vector3D.zero) as -> by congruence.
    unfold Vector3D.add, divided, Vector3D.neg, Vector3D.zero. simpl.
    rewrite !(zero_add_zero_div 0 _ false) by done.
    by rewrite !(zero_add_zero_div (-0) _ true).
Qed.

(** * Further properties *)

(** ** The integrators as state machines *)

(** A warm Leapfrog step is an Euler step. *)
Lemma warm_leapfrog_is_euler {W : Type} (dt : float) (f : Callable W)
    (s : list Body * W) :
  LeapfrogIntegrator.step dt f (false, s)
  = ((false, fst (EulerIntegrator.step dt f s)),
     snd (EulerIntegrator.step dt f s)).
Proof.
  unfold LeapfrogIntegrator.step, LeapfrogIntegrator.bootstrap,
    EulerIntegrator.step, mbind_, LeapfrogIntegrator.with_flag.
  cbn [fst snd].
  destruct (f s) as [[bodies1 w1] [[]|e]]; [|done].
  rewrite !on_bodies_for_bodies. reflexivity.
Qed.

(** The first Leapfrog step: an evaluation, a half kick, an Euler step. *)
Lemma cold_leapfrog_step {W : Type} (dt : float) (f : Callable W)
    (s : list Body * W) :
  LeapfrogIntegrator.step dt f (true, s)
  = match f s with
    | ((bodies1, w1), Ok _) =>
        let kicked := (LeapfrogIntegrator.half_kick dt <$> bodies1, w1) in
        ((false, fst (EulerIntegrator.step dt f kicked)),
         snd (EulerIntegrator.step dt f kicked))
    | (s1, Raise e) => ((true, s1), Raise e)
    end.
Proof.
  unfold LeapfrogIntegrator.step at 1, LeapfrogIntegrator.bootstrap, mbind_,
    LeapfrogIntegrator.with_flag, LeapfrogIntegrator.set_first_step.
  cbn [fst snd].
  destruct (f s) as [[bodies1 w1] [[]|e]]; [|done].
  rewrite on_bodies_for_bodies. cbv zeta.
  rewrite <- warm_leapfrog_is_euler.
  unfold LeapfrogIntegrator.step, LeapfrogIntegrator.bootstrap, mbind_,
    LeapfrogIntegrator.with_flag. reflexivity.
Qed.


(** X2: the integrator object after a step, whether the step returned or
    raised: Euler and RK4 integrators and a warm Leapfrog integrator are
    unchanged; a cold Leapfrog integrator is warm as soon as its first force
    evaluation has returned, and still cold when that evaluation raised. *)
Theorem integrator_lifecycle {W : Type} (dt : float) (f : Callable W)
    (integrator : Integrator) (s : list Body * W) :
  fst (fst (Integrator_step dt f (integrator, s)))
  = match integrator with
    | LeapfrogIntegrator true =>
        match snd (f s) with
        | Ok _ => LeapfrogIntegrator false
        | Raise _ => LeapfrogIntegrator true
        end
    | _ => integrator
    end.
Proof.
  unfold Integrator_step. destruct integrator as [| |[]].
  - by destruct (EulerIntegrator.step dt f s).
  - by destruct (RK4Integrator.step dt f s).
  - unfold LeapfrogIntegrator.step, LeapfrogIntegrator.bootstrap, mbind_,
      LeapfrogIntegrator.with_flag, LeapfrogIntegrator.set_first_step.
    cbn [fst snd].
    destruct (f s) as [[bodies1 w1] [[]|e]]; [|done].
    rewrite on_bodies_for_bodies.
    destruct (f _) as [[bodies2 w2] [[]|e]]; [|done].
    by rewrite !on_bodies_for_bodies.
  - rewrite warm_leapfrog_is_euler. by destruct (EulerIntegrator.step dt f s).
Qed.

(** ** [calculate_forces] looks at masses and positions only *)

Lemma reset_forces_ext (b1 b2 : Body) :
  same_but_acceleration b1 b2 -> Body.reset_forces b2 = Body.reset_forces b1.
Proof.
  destruct b1, b2. unfold same_but_acceleration, Body.reset_forces,
    Body.set_acceleration. simpl. intros H. destruct_and!. by subst.
Qed.

Lemma calculate_forces_ext (fc : GravitationalForceCalculator)
    (bodies1 bodies2 : list Body) :
  Forall2 same_but_acceleration bodies1 bodies2 ->
  GravitationalForceCalculator.calculate_forces fc bodies2
  = GravitationalForceCalculator.calculate_forces fc bodies1.
Proof.
  intros H. rewrite !calculate_forces_pairs.
  assert (Body.reset_forces <$> bodies2 = Body.reset_forces <$> bodies1)
    as ->.
  { induction H as [|b1 b2 l1 l2 Hb _ IH]; [done|].
    rewrite !fmap_cons. by rewrite IH, (reset_forces_ext b1 b2). }
  by rewrite (Forall2_length _ _ _ H).
Qed.

(** X3: [calculate_forces] starts from zero accelerations and looks at
    masses and positions only, so calling it again on the bodies a first call
    left gives the same bodies and the same outcome as the first call. *)
Theorem calculate_forces_idempotent (fc : GravitationalForceCalculator)
    (bodies : list Body) :
  GravitationalForceCalculator.calculate_forces fc
    (fst (GravitationalForceCalculator.calculate_forces fc bodies))
  = GravitationalForceCalculator.calculate_forces fc bodies.
Proof. apply calculate_forces_ext, calculate_forces_preserves. Qed.

(** ** Which errors the force and energy computations can raise *)

Lemma for_each_outcome {S X : Type} (I : S -> Prop) (P : result unit -> Prop)
    (body : X -> M S unit) (l : list X) :
  P (Ok tt) ->
  (forall x s, x ∈ l -> I s -> I (fst (body x s)) /\ P (snd (body x s))) ->
  forall s, I s ->
    I (fst (for_each l body s)) /\ P (snd (for_each l body s)).
Proof.
  intros HP. induction l as [|x l IH]; intros Hbody s Hs; simpl; [done|].
  unfold mbind_.
  destruct (Hbody x s) as [HI HPx]; [by left | done |].
  destruct (body x s) as [s' [[]|e]]; simpl in *; [|done].
  apply IH; [|done]. intros y s0 Hy. apply Hbody. by right.
Qed.

Lemma pow2_raises (a : float) (e : exn) :
  PyFloat.pow2 a = Raise e -> e = OverflowError.
Proof.
  unfold PyFloat.pow2. destruct (_ && _); [|done]. by intros [= <-].
Qed.

Lemma magnitude_squared_raises (v : Vector3D) (e : exn) :
  Vector3D.magnitude_squared v = Raise e -> e = OverflowError.
Proof.
  unfold Vector3D.magnitude_squared, rbind.
  destruct (PyFloat.pow2 (x v)) eqn:Hx; [|intros [= <-]; eauto using pow2_raises].
  destruct (PyFloat.pow2 (y v)) eqn:Hy; [|intros [= <-]; eauto using pow2_raises].
  destruct (PyFloat.pow2 (z v)) eqn:Hz; [|intros [= <-]; eauto using pow2_raises].
  done.
Qed.

Lemma magnitude_raises (v : Vector3D) (e : exn) :
  Vector3D.magnitude v = Raise e -> e = OverflowError.
Proof.
  unfold Vector3D.magnitude, rbind.
  destruct (Vector3D.magnitude_squared v) eqn:Hm; [done|].
  intros [= <-]. eauto using magnitude_squared_raises.
Qed.

Lemma vector_truediv_raises (v : Vector3D) (m : float) (e : exn) :
  Vector3D.truediv v m = Raise e ->
  e = ZeroDivisionError /\ PyFloat.is_zero m = true.
Proof.
  unfold Vector3D.truediv, PyFloat.truediv.
  destruct (PyFloat.is_zero m); simpl; [|done]. by intros [= <-].
Qed.

(** A zero [r_squared] makes the guard fire. *)
Lemma sqrt_zero_small (q : float) :
  PyFloat.is_zero q = true -> (PyFloat.np_sqrt q <? 1e-10)%float = true.
Proof.
  unfold PyFloat.is_zero, PyFloat.np_sqrt.
  rewrite FloatAxioms.eqb_spec, FloatAxioms.ltb_spec, FloatAxioms.sqrt_spec.
  rewrite Prim2SF_zero.
  change (Prim2SF 1e-10) with (S754_finite false 7737125245533627 (-86)).
  by destruct (Prim2SF q) as [[]|[]| |[] m ex].
Qed.

Lemma pairwise_force_raises (fc : GravitationalForceCalculator)
    (b1 b2 : Body) (e : exn) :
  GravitationalForceCalculator._calculate_pairwise_force fc b1 b2 = Raise e ->
  e = OverflowError.
Proof.
  unfold GravitationalForceCalculator._calculate_pairwise_force, rbind.
  destruct (Vector3D.magnitude_squared _) as [m2|e'] eqn:Hm;
    [|intros [= <-]; eauto using magnitude_squared_raises].
  destruct (_ <? _)%float eqn:Hguard; [done|].
  unfold PyFloat.truediv.
  destruct (PyFloat.is_zero _) eqn:Hz; [|done].
  apply sqrt_zero_small in Hz. congruence.
Qed.

Lemma zero_mass_in_frame (bodies0 bodies : list Body) (k : nat) (b : Body) :
  Forall2 same_but_acceleration bodies0 bodies ->
  bodies !! k = Some b -> PyFloat.is_zero (mass b) = true ->
  Exists (fun b => PyFloat.is_zero (mass b) = true) bodies0.
Proof.
  intros Hframe Hb Hz.
  destruct (Forall2_lookup_r _ _ _ _ _ Hframe Hb) as (b0 & Hb0 & Hsame).
  apply Exists_exists. exists b0. split; [by eapply list_elem_of_lookup_2|].
  destruct Hsame as [<- _]. done.
Qed.

Lemma pair_forces_outcome (fc : GravitationalForceCalculator) (i j : nat)
    (bodies0 bodies : list Body) :
  i < j < length bodies0 ->
  Forall2 same_but_acceleration bodies0 bodies ->
  forces_outcome bodies0
    (snd (GravitationalForceCalculator.pair_forces fc i j bodies)).
Proof.
  intros Hij Hframe. pose proof (Forall2_length _ _ _ Hframe) as Hlen.
  unfold GravitationalForceCalculator.pair_forces, mbind_, getitem, mlift.
  destruct (lookup_lt_is_Some_2 bodies i) as [bi Hi]; [lia|].
  destruct (lookup_lt_is_Some_2 bodies j) as [bj Hj]; [lia|].
  rewrite Hi, Hj.
  destruct (GravitationalForceCalculator._calculate_pairwise_force fc bi bj)
    as [F|e] eqn:HF; [|left; eauto using pairwise_force_raises].
  unfold call_method at 1, atomic at 1, Body.add_force at 1. rewrite Hi.
  destruct (Vector3D.truediv F (mass bi)) as [qi|e] eqn:Hqi; simpl.
  - unfold call_method, atomic, Body.add_force.
    rewrite list_lookup_insert_ne, Hj by lia.
    destruct (Vector3D.truediv (Vector3D.neg F) (mass bj)) as [qj|e] eqn:Hqj;
      simpl; [done|].
    apply vector_truediv_raises in Hqj as [-> Hz]. right. split; [done|].
    eauto using zero_mass_in_frame.
  - apply vector_truediv_raises in Hqi as [-> Hz]. right. split; [done|].
    eauto using zero_mass_in_frame.
Qed.

Lemma calculate_forces_outcome (fc : GravitationalForceCalculator)
    (bodies : list Body) :
  forces_outcome bodies
    (snd (GravitationalForceCalculator.calculate_forces fc bodies)).
Proof.
  rewrite calculate_forces_pairs.
  apply (for_each_outcome (Forall2 same_but_acceleration bodies)
           (forces_outcome bodies)); [done| |].
  - intros [i j] s Hin Hs. split; [by apply pair_forces_frame|].
    apply pair_forces_outcome; [|done].
    by apply (proj1 (Forall_forall _ _) (pairs_lt (length bodies)) (i, j)).
  - apply Forall2_fmap_r, Forall_Forall2_diag, Forall_forall.
    intros b _. apply set_acceleration_frame.
Qed.

(** X4: a call of [calculate_forces] that raises raises an [OverflowError]
    (a coordinate difference whose square is not representable) or a
    [ZeroDivisionError], and the latter only when one of the bodies has mass
    zero; it never raises anything else, an [IndexError] in particular. *)
Theorem calculate_forces_errors (fc : GravitationalForceCalculator)
    (bodies : list Body) (e : exn) :
  snd (GravitationalForceCalculator.calculate_forces fc bodies) = Raise e ->
  e = OverflowError
  \/ (e = ZeroDivisionError
      /\ Exists (fun b => PyFloat.is_zero (mass b) = true) bodies).
Proof.
  intros Hraise. pose proof (calculate_forces_outcome fc bodies) as H.
  by rewrite Hraise in H.
Qed.

Lemma calculate_forces_errors_witness :
  ZeroDivisionError = OverflowError
  \/ (ZeroDivisionError = ZeroDivisionError
      /\ Exists (fun b => PyFloat.is_zero (mass b) = true)
           [mkBody 0 (mkVector3D 7 0 0) Vector3D.zero Vector3D.zero
                   "probe" "grey" 1 [mkVector3D 7 0 0] 0 0;
            Examples.earth]).
Proof.
  apply (calculate_forces_errors Examples.standard
           [mkBody 0 (mkVector3D 7 0 0) Vector3D.zero Vector3D.zero
                   "probe" "grey" 1 [mkVector3D 7 0 0] 0 0;
            Examples.earth] ZeroDivisionError).
  vm_compute. reflexivity.
Defined.

(** ** One trajectory sample per body and step *)

Lemma same_static_refl (b : Body) : same_static b b.
Proof. by repeat split. Qed.

Lemma same_static_trans (b1 b2 b3 : Body) :
  same_static b1 b2 -> same_static b2 b3 -> same_static b1 b3.
Proof.
  unfold same_static. intros H1 H2. destruct_and!. repeat split; congruence.
Qed.

Lemma same_static_advanced (b1 b2 b3 : Body) :
  same_static b1 b2 -> advanced b2 b3 -> advanced b1 b3.
Proof.
  unfold same_static, advanced. intros H1 H2. destruct_and!.
  repeat split; congruence.
Qed.

Lemma Forall2_same_static_refl (bodies : list Body) :
  Forall2 same_static bodies bodies.
Proof. apply Forall_Forall2_diag, Forall_forall. intros b _. apply same_static_refl. Qed.

Lemma Forall2_same_static_fmap (g : Body -> Body) (l1 l2 : list Body) :
  (forall b, same_static b (g b)) ->
  Forall2 same_static l1 l2 -> Forall2 same_static l1 (g <$> l2).
Proof.
  intros Hg H. apply Forall2_fmap_r.
  eapply Forall2_impl; [exact H|]. intros b1 b2 Hb.
  eapply same_static_trans; [exact Hb | apply Hg].
Qed.

Lemma update_velocity_static (dt : float) (b : Body) :
  same_static b (Body.update_velocity dt b).
Proof. by repeat split. Qed.

Lemma half_kick_static (dt : float) (b : Body) :
  same_static b (LeapfrogIntegrator.half_kick dt b).
Proof. by repeat split. Qed.

Lemma update_position_advanced (dt : float) (b : Body) :
  advanced b (Body.update_position dt b).
Proof.
  unfold advanced, Body.update_position. simpl. by rewrite copy_id.
Qed.

Lemma Forall2_advanced_fmap (dt : float) (l1 l2 : list Body) :
  Forall2 same_static l1 l2 ->
  Forall2 advanced l1 (Body.update_position dt <$> l2).
Proof.
  intros H. apply Forall2_fmap_r.
  eapply Forall2_impl; [exact H|]. intros b1 b2 Hb.
  eapply same_static_advanced; [exact Hb | apply update_position_advanced].
Qed.

Lemma gravity_keeps_static (fc : GravitationalForceCalculator) :
  keeps_static (gravity fc).
Proof.
  intros bodies []. unfold gravity, on_bodies.
  pose proof (calculate_forces_preserves fc bodies) as H.
  destruct (GravitationalForceCalculator.calculate_forces fc bodies)
    as [bodies' r]. simpl in *.
  eapply Forall2_impl; [exact H|]. intros b b' Hb.
  unfold same_but_acceleration in Hb. unfold same_static.
  destruct_and!. by repeat split.
Qed.

Section Trajectories.

Context {W : Type} (f : Callable W) (dt : float).
Hypothesis Hf : keeps_static f.

Lemma callback_static (bodies0 bodies bodies1 : list Body) (w w1 : W)
    (r : result unit) :
  Forall2 same_static bodies0 bodies ->
  f (bodies, w) = ((bodies1, w1), r) ->
  Forall2 same_static bodies0 bodies1.
Proof using Hf.
  intros H0 Hfw. pose proof (Hf bodies w) as H. rewrite Hfw in H.
  eapply Forall2_trans; [apply same_static_trans | exact H0 | exact H].
Qed.

Lemma euler_advances (bodies bodies' : list Body) (w w' : W) :
  EulerIntegrator.step dt f (bodies, w) = ((bodies', w'), Ok tt) ->
  Forall2 advanced bodies bodies'.
Proof using Hf.
  rewrite euler_step_eq.
  destruct (f (bodies, w)) as [[bodies1 w1] [[]|e]] eqn:Hfw; [|done].
  intros [= <- _]. apply Forall2_advanced_fmap.
  apply Forall2_same_static_fmap; [apply update_velocity_static|].
  eapply callback_static; [apply Forall2_same_static_refl | exact Hfw].
Qed.

Lemma leapfrog_advances (first_step first_step' : bool)
    (bodies bodies' : list Body) (w w' : W) :
  LeapfrogIntegrator.step dt f (first_step, (bodies, w))
  = ((first_step', (bodies', w')), Ok tt) ->
  Forall2 advanced bodies bodies'.
Proof using Hf.
  destruct first_step.
  - unfold LeapfrogIntegrator.step, LeapfrogIntegrator.bootstrap, mbind_,
      LeapfrogIntegrator.with_flag, LeapfrogIntegrator.set_first_step.
    cbn [fst snd].
    destruct (f (bodies, w)) as [[bodies1 w1] [[]|e]] eqn:Hf1; [|done].
    rewrite on_bodies_for_bodies.
    destruct (f (LeapfrogIntegrator.half_kick dt <$> bodies1, w1))
      as [[bodies2 w2] [[]|e]] eqn:Hf2; [|done].
    cbv beta iota. rewrite !on_bodies_for_bodies. intros [= _ <- _].
    apply Forall2_advanced_fmap.
    apply Forall2_same_static_fmap; [apply update_velocity_static|].
    eapply callback_static; [|exact Hf2].
    apply Forall2_same_static_fmap; [apply half_kick_static|].
    eapply callback_static; [apply Forall2_same_static_refl | exact Hf1].
  - rewrite warm_leapfrog_is_euler.
    destruct (EulerIntegrator.step dt f (bodies, w)) as [[b1 w1] r] eqn:He.
    simpl. intros [= _ <- _ ->]. by apply euler_advances in He.
Qed.

End Trajectories.

Lemma for_enumerate_static (g : nat -> M Body unit)
    (bodies0 bodies : list Body) :
  (forall i b, same_static b (fst (g i b))) ->
  Forall2 same_static bodies0 bodies ->
  Forall2 same_static bodies0 (fst (for_enumerate g bodies)).
Proof.
  intros Hg H. unfold for_enumerate.
  apply (for_each_invariant (Forall2 same_static bodies0)); [|done].
  intros i s Hs.
  apply call_method_frame; [apply same_static_refl | apply same_static_trans
                           | apply Hg | exact Hs].
Qed.

Lemma set_working_state_static (ip iv : list Vector3D)
    (k : list Vector3D * list Vector3D) (scale : Vector3D -> Vector3D)
    (i : nat) (b : Body) :
  same_static b (fst (RK4Integrator.set_working_state ip iv k scale i b)).
Proof.
  unfold RK4Integrator.set_working_state, mbind_, atomic, rbind.
  destruct (index ip i); [|apply same_static_refl].
  destruct (index (fst k) i); [|apply same_static_refl].
  destruct (index iv i); [|by repeat split].
  destruct (index (snd k) i); by repeat split.
Qed.

(** A loop of method calls that returns has called the method of every
    object once, and each call has returned. *)
Lemma call_method_loop_result {A : Type} (g : nat -> M A unit)
    (todo : list A) :
  forall (done l' : list A),
    for_each (seq (length done) (length todo))
             (fun i => call_method i (g i)) (done ++ todo) = (l', Ok tt) ->
    exists todo',
      l' = done ++ todo'
      /\ Forall2 (fun a a' => exists i, g i a = (a', Ok tt)) todo todo'.
Proof.
  induction todo as [|a todo IH]; intros done l'; simpl.
  - intros [= <-]. exists []. by split.
  - unfold mbind_ at 1, call_method at 1.
    rewrite list_lookup_middle by done.
    destruct (g (length done) a) as [a' [[]|e]] eqn:Hg; [|done].
    rewrite insert_app_r_alt, Nat.sub_diag by done. simpl.
    specialize (IH (done ++ [a']) l').
    rewrite length_app, Nat.add_comm in IH. simpl in IH.
    rewrite <- !(assoc_L (++)) in IH. simpl in IH.
    intros Hrun. destruct (IH Hrun) as (todo' & -> & Htodo).
    exists (a' :: todo'). rewrite <- (assoc_L (++)). split; [done|].
    constructor; [by exists (length done) | done].
Qed.

Lemma for_enumerate_result (g : nat -> M Body unit)
    (bodies bodies' : list Body) :
  for_enumerate g bodies = (bodies', Ok tt) ->
  Forall2 (fun b b' => exists i, g i b = (b', Ok tt)) bodies bodies'.
Proof.
  intros H. destruct (call_method_loop_result g bodies [] bodies' H)
    as (todo' & -> & Htodo). done.
Qed.

Lemma final_update_advanced (ip iv : list Vector3D)
    (k1 k2 k3 k4 : list Vector3D * list Vector3D) (i : nat) (b b' : Body) :
  RK4Integrator.final_update ip iv k1 k2 k3 k4 i b = (b', Ok tt) ->
  advanced b b'.
Proof.
  unfold RK4Integrator.final_update, mbind_, mlift, atomic, mmodify.
  destruct (rbind _ _) as [pos_increment|e]; [|done].
  destruct (rbind _ _) as [vel_increment|e]; [|done].
  unfold rbind.
  destruct (index ip i) as [p0|]; [|done].
  destruct (index iv i) as [v0|]; [|done].
  intros [= <-]. unfold advanced. simpl. by rewrite copy_id.
Qed.

Section RK4Trajectories.

Context {W : Type} (f : Callable W) (dt : float).
Hypothesis Hf : keeps_static f.

Lemma stage_static (n : nat) (bodies0 bodies bodies1 : list Body) (w w1 : W)
    (r : result (list Vector3D * list Vector3D)) :
  Forall2 same_static bodies0 bodies ->
  RK4Integrator.stage n dt f (bodies, w) = ((bodies1, w1), r) ->
  Forall2 same_static bodies0 bodies1.
Proof using Hf.
  intros H0. unfold RK4Integrator.stage, mbind_.
  destruct (f (bodies, w)) as [[b1 w1'] [[]|e]] eqn:Hfw.
  - destruct (RK4Integrator.capture dt b1 _) as [k [[]|e]];
      intros [= <- _ _]; by eapply (callback_static f Hf).
  - intros [= <- _ _]. by eapply (callback_static f Hf).
Qed.

Lemma working_state_static (ip iv : list Vector3D)
    (k : list Vector3D * list Vector3D) (scale : Vector3D -> Vector3D)
    (bodies0 bodies bodies1 : list Body) (w w1 : W) (r : result unit) :
  Forall2 same_static bodies0 bodies ->
  on_bodies (for_enumerate (RK4Integrator.set_working_state ip iv k scale))
    (bodies, w) = ((bodies1, w1), r) ->
  Forall2 same_static bodies0 bodies1.
Proof.
  intros H0. unfold on_bodies.
  pose proof (for_enumerate_static
                (RK4Integrator.set_working_state ip iv k scale) bodies0 bodies
                (set_working_state_static ip iv k scale) H0) as H.
  destruct (for_enumerate _ bodies) as [b1 r1]. by intros [= <- _ _].
Qed.

Lemma rk4_advances (bodies bodies' : list Body) (w w' : W) :
  RK4Integrator.step dt f (bodies, w) = ((bodies', w'), Ok tt) ->
  Forall2 advanced bodies bodies'.
Proof using Hf.
  unfold RK4Integrator.step. cbv beta iota zeta. unfold mbind_.
  set (n := length bodies).
  set (ip := (fun body => Vector3D.copy (position body)) <$> bodies).
  set (iv := (fun body => Vector3D.copy (velocity body)) <$> bodies).
  pose proof (Forall2_same_static_refl bodies) as H0.
  destruct (RK4Integrator.stage n dt f (bodies, w))
    as [[b1 w1] [k1|e]] eqn:E1; [|done].
  apply (stage_static n bodies) in E1; [|done].
  destruct (on_bodies _ (b1, w1)) as [[b1' w1'] [[]|e]] eqn:E1'; [|done].
  apply (working_state_static _ _ _ _ bodies) in E1'; [|done].
  destruct (RK4Integrator.stage n dt f (b1', w1'))
    as [[b2 w2] [k2|e]] eqn:E2; [|done].
  apply (stage_static n bodies) in E2; [|done].
  destruct (on_bodies _ (b2, w2)) as [[b2' w2'] [[]|e]] eqn:E2'; [|done].
  apply (working_state_static _ _ _ _ bodies) in E2'; [|done].
  destruct (RK4Integrator.stage n dt f (b2', w2'))
    as [[b3 w3] [k3|e]] eqn:E3; [|done].
  apply (stage_static n bodies) in E3; [|done].
  destruct (on_bodies _ (b3, w3)) as [[b3' w3'] [[]|e]] eqn:E3'; [|done].
  apply (working_state_static _ _ _ _ bodies) in E3'; [|done].
  destruct (RK4Integrator.stage n dt f (b3', w3'))
    as [[b4 w4] [k4|e]] eqn:E4; [|done].
  apply (stage_static n bodies) in E4; [|done].
  unfold on_bodies.
  destruct (for_enumerate _ b4) as [b4' r] eqn:E4'.
  intros [= <- _ ->]. apply for_enumerate_result in E4'.
  eapply Forall2_trans; [|exact E4|exact E4'].
  intros b1_ b2_ b3_ Hs [i Hi].
  eapply same_static_advanced; [exact Hs|].
  by eapply final_update_advanced.
Qed.

(** Every integrator, on a step that returns. *)
Lemma integrator_step_advances (integrator integrator' : Integrator)
    (bodies bodies' : list Body) (w w' : W) :
  Integrator_step dt f (integrator, (bodies, w))
  = ((integrator', (bodies', w')), Ok tt) ->
  Forall2 advanced bodies bodies'.
Proof using Hf.
  unfold Integrator_step. destruct integrator as [| |first_step].
  - destruct (EulerIntegrator.step _ _ _) as [[b1 w1] r] eqn:E.
    intros [= _ <- _ ->]. by eapply (euler_advances f dt Hf).
  - destruct (RK4Integrator.step _ _ _) as [[b1 w1] r] eqn:E.
    intros [= _ <- _ ->]. by eapply rk4_advances.
  - destruct (LeapfrogIntegrator.step _ _ _) as [[fs [b1 w1]] r] eqn:E.
    intros [= _ <- _ ->]. by eapply (leapfrog_advances f dt Hf).
Qed.

End RK4Trajectories.

(** X5: with a force callback that leaves masses, names and trajectories
    alone (as [calculate_forces] does), a step of any of the three
    integrators that returns has appended exactly one entry to every body's
    trajectory, the position the body is left at, and has kept the bodies'
    number, order, masses, names, colors and radii. RK4 evaluates the forces
    at three intermediate states, none of which is recorded. *)
Theorem integrator_step_appends_sample {W : Type} (f : Callable W)
    (dt : float) (integrator integrator' : Integrator)
    (bodies bodies' : list Body) (w w' : W) :
  keeps_static f ->
  Integrator_step dt f (integrator, (bodies, w))
  = ((integrator', (bodies', w')), Ok tt) ->
  Forall2 advanced bodies bodies'.
Proof. intros Hf. by apply integrator_step_advances. Qed.

Lemma integrator_step_appends_sample_witness :
  Forall2 advanced [Examples.sun; Examples.earth]
    (fst (snd (fst (Integrator_step 86400 (gravity Examples.standard)
                      (RK4Integrator,
                       ([Examples.sun; Examples.earth], tt)))))).
Proof.
  assert (snd (Integrator_step 86400 (gravity Examples.standard)
                 (RK4Integrator, ([Examples.sun; Examples.earth], tt)))
          = Ok tt) as H by (vm_compute; reflexivity).
  destruct (Integrator_step 86400 (gravity Examples.standard)
              (RK4Integrator, ([Examples.sun; Examples.earth], tt)))
    as [[integrator' [bodies' w']] r] eqn:E.
  simpl in H. subst r. simpl.
  exact (integrator_step_appends_sample (gravity Examples.standard) 86400
           RK4Integrator integrator' [Examples.sun; Examples.earth] bodies'
           tt w' (gravity_keeps_static Examples.standard) E).
Defined.

(** ** The energy of the system *)

Lemma same_but_kinetic_refl (b : Body) : same_but_kinetic b b.
Proof. by repeat split. Qed.

Lemma same_but_kinetic_trans (b1 b2 b3 : Body) :
  same_but_kinetic b1 b2 -> same_but_kinetic b2 b3 -> same_but_kinetic b1 b3.
Proof.
  unfold same_but_kinetic. intros H1 H2. destruct_and!.
  repeat split; congruence.
Qed.

Lemma kinetic_stored_frame (b b' : Body) :
  kinetic_stored b b' -> same_but_kinetic b b'.
Proof. intros (v2 & _ & ->). by repeat split. Qed.

Lemma calculate_kinetic_energy_ok (b b' : Body) (k : float) :
  Body.calculate_kinetic_energy b = Ok (b', k) ->
  kinetic_stored b b' /\ k = kinetic_energy b'.
Proof.
  unfold Body.calculate_kinetic_energy, rbind, kinetic_stored.
  destruct (Vector3D.magnitude_squared (velocity b)) as [v2|e]; [|done].
  intros [= <- <-]. split; [by exists v2 | done].
Qed.

Lemma calculate_kinetic_energy_raises (b : Body) (e : exn) :
  Body.calculate_kinetic_energy b = Raise e -> e = OverflowError.
Proof.
  unfold Body.calculate_kinetic_energy, rbind.
  destruct (Vector3D.magnitude_squared (velocity b)) as [v2|e'] eqn:Hm;
    [done|]. intros [= <-]. eauto using magnitude_squared_raises.
Qed.

Lemma sum_kinetic_energy_eq (bodies : list Body) (acc : float) :
  GravitationalForceCalculator.sum_kinetic_energy (bodies, acc)
  = for_each (seq 0 (length bodies)) kinetic_step (bodies, acc).
Proof. reflexivity. Qed.

Lemma kinetic_step_frame (bodies0 : list Body) (i : nat)
    (s : list Body * float) :
  Forall2 same_but_kinetic bodies0 (fst s) ->
  Forall2 same_but_kinetic bodies0 (fst (fst (kinetic_step i s))).
Proof.
  destruct s as [bodies acc]. unfold kinetic_step. simpl. intros H.
  destruct (bodies !! i) as [b|] eqn:Hb; [|done].
  destruct (Body.calculate_kinetic_energy b) as [[b' k]|e] eqn:Hk; [|done].
  simpl. apply calculate_kinetic_energy_ok in Hk as [Hk _].
  apply kinetic_stored_frame in Hk.
  apply Forall2_same_length_lookup. apply Forall2_same_length_lookup in H.
  destruct H as [Hlen H]. split; [by rewrite length_insert|].
  intros j b0 b1 Hb0 Hb1.
  destruct (decide (j = i)) as [->|Hne].
  - rewrite list_lookup_insert_eq in Hb1 by (by eapply lookup_lt_Some).
    injection Hb1 as <-.
    eapply same_but_kinetic_trans; [by eapply H | done].
  - rewrite list_lookup_insert_ne in Hb1 by done. by eapply H.
Qed.

Lemma sum_kinetic_energy_frame (bodies : list Body) (acc : float) :
  Forall2 same_but_kinetic bodies
    (fst (fst (GravitationalForceCalculator.sum_kinetic_energy (bodies, acc)))).
Proof.
  rewrite sum_kinetic_energy_eq.
  apply (for_each_invariant
           (fun s : list Body * float =>
              Forall2 same_but_kinetic bodies (fst s))).
  - intros i s Hs. by apply kinetic_step_frame.
  - apply Forall_Forall2_diag, Forall_forall. intros b _.
    apply same_but_kinetic_refl.
Qed.

Lemma sum_kinetic_loop (todo : list Body) :
  forall (done l' : list Body) (acc acc' : float),
    for_each (seq (length done) (length todo)) kinetic_step
             (done ++ todo, acc) = ((l', acc'), Ok tt) ->
    exists todo',
      l' = done ++ todo'
      /\ Forall2 kinetic_stored todo todo'
      /\ acc' = fold_left PrimFloat.add (kinetic_energy <$> todo') acc.
Proof.
  induction todo as [|b todo IH]; intros done l' acc acc'; simpl.
  - intros [= <- <-]. exists []. by rewrite app_nil_r.
  - unfold mbind_ at 1, kinetic_step at 1.
    rewrite list_lookup_middle by done.
    destruct (Body.calculate_kinetic_energy b) as [[b' k]|e] eqn:Hk; [|done].
    rewrite insert_app_r_alt, Nat.sub_diag by done. simpl.
    specialize (IH (done ++ [b']) l' (acc + k)%float acc').
    rewrite length_app, Nat.add_comm in IH. simpl in IH.
    rewrite <- !(assoc_L (++)) in IH. simpl in IH.
    intros Hrun. destruct (IH Hrun) as (todo' & -> & Htodo & ->).
    apply calculate_kinetic_energy_ok in Hk as [Hk ->].
    exists (b' :: todo'). rewrite <- (assoc_L (++)). by repeat constructor.
Qed.

Lemma kinetic_step_outcome (i : nat) (s : list Body * float) (e : exn) :
  i < length (fst s) ->
  snd (kinetic_step i s) = Raise e -> e = OverflowError.
Proof.
  destruct s as [bodies acc]. unfold kinetic_step. simpl. intros Hi.
  destruct (lookup_lt_is_Some_2 bodies i Hi) as [b ->].
  destruct (Body.calculate_kinetic_energy b) as [[b' k]|e'] eqn:Hk; [done|].
  simpl. intros [= <-]. eauto using calculate_kinetic_energy_raises.
Qed.

Lemma sum_kinetic_energy_outcome (bodies : list Body) (acc : float) :
  overflow_at_most
    (snd (GravitationalForceCalculator.sum_kinetic_energy (bodies, acc))).
Proof.
  rewrite sum_kinetic_energy_eq.
  apply (for_each_outcome
           (fun s : list Body * float => length (fst s) = length bodies)
           overflow_at_most); [done| |done].
  intros i s Hi Hs. apply elem_of_seq in Hi. split.
  - destruct s as [bs a]. unfold kinetic_step. simpl in *.
    destruct (bs !! i) as [b|]; [|done].
    destruct (Body.calculate_kinetic_energy b) as [[b' k]|e]; [|done].
    simpl. by rewrite length_insert.
  - destruct (snd (kinetic_step i s)) as [[]|e] eqn:Hr; [done|]. simpl.
    eapply kinetic_step_outcome; [|exact Hr]. lia.
Qed.

Lemma pair_potential_outcome (fc : GravitationalForceCalculator)
    (bodies : list Body) (i j : nat) (pe : float) :
  i < j < length bodies ->
  overflow_at_most
    (snd (GravitationalForceCalculator.pair_potential fc bodies i j pe)).
Proof.
  intros Hij. unfold GravitationalForceCalculator.pair_potential.
  destruct (lookup_lt_is_Some_2 bodies i) as [bi ->]; [lia|].
  destruct (lookup_lt_is_Some_2 bodies j) as [bj ->]; [lia|].
  destruct (Body.distance_to bi bj) as [r|e] eqn:Hd.
  - by destruct (_ <? _)%float.
  - simpl. unfold Body.distance_to, Vector3D.distance_to in Hd.
    eauto using magnitude_raises.
Qed.

Lemma calculate_potential_energy_outcome (fc : GravitationalForceCalculator)
    (bodies : list Body) :
  overflow_at_most
    (GravitationalForceCalculator.calculate_potential_energy fc bodies).
Proof.
  unfold GravitationalForceCalculator.calculate_potential_energy.
  pose proof (for_each_outcome (fun _ : float => True)
                (overflow_at_most (A:=unit))
                (fun ij => GravitationalForceCalculator.pair_potential fc
                             bodies ij.1 ij.2)
                (pairs (length bodies)) I) as H.
  unfold pairs in H. specialize (H ltac:(
    intros [i j] s Hin _; split; [done|];
    apply pair_potential_outcome;
    apply (proj1 (Forall_forall _ _) (pairs_lt (length bodies)) (i, j) Hin))
    0%float I) as [_ H].
  rewrite for_each_flat_map in H.
  erewrite for_each_ext in H; [|intros i s; apply for_each_fmap].
  simpl in H.
  destruct (for_each _ _ _) as [pe [[]|e]]; done.
Qed.

(** The frame, the values and the errors of [calculate_total_energy]. *)
Lemma calculate_total_energy_outcome (fc : GravitationalForceCalculator)
    (bodies : list Body) :
  Forall2 same_but_kinetic bodies
    (fst (GravitationalForceCalculator.calculate_total_energy fc bodies))
  /\ match snd (GravitationalForceCalculator.calculate_total_energy fc bodies)
     with
     | Ok (kinetic, potential, total) =>
         let bodies' :=
           fst (GravitationalForceCalculator.calculate_total_energy fc bodies)
         in
         Forall2 kinetic_stored bodies bodies'
         /\ kinetic
            = fold_left PrimFloat.add (kinetic_energy <$> bodies') 0%float
         /\ GravitationalForceCalculator.calculate_potential_energy fc bodies'
            = Ok potential
         /\ total = (kinetic + potential)%float
     | Raise e => e = OverflowError
     end.
Proof.
  unfold GravitationalForceCalculator.calculate_total_energy.
  pose proof (sum_kinetic_energy_frame bodies 0) as Hframe.
  pose proof (sum_kinetic_energy_outcome bodies 0) as Hout.
  destruct (GravitationalForceCalculator.sum_kinetic_energy (bodies, 0%float))
    as [[bodies' k] [[]|e]] eqn:Hsum; simpl in Hframe, Hout |- *; [|done].
  pose proof (calculate_potential_energy_outcome fc bodies') as Hpot.
  destruct (GravitationalForceCalculator.calculate_potential_energy fc bodies')
    as [p|e] eqn:Hp; simpl in Hpot |- *; [|done].
  split; [done|]. rewrite sum_kinetic_energy_eq in Hsum.
  destruct (sum_kinetic_loop bodies [] bodies' 0%float k Hsum)
    as (todo' & -> & Hstored & ->). done.
Qed.

(** X6: [calculate_total_energy] changes nothing of a body but its stored
    kinetic energy. When it returns, every body holds its kinetic energy
    [0.5 * m * |v|^2], the kinetic total is the sum of the stored values
    added from the left to zero, the potential is what
    [calculate_potential_energy] gives, and the total is their sum; when it
    raises, the error is an [OverflowError] (a squared component that is not
    representable), never a division by zero. *)
Theorem calculate_total_energy_spec (fc : GravitationalForceCalculator)
    (bodies : list Body) :
  Forall2 same_but_kinetic bodies
    (fst (GravitationalForceCalculator.calculate_total_energy fc bodies))
  /\ match snd (GravitationalForceCalculator.calculate_total_energy fc bodies)
     with
     | Ok (kinetic, potential, total) =>
         let bodies' :=
           fst (GravitationalForceCalculator.calculate_total_energy fc bodies)
         in
         Forall2 kinetic_stored bodies bodies'
         /\ kinetic
            = fold_left PrimFloat.add (kinetic_energy <$> bodies') 0%float
         /\ GravitationalForceCalculator.calculate_potential_energy fc bodies'
            = Ok potential
         /\ total = (kinetic + potential)%float
     | Raise e => e = OverflowError
     end.
Proof. apply calculate_total_energy_outcome. Qed.

(** ** One step of the engine *)

Lemma advanced_same_but_kinetic (b1 b2 b3 : Body) :
  advanced b1 b2 -> same_but_kinetic b2 b3 -> advanced b1 b3.
Proof.
  unfold advanced, same_but_kinetic. intros H1 H2. destruct_and!.
  repeat split; congruence.
Qed.

(** What a step that returns has done. *)
Lemma step_returns (e e' : PhysicsEngine) :
  bodies e <> [] ->
  PhysicsEngine.step e = (e', Ok tt) ->
  time e' = (time e + dt e)%float
  /\ step_count e' = (step_count e + 1)%Z
  /\ dt e' = dt e
  /\ force_calculator e' = force_calculator e
  /\ Forall2 advanced (bodies e) (bodies e')
  /\ sample_recorded e e'.
Proof.
  intros Hne. unfold PhysicsEngine.step.
  destruct (bodies e) as [|b0 bs0] eqn:Hb; [done|]. rewrite <- Hb. clear Hne.
  unfold mbind_, PhysicsEngine.integrate.
  destruct (Integrator_step _ _ _) as [[integrator' [bodies1 []]] [[]|x]]
    eqn:Hint; [|done].
  apply (integrator_step_advances (gravity (force_calculator e)) (dt e)
           (gravity_keeps_static _)) in Hint.
  unfold PhysicsEngine.advance_clock, mmodify,
    PhysicsEngine._record_conservation_quantities, mbind_,
    PhysicsEngine.get_system_energy. simpl.
  pose proof (calculate_total_energy_outcome (force_calculator e) bodies1)
    as [Hframe Hval].
  destruct (GravitationalForceCalculator.calculate_total_energy _ bodies1)
    as [bodies2 [[[k p] t]|x]]; [|done]. simpl in *.
  destruct Hval as (_ & _ & _ & ->).
  intros [= <-]. simpl. repeat split; try done.
  - eapply Forall2_trans; [apply advanced_same_but_kinetic|exact Hint|done].
  - by exists k, p.
Qed.

(** What a step that raises has left. *)
Lemma step_raises (e e' : PhysicsEngine) (x : exn) :
  PhysicsEngine.step e = (e', Raise x) ->
  energy_history e' = energy_history e
  /\ momentum_history e' = momentum_history e
  /\ angular_momentum_history e' = angular_momentum_history e
  /\ dt e' = dt e
  /\ ((time e' = time e /\ step_count e' = step_count e)
      \/ (x = OverflowError
          /\ time e' = (time e + dt e)%float
          /\ step_count e' = (step_count e + 1)%Z)).
Proof.
  unfold PhysicsEngine.step. destruct (bodies e) as [|b0 bs0]; [done|].
  unfold mbind_, PhysicsEngine.integrate.
  destruct (Integrator_step _ _ _) as [[integrator' [bodies1 []]] [[]|x']].
  - unfold PhysicsEngine.advance_clock, mmodify,
      PhysicsEngine._record_conservation_quantities, mbind_,
      PhysicsEngine.get_system_energy. simpl.
    pose proof (calculate_total_energy_outcome (force_calculator e) bodies1)
      as [_ Hval].
    destruct (GravitationalForceCalculator.calculate_total_energy _ bodies1)
      as [bodies2 [[[k p] t]|x']]; [done|]. simpl in *.
    intros [= <- <-]. simpl. repeat split; try done. right. by subst.
  - intros [= <- <-]. simpl. repeat split; try done. by left.
Qed.

(** ** [run] with a number of steps *)

Section Run.

Context (ci : Z).
Implicit Types cond : PhysicsEngine -> bool.

Lemma step_without_callback (e : PhysicsEngine) :
  (PhysicsEngine.step ;; PhysicsEngine.maybe_callback None ci) e
  = PhysicsEngine.step e.
Proof.
  unfold mbind_, PhysicsEngine.maybe_callback.
  by destruct (PhysicsEngine.step e) as [e' [[]|x]].
Qed.

Lemma while_loop_more_fuel cond (fuel k : nat) (e e' : PhysicsEngine) :
  PhysicsEngine.while_loop fuel cond None ci e = PhysicsEngine.Returned e' ->
  PhysicsEngine.while_loop (fuel + k) cond None ci e
  = PhysicsEngine.Returned e'.
Proof.
  revert e. induction fuel as [|fuel IH]; intros e; simpl.
  - destruct (cond e) eqn:Hc; [done|]. intros [= <-].
    destruct k; simpl; by rewrite Hc.
  - destruct (cond e) eqn:Hc; [|done].
    destruct ((PhysicsEngine.step ;; _) e) as [e1 [[]|x]]; [apply IH|done].
Qed.

Lemma while_loop_resume cond1 cond2 (fuel1 fuel2 : nat)
    (e e1 e2 : PhysicsEngine) :
  (forall s, cond1 s = true -> cond2 s = true) ->
  PhysicsEngine.while_loop fuel1 cond1 None ci e
  = PhysicsEngine.Returned e1 ->
  PhysicsEngine.while_loop fuel2 cond2 None ci e1
  = PhysicsEngine.Returned e2 ->
  PhysicsEngine.while_loop (fuel1 + fuel2) cond2 None ci e
  = PhysicsEngine.Returned e2.
Proof.
  intros Himp. revert e. induction fuel1 as [|fuel1 IH]; intros e H1 H2.
  - simpl in H1. destruct (cond1 e) eqn:Hc; [done|].
    injection H1 as <-. exact H2.
  - simpl in H1. destruct (cond1 e) eqn:Hc.
    + simpl. rewrite (Himp e Hc).
      destruct ((PhysicsEngine.step ;; _) e) as [e' [[]|x]]; [|done].
      by apply IH.
    + injection H1 as <-. rewrite Nat.add_comm.
      by apply (while_loop_more_fuel cond2 fuel2 (S fuel1)).
Qed.

Lemma advanced_nonempty (l l' : list Body) :
  Forall2 advanced l l' -> l <> [] -> l' <> [].
Proof. intros H Hl ->. apply Forall2_nil_inv_r in H. done. Qed.

Lemma while_steps_returned (target : Z) (fuel : nat) :
  forall e e' : PhysicsEngine,
    PhysicsEngine.while_loop fuel
      (fun s => (step_count s <? target)%Z) None ci e
    = PhysicsEngine.Returned e' ->
    step_count e' = Z.max (step_count e) target
    /\ length (energy_history e')
       = length (energy_history e) + Z.to_nat (target - step_count e)
    /\ dt e' = dt e
    /\ length (bodies e') = length (bodies e).
Proof.
  induction fuel as [|fuel IH]; intros e e'; simpl.
  - destruct (step_count e <? target)%Z eqn:Hc; [done|]. intros [= <-].
    apply Z.ltb_ge in Hc. repeat split; try done; lia.
  - destruct (step_count e <? target)%Z eqn:Hc.
    + rewrite step_without_callback.
      destruct (decide (bodies e = [])) as [Hb|Hb].
      { rewrite (step_no_bodies e Hb).
        rewrite (while_loop_stuck _ ci e fuel Hb Hc). done. }
      destruct (PhysicsEngine.step e) as [e1 [[]|x]] eqn:Hstep; [|done].
      destruct (step_returns e e1 Hb Hstep)
        as (_ & Hsc & Hdt & _ & Hadv & (k & p & Hen & _)).
      intros Hrun. destruct (IH e1 e' Hrun) as (Hsc' & Hlen & Hdt' & Hbl).
      apply Z.ltb_lt in Hc. apply Forall2_length in Hadv.
      rewrite Hen, length_app in Hlen. simpl in Hlen.
      repeat split; try congruence; lia.
    + intros [= <-]. apply Z.ltb_ge in Hc. repeat split; try done; lia.
Qed.

Lemma while_steps_terminates (target : Z) (fuel : nat) :
  forall e : PhysicsEngine,
    bodies e <> [] ->
    Z.to_nat (target - step_count e) <= fuel ->
    forall e', PhysicsEngine.while_loop fuel
                 (fun s => (step_count s <? target)%Z) None ci e
               <> PhysicsEngine.StillRunning e'.
Proof.
  induction fuel as [|fuel IH]; intros e Hb Hfuel e'; simpl.
  - destruct (step_count e <? target)%Z eqn:Hc; [|done].
    apply Z.ltb_lt in Hc. lia.
  - destruct (step_count e <? target)%Z eqn:Hc; [|done].
    rewrite step_without_callback.
    destruct (PhysicsEngine.step e) as [e1 [[]|x]] eqn:Hstep; [|done].
    destruct (step_returns e e1 Hb Hstep)
      as (_ & Hsc & _ & _ & Hadv & _).
    apply IH; [by eapply advanced_nonempty|]. apply Z.ltb_lt in Hc. lia.
Qed.

End Run.

(** X10: [run(steps)] without a callback on an engine with bodies terminates:
    given as many loop iterations as [steps], it has returned or raised. When
    it returns, the step counter has advanced by [steps] (by nothing for a
    negative [steps]), one sample per step was appended to the energy
    history, and the engine holds as many bodies as before. *)
Theorem run_steps_spec (fuel : nat) (steps : Z) (duration : option float)
    (callback_interval : Z) (e : PhysicsEngine) :
  bodies e <> [] ->
  Z.to_nat steps <= fuel ->
  match PhysicsEngine.run fuel (Some steps) duration None callback_interval e
  with
  | PhysicsEngine.Returned e' =>
      step_count e' = (step_count e + Z.max 0 steps)%Z
      /\ length (energy_history e')
         = length (energy_history e) + Z.to_nat steps
      /\ length (bodies e') = length (bodies e)
  | PhysicsEngine.Raised _ _ => True
  | PhysicsEngine.StillRunning _ => False
  end.
Proof.
  intros Hb Hfuel. unfold PhysicsEngine.run.
  destruct (PhysicsEngine.while_loop _ _ _ _ _) as [e'|e' x|e'] eqn:Hrun.
  - apply while_steps_returned in Hrun as (Hsc & Hlen & _ & Hbl).
    repeat split; [lia| |done].
    rewrite Hlen. f_equal. f_equal. lia.
  - done.
  - eapply while_steps_terminates; [exact Hb| |exact Hrun].
    replace (step_count e + steps - step_count e)%Z with steps by lia. done.
Qed.

Lemma run_steps_spec_witness :
  let e := two_body_engine RK4Integrator 86400 in
  match PhysicsEngine.run 3 (Some 3%Z) None None 1 e with
  | PhysicsEngine.Returned e' =>
      step_count e' = (step_count e + Z.max 0 3)%Z
      /\ length (energy_history e')
         = length (energy_history e) + Z.to_nat 3
      /\ length (bodies e') = length (bodies e)
  | PhysicsEngine.Raised _ _ => True
  | PhysicsEngine.StillRunning _ => False
  end.
Proof.
  intros e. apply (run_steps_spec 3 3 None 1 e); [done | lia].
Defined.

(** X11: runs compose: [run(steps=a)] followed by [run(steps=b)], both
    returning, leave the engine exactly as one [run(steps=a+b)] does, for
    non-negative [a] and [b] and without callback. *)
Theorem run_steps_additive (fuel1 fuel2 : nat) (a b : Z)
    (d1 d2 d3 : option float) (callback_interval : Z)
    (e e1 e2 : PhysicsEngine) :
  (0 <= a)%Z -> (0 <= b)%Z ->
  PhysicsEngine.run fuel1 (Some a) d1 None callback_interval e
  = PhysicsEngine.Returned e1 ->
  PhysicsEngine.run fuel2 (Some b) d2 None callback_interval e1
  = PhysicsEngine.Returned e2 ->
  PhysicsEngine.run (fuel1 + fuel2) (Some (a + b)%Z) d3 None
    callback_interval e
  = PhysicsEngine.Returned e2.
Proof.
  unfold PhysicsEngine.run. intros Ha Hb H1 H2.
  pose proof (while_steps_returned callback_interval _ _ _ _ H1)
    as (Hsc & _).
  rewrite Z.max_r in Hsc by lia. rewrite Hsc in H2.
  rewrite <- Z.add_assoc in H2.
  eapply while_loop_resume; [|exact H1|exact H2].
  intros s Hs. apply Z.ltb_lt in Hs. apply Z.ltb_lt. lia.
Qed.

Lemma run_steps_additive_witness :
  let e := two_body_engine EulerIntegrator 86400 in
  let e1 := engine_of (PhysicsEngine.run 2 (Some 2%Z) None None 1 e) in
  let e2 := engine_of (PhysicsEngine.run 1 (Some 1%Z) None None 1 e1) in
  PhysicsEngine.run (2 + 1) (Some (2 + 1)%Z) None None 1 e
  = PhysicsEngine.Returned e2.
Proof.
  intros e e1 e2.
  apply (run_steps_additive 2 1 2 1 None None None 1 e e1 e2);
    [lia | lia | vm_compute; reflexivity | vm_compute; reflexivity].
Defined.

(** ** [run] with a duration and a zero time step *)

(** Adding a zero time step does not change how the clock compares. *)
Lemma add_zero_ltb (t z target : float) :
  PyFloat.is_zero z = true ->
  (t + z <? target)%float = (t <? target)%float.
Proof.
  unfold PyFloat.is_zero.
  rewrite FloatAxioms.eqb_spec, !FloatAxioms.ltb_spec, FloatAxioms.add_spec.
  rewrite Prim2SF_zero.
  destruct (Prim2SF z) as [[]|[]| |[] mz ez]; try done;
    destruct (Prim2SF t) as [[]|[]| |[] mt et]; try done;
    by destruct (Prim2SF target) as [[]|[]| |[] m ex].
Qed.

Lemma while_duration_never_returns (ci : Z) (target : float) (fuel : nat) :
  forall e : PhysicsEngine,
    PyFloat.is_zero (dt e) = true ->
    (time e <? target)%float = true ->
    forall e', PhysicsEngine.while_loop fuel
                 (fun s => (time s <? target)%float) None ci e
               <> PhysicsEngine.Returned e'.
Proof.
  induction fuel as [|fuel IH]; intros e Hdt Ht e'; simpl; rewrite Ht;
    [done|].
  rewrite step_without_callback.
  destruct (decide (bodies e = [])) as [Hb|Hb].
  { rewrite (step_no_bodies e Hb). by apply IH. }
  destruct (PhysicsEngine.step e) as [e1 [[]|x]] eqn:Hstep; [|done].
  destruct (step_returns e e1 Hb Hstep) as (Htime & _ & Hdt1 & _).
  apply IH; [by rewrite Hdt1|]. by rewrite Htime, add_zero_ltb.
Qed.

(** X12: with a time step of zero, [run(duration)] that enters its loop never
    returns: every step leaves the clock where it was, so the loop condition
    [time < target_time] stays true; whatever number of iterations the call
    is given, it is still running or has raised. (The engine accepts a zero
    time step, see C3.) *)
Theorem run_duration_zero_dt_never_returns (fuel : nat) (duration : float)
    (callback_interval : Z) (e : PhysicsEngine) :
  PyFloat.is_zero (dt e) = true ->
  (time e <? time e + duration)%float = true ->
  match PhysicsEngine.run fuel None (Some duration) None callback_interval e
  with
  | PhysicsEngine.Returned _ => False
  | _ => True
  end.
Proof.
  intros Hdt Ht. unfold PhysicsEngine.run.
  destruct (PhysicsEngine.while_loop _ _ _ _ _) as [e'|e' x|e'] eqn:Hrun;
    [|done|done].
  by eapply while_duration_never_returns.
Qed.

Lemma run_duration_zero_dt_never_returns_witness :
  match PhysicsEngine.run 5 None (Some 10%float) None 1
          (two_body_engine EulerIntegrator 0) with
  | PhysicsEngine.Returned _ => False
  | _ => True
  end.
Proof.
  apply (run_duration_zero_dt_never_returns 5 10 1
           (two_body_engine EulerIntegrator 0)); reflexivity.
Defined.

(** ** The conservation analysis *)

Lemma abs_nonzero (a : float) :
  (a =? 0)%float = false -> PyFloat.is_zero (abs a) = false.
Proof.
  unfold PyFloat.is_zero.
  rewrite !FloatAxioms.eqb_spec, FloatAxioms.abs_spec, Prim2SF_zero.
  by destruct (Prim2SF a) as [[]|[]| |[] m ex].
Qed.

Lemma first_item_head {A : Type} (l : list A) :
  1 <= length l -> exists a, PhysicsEngine.first_item l = Ok a /\ head l = Some a.
Proof. destruct l as [|a l]; simpl; [lia|]. by exists a. Qed.

Lemma last_item_last {A : Type} (l : list A) :
  1 <= length l -> exists a, PhysicsEngine.last_item l = Ok a /\ last l = Some a.
Proof.
  intros Hl. unfold PhysicsEngine.last_item.
  destruct (last l) as [a|] eqn:Hlast; [by exists a|].
  apply last_None in Hlast. subst. simpl in Hl. lia.
Qed.

(** X14: [get_conservation_analysis] on an engine whose three histories have
    the same length: with fewer than two energy samples it returns the
    not-enough-data answer; otherwise it returns an analysis whose energy part
    is read off the first and the last sample (drift [|final - initial|],
    drift percent [drift / |initial| * 100], and 0 when the initial energy is
    zero, so that the division never raises) and whose simulation info is the
    engine's time, step count, [dt] and integrator name; or it raises an
    [OverflowError] from a momentum magnitude. It never raises an
    [IndexError] or a [ZeroDivisionError]. *)
Theorem conservation_analysis_spec (e : PhysicsEngine) :
  histories_aligned e ->
  match PhysicsEngine.get_conservation_analysis e with
  | Ok PhysicsEngine.NotEnoughData => length (energy_history e) < 2
  | Ok (PhysicsEngine.Analysis a) =>
      2 <= length (energy_history e)
      /\ energy_analysed e a
      /\ PhysicsEngine.info_time a = time e /\ PhysicsEngine.info_steps a = step_count e
      /\ PhysicsEngine.info_dt a = dt e
      /\ PhysicsEngine.info_integrator a = Integrator_name (integrator e)
  | Raise x => 2 <= length (energy_history e) /\ x = OverflowError
  end.
Proof.
  intros [Hm Ha]. unfold PhysicsEngine.get_conservation_analysis.
  destruct (Nat.ltb_spec (length (energy_history e)) 2) as [Hlt|Hge];
    [done|].
  destruct (first_item_head (energy_history e)) as (e0 & -> & He0); [lia|].
  destruct (last_item_last (energy_history e)) as (e1 & -> & He1); [lia|].
  destruct (first_item_head (momentum_history e)) as (m0 & -> & _); [lia|].
  destruct (last_item_last (momentum_history e)) as (m1 & -> & _); [lia|].
  destruct (first_item_head (angular_momentum_history e)) as (a0 & -> & _);
    [lia|].
  destruct (last_item_last (angular_momentum_history e)) as (a1 & -> & _);
    [lia|].
  cbn [rbind].
  assert (exists pct,
    (if negb (es_total e0 =? 0)%float
     then let? q := PyFloat.truediv
                      (abs (es_total e1 - es_total e0)) (abs (es_total e0))
          in Ok (q * 100)%float
     else Ok 0%float) = Ok pct
    /\ pct = (if (es_total e0 =? 0)%float then 0
              else abs (es_total e1 - es_total e0) / abs (es_total e0) * 100)%float)
    as (pct & -> & Hpct).
  { destruct (es_total e0 =? 0)%float eqn:Hz; simpl; [by eexists|].
    unfold PyFloat.truediv. rewrite (abs_nonzero _ Hz). by eexists. }
  cbn [rbind].
  repeat match goal with
  | |- context [Vector3D.magnitude ?v] =>
      let Hm := fresh "Hmag" in
      destruct (Vector3D.magnitude v) eqn:Hm; cbn [rbind];
      [|split; [done|]; eauto using magnitude_raises]
  end.
  split; [done|]. split; [|done].
  exists e0, e1. simpl. by repeat split.
Qed.

Lemma conservation_analysis_spec_witness :
  let e := engine_of (PhysicsEngine.run 2 (Some 2%Z) None None 1
                        (two_body_engine EulerIntegrator 86400)) in
  match PhysicsEngine.get_conservation_analysis e with
  | Ok PhysicsEngine.NotEnoughData => length (energy_history e) < 2
  | Ok (PhysicsEngine.Analysis a) =>
      2 <= length (energy_history e)
      /\ energy_analysed e a
      /\ PhysicsEngine.info_time a = time e
      /\ PhysicsEngine.info_steps a = step_count e
      /\ PhysicsEngine.info_dt a = dt e
      /\ PhysicsEngine.info_integrator a = Integrator_name (integrator e)
  | Raise x => 2 <= length (energy_history e) /\ x = OverflowError
  end.
Proof.
  intros e. apply (conservation_analysis_spec e). vm_compute. by split.
Defined.

Lemma step_keeps_aligned (e : PhysicsEngine) :
  histories_aligned e -> histories_aligned (fst (PhysicsEngine.step e)).
Proof.
  intros [Hm Ha].
  destruct (PhysicsEngine.step e) as [e' [[]|x]] eqn:Hstep; simpl.
  - destruct (decide (bodies e = [])) as [Hb|Hb].
    + rewrite (step_no_bodies e Hb) in Hstep. injection Hstep as <-. done.
    + destruct (step_returns e e' Hb Hstep)
        as (_ & _ & _ & _ & _ & (k & p & He & Hm' & Ha')).
      unfold histories_aligned. rewrite He, Hm', Ha', !length_app. simpl.
      lia.
  - destruct (step_raises e e' x Hstep) as (He & Hm' & Ha' & _).
    unfold histories_aligned. by rewrite He, Hm', Ha'.
Qed.

Lemma while_loop_keeps_aligned (cond : PhysicsEngine -> bool) (ci : Z)
    (fuel : nat) :
  forall e, histories_aligned e ->
    histories_aligned
      (engine_of (PhysicsEngine.while_loop fuel cond None ci e)).
Proof.
  induction fuel as [|fuel IH]; intros e He; simpl.
  - by destruct (cond e).
  - destruct (cond e); [|done]. rewrite step_without_callback.
    pose proof (step_keeps_aligned e He) as H1.
    destruct (PhysicsEngine.step e) as [e1 [[]|x]]; [by apply IH | done].
Qed.

(** X15: the energy, momentum and angular-momentum histories stay at one
    common length: when they are at the call, they are after [step], after
    [reset_simulation] and after [run] without callback, whether the call
    returned, raised or is still running. *)
Theorem histories_stay_aligned (fuel : nat) (steps : option Z)
    (duration : option float) (callback_interval : Z) (e : PhysicsEngine) :
  histories_aligned e ->
  histories_aligned (fst (PhysicsEngine.step e))
  /\ histories_aligned (fst (PhysicsEngine.reset_simulation e))
  /\ histories_aligned
       (engine_of (PhysicsEngine.run fuel steps duration None
                     callback_interval e)).
Proof.
  intros He. split; [by apply step_keeps_aligned|]. split; [done|].
  unfold PhysicsEngine.run.
  destruct steps as [n|]; [|destruct duration as [d|]];
    [by apply while_loop_keeps_aligned..|done].
Qed.

Lemma histories_stay_aligned_witness :
  let e := two_body_engine (LeapfrogIntegrator true) 86400 in
  histories_aligned (fst (PhysicsEngine.step e))
  /\ histories_aligned (fst (PhysicsEngine.reset_simulation e))
  /\ histories_aligned
       (engine_of (PhysicsEngine.run 2 (Some 2%Z) None None 1 e)).
Proof.
  intros e. apply (histories_stay_aligned 2 (Some 2%Z) None 1 e). by split.
Defined.

(** After a reset there is nothing to analyse. *)
Lemma reset_then_analysis (e : PhysicsEngine) :
  PhysicsEngine.get_conservation_analysis
    (fst (PhysicsEngine.reset_simulation e))
  = Ok PhysicsEngine.NotEnoughData.
Proof. reflexivity. Qed.

(** ** Vector algebra and the tolerant equality *)

Section VectorFloatFacts.

Lemma binary_round_abs (s s' : bool) (m : positive) (e : Z) :
  SFabs (binary_round prec emax s m e) = SFabs (binary_round prec emax s' m e).
Proof.
  unfold binary_round, binary_round_aux.
  destruct (shl_align m e _) as [mz ez].
  destruct (shr_fexp _ _ _ _ _) as [mrs' e'].
  destruct (shr_fexp _ _ _ _ _) as [mrs'' e''].
  destruct (shr_m mrs''); [done| |done]. by destruct (Z.leb _ _).
Qed.

Lemma binary_normalize_abs_opp (m e : Z) :
  SFabs (binary_normalize prec emax (- m) e false)
  = SFabs (binary_normalize prec emax m e false).
Proof. destruct m; simpl; [done|apply binary_round_abs..]. Qed.

(** [|a - b|] is [|b - a|], bit for bit. *)
Lemma abs_sub_comm (a b : float) : abs (a - b) = abs (b - a).
Proof.
  apply Prim2SF_inj. rewrite !FloatAxioms.abs_spec, !FloatAxioms.sub_spec.
  unfold SF64sub, SFsub.
  destruct (Prim2SF a) as [[]|[]| |sa ma ea],
           (Prim2SF b) as [[]|[]| |sb mb eb]; try done.
  rewrite (Z.min_comm eb ea), <- binary_normalize_abs_opp.
  f_equal. f_equal. lia.
Qed.

Lemma not_finite_cases (a : float) :
  is_finite a = false ->
  Prim2SF a = S754_nan \/ exists s, Prim2SF a = S754_infinity s.
Proof.
  unfold is_finite, is_nan, is_infinity.
  rewrite !FloatAxioms.eqb_spec, FloatAxioms.abs_spec.
  change (Prim2SF infinity) with (S754_infinity false).
  destruct (Prim2SF a) as [[]|[]| |s m ex]; try done; eauto.
  unfold SFeqb, SFcompare.
  destruct s; rewrite Z.compare_refl, Pos.compare_cont_refl; done.
Qed.

(** The distance of a float to itself is below the tolerance exactly when
    the float is finite. *)
Lemma abs_sub_self_small (a : float) :
  (abs (a - a) <? 1e-10)%float = is_finite a.
Proof.
  destruct (is_finite a) eqn:Hfin.
  - by rewrite sub_diag_finite.
  - rewrite FloatAxioms.ltb_spec, FloatAxioms.abs_spec, FloatAxioms.sub_spec.
    by destruct (not_finite_cases a Hfin) as [->|[[] ->]].
Qed.

Lemma add_comm_float (a b : float) : (a + b)%float = (b + a)%float.
Proof.
  apply Prim2SF_inj. rewrite !FloatAxioms.add_spec. unfold SF64add, SFadd.
  destruct (Prim2SF a) as [[]|[]| |sa ma ea],
           (Prim2SF b) as [[]|[]| |sb mb eb]; try done.
  rewrite (Z.min_comm eb ea). f_equal. lia.
Qed.

Lemma sub_add_opp (a b : float) : (a - b)%float = (a + - b)%float.
Proof.
  apply Prim2SF_inj.
  rewrite FloatAxioms.sub_spec, FloatAxioms.add_spec, FloatAxioms.opp_spec.
  unfold SF64sub, SFsub, SF64add, SFadd, SFopp.
  destruct (Prim2SF a) as [[]|[]| |sa ma ea],
           (Prim2SF b) as [[]|[]| |sb mb eb]; try done.
  f_equal. by destruct sb, sa.
Qed.

Lemma mul_comm_float (a b : float) : (a * b)%float = (b * a)%float.
Proof.
  apply Prim2SF_inj. rewrite !FloatAxioms.mul_spec. unfold SF64mul, SFmul.
  destruct (Prim2SF a) as [[]|[]| |[] ma ea],
           (Prim2SF b) as [[]|[]| |[] mb eb]; try done;
    by rewrite (Pos.mul_comm mb ma), (Z.add_comm eb ea).
Qed.

End VectorFloatFacts.

(** The tolerant equality is not transitive. *)
Lemma vector_eq_not_transitive :
  exists a b c : Vector3D,
    Vector3D.eq a b = true /\ Vector3D.eq b c = true
    /\ Vector3D.eq a c = false.
Proof.
  exists (mkVector3D 0 0 0), (mkVector3D 6e-11 0 0), (mkVector3D 1.2e-10 0 0).
  by repeat split.
Qed.

(** X16: the tolerant equality [__eq__] of vectors is symmetric; a vector
    equals itself exactly when its three components are finite (a vector
    with a NaN or an infinite component is not equal to itself); and it is
    not transitive, so it is not an equivalence relation. *)
Theorem vector_eq_spec (a b : Vector3D) :
  Vector3D.eq a a = finite_vector a
  /\ Vector3D.eq a b = Vector3D.eq b a
  /\ (exists u v w : Vector3D,
        Vector3D.eq u v = true /\ Vector3D.eq v w = true
        /\ Vector3D.eq u w = false).
Proof.
  unfold Vector3D.eq at 1 2 3, finite_vector. split; [|split].
  - by rewrite !abs_sub_self_small.
  - by rewrite (abs_sub_comm (x a)), (abs_sub_comm (y a)),
      (abs_sub_comm (z a)).
  - apply vector_eq_not_transitive.
Qed.


(** ** The factories *)

Lemma lower_ascii_idempotent (c : ascii) :
  lower_ascii (lower_ascii c) = lower_ascii c.
Proof. by destruct c as [[] [] [] [] [] [] [] []]. Qed.

Lemma lower_idempotent (s : string) : lower (lower s) = lower s.
Proof.
  induction s as [|c s IH]; simpl; [done|].
  by rewrite lower_ascii_idempotent, IH.
Qed.

(** X19: on ASCII names, [get_integrator] ignores the case of its argument;
    it returns an Euler, an RK4 or a Leapfrog integrator when the lowered
    name is "euler", "rk4" or "leapfrog" and raises [ValueError] otherwise; a
    Leapfrog integrator it returns is cold (its first step is still to
    come). *)
Theorem get_integrator_spec (method : string) :
  get_integrator (lower method) = get_integrator method
  /\ get_integrator method
     = (if String.eqb (lower method) "euler" then Ok EulerIntegrator
        else if String.eqb (lower method) "rk4" then Ok RK4Integrator
        else if String.eqb (lower method) "leapfrog"
             then Ok (LeapfrogIntegrator true)
        else Raise ValueError)
  /\ (forall i, get_integrator method = Ok i ->
        lower method = lower (Integrator_name i)
        /\ i <> LeapfrogIntegrator false).
Proof.
  split; [|split].
  - unfold get_integrator. by rewrite lower_idempotent.
  - reflexivity.
  - intros i. unfold get_integrator.
    destruct (String.eqb_spec (lower method) "euler") as [->|_];
      [by intros [= <-]|].
    destruct (String.eqb_spec (lower method) "rk4") as [->|_];
      [by intros [= <-]|].
    destruct (String.eqb_spec (lower method) "leapfrog") as [->|_];
      [by intros [= <-]|done].
Qed.

(** A softening length given to the "softened" method is passed twice to
    the constructor. *)
(** X20: the "softened" force method cannot be given a softening length:
    [create_force_calculator("softened", softening_length=s)] passes the
    keyword twice to the constructor and raises [TypeError] for every [s], so
    an engine cannot be constructed that way either. *)
Theorem softened_rejects_softening_length (integration_method : string)
    (g : option float) (softening_length : float) :
  create_force_calculator "softened"
    (mkForceKwargs g (Some softening_length)) = Raise TypeError
  /\ match PhysicsEngine.init integration_method "softened"
             (mkForceKwargs g (Some softening_length)) with
     | Ok _ => False
     | Raise x => x = TypeError \/ x = ValueError
     end.
Proof.
  split; [reflexivity|]. unfold PhysicsEngine.init, rbind.
  destruct (get_integrator integration_method) as [i|x] eqn:Hi; simpl.
  - by left.
  - right. revert Hi. unfold get_integrator.
    repeat destruct (String.eqb _ _); try done. by intros [= <-].
Qed.

(** ** Trajectories as coordinate arrays *)

(** X21: [get_trajectory_arrays] returns three coordinate lists of the
    length of the trajectory, and zipping them back gives the trajectory
    (three empty lists for an empty trajectory). *)
Theorem trajectory_arrays_round_trip (b : Body) :
  let '(xs, ys, zs) := Body.get_trajectory_arrays b in
  length xs = length (trajectory b)
  /\ length ys = length (trajectory b)
  /\ length zs = length (trajectory b)
  /\ zip_with (fun xy z => mkVector3D xy.1 xy.2 z) (zip xs ys) zs
     = trajectory b.
Proof.
  unfold Body.get_trajectory_arrays.
  destruct (trajectory b) as [|p l] eqn:Ht; [done|]. rewrite <- Ht. clear Ht.
  rewrite !length_fmap. repeat split.
  induction (trajectory b) as [|[vx vy vz] t IH]; [done|].
  rewrite !fmap_cons. cbn [zip zip_with x y z fst snd]. f_equal. exact IH.
Qed.

(** ** The center of mass *)

(** X22: [calculate_center_of_mass] never raises: it returns the origin when
    the masses sum to zero (in particular for no bodies) and the
    mass-weighted sums divided by the total mass otherwise. *)
Theorem center_of_mass_never_raises (fc : GravitationalForceCalculator)
    (bodies : list Body) :
  let total_mass := GravitationalForceCalculator.sum_over mass bodies in
  GravitationalForceCalculator.calculate_center_of_mass fc bodies
  = Ok (if (total_mass =? 0)%float then Vector3D.zero
        else mkVector3D
               (GravitationalForceCalculator.sum_over
                  (fun b => mass b * x (position b))%float bodies / total_mass)
               (GravitationalForceCalculator.sum_over
                  (fun b => mass b * y (position b))%float bodies / total_mass)
               (GravitationalForceCalculator.sum_over
                  (fun b => mass b * z (position b))%float bodies / total_mass)).
Proof.
  unfold GravitationalForceCalculator.calculate_center_of_mass.
  cbv zeta. destruct (_ =? 0)%float eqn:Hz; [done|].
  unfold PyFloat.truediv, PyFloat.is_zero. by rewrite Hz.
Qed.

(** ** Distances are symmetric *)

Lemma pow2_abs (a : float) : PyFloat.pow2 (abs a) = PyFloat.pow2 a.
Proof.
  assert (Hmul : (abs a * abs a)%float = (a * a)%float).
  { apply Prim2SF_inj. rewrite !FloatAxioms.mul_spec, FloatAxioms.abs_spec.
    unfold SF64mul, SFmul.
    by destruct (Prim2SF a) as [[]|[]| |[] m ex]. }
  assert (Hfin : is_finite (abs a) = is_finite a).
  { unfold is_finite, is_nan, is_infinity.
    rewrite !FloatAxioms.eqb_spec, !FloatAxioms.abs_spec.
    change (Prim2SF infinity) with (S754_infinity false).
    destruct (Prim2SF a) as [[]|[]| |[] m ex]; try reflexivity;
      unfold SFeqb, SFcompare; cbn [SFabs];
      by rewrite ?Z.compare_refl, ?Pos.compare_cont_refl. }
  unfold PyFloat.pow2. by rewrite Hmul, Hfin.
Qed.

Lemma pow2_sub_comm (a b : float) :
  PyFloat.pow2 (a - b) = PyFloat.pow2 (b - a).
Proof. by rewrite <- (pow2_abs (a - b)), abs_sub_comm, pow2_abs. Qed.

Lemma magnitude_squared_sub_comm (a b : Vector3D) :
  Vector3D.magnitude_squared (Vector3D.sub a b)
  = Vector3D.magnitude_squared (Vector3D.sub b a).
Proof.
  unfold Vector3D.magnitude_squared, Vector3D.sub. simpl.
  by rewrite (pow2_sub_comm (x a)), (pow2_sub_comm (y a)),
    (pow2_sub_comm (z a)).
Qed.


(** ** A callback with interval zero *)

(** X13: with a callback and [callback_interval = 0], [run(steps)] for at
    least one step raises [ZeroDivisionError] right after its first step (the
    modulo by zero of [step_count % callback_interval]), leaving the engine as
    that one step left it; the callback is not invoked. *)
Theorem run_callback_interval_zero (fuel : nat) (steps : Z)
    (duration : option float) (callback : PhysicsEngine.run_callback)
    (e e1 : PhysicsEngine) :
  (1 <= steps)%Z ->
  PhysicsEngine.step e = (e1, Ok tt) ->
  PhysicsEngine.run (S fuel) (Some steps) duration (Some callback) 0 e
  = PhysicsEngine.Raised e1 ZeroDivisionError.
Proof.
  intros Hsteps Hstep. unfold PhysicsEngine.run. simpl.
  destruct (Z.ltb_spec (step_count e) (step_count e + steps)) as [_|?];
    [|lia].
  unfold mbind_. by rewrite Hstep.
Qed.

Lemma run_callback_interval_zero_witness :
  let e := two_body_engine EulerIntegrator 86400 in
  PhysicsEngine.run 1 (Some 5%Z) None (Some (mret tt)) 0 e
  = PhysicsEngine.Raised (fst (PhysicsEngine.step e)) ZeroDivisionError.
Proof.
  intros e.
  apply (run_callback_interval_zero 0 5 None (mret tt) e
           (fst (PhysicsEngine.step e))); [lia | vm_compute; reflexivity].
Defined.

(** ** Which errors a step can raise *)

Lemma may_raise_same_mass {A : Type} (bodies0 bodies : list Body)
    (r : result A) :
  Forall2 (fun b b' => mass b' = mass b) bodies0 bodies ->
  may_raise bodies r -> may_raise bodies0 r.
Proof.
  intros Hs. destruct r as [a|e]; [done|]. simpl.
  intros [->|[-> Hz]]; [by left|right]. split; [done|].
  apply Exists_exists in Hz as (b & Hb & Hm).
  apply list_elem_of_lookup_1 in Hb as [i Hi].
  destruct (Forall2_lookup_r _ _ _ _ _ Hs Hi) as (b0 & Hb0 & Hsame).
  apply Exists_exists. exists b0. split; [by eapply list_elem_of_lookup_2|].
  by rewrite <- Hsame.
Qed.

Lemma may_raise_static {A : Type} (bodies0 bodies : list Body)
    (r : result A) :
  Forall2 same_static bodies0 bodies ->
  may_raise bodies r -> may_raise bodies0 r.
Proof.
  intros Hs. apply may_raise_same_mass.
  eapply Forall2_impl; [exact Hs|]. by intros b b' [? _].
Qed.

Lemma gravity_raises_like_gravity (fc : GravitationalForceCalculator) :
  raises_like_gravity (gravity fc).
Proof.
  intros bodies []. unfold gravity, on_bodies.
  pose proof (calculate_forces_outcome fc bodies) as H.
  by destruct (GravitationalForceCalculator.calculate_forces fc bodies).
Qed.

Section StepErrors.

Context {W : Type} (f : Callable W) (dt : float).
Hypothesis Hf : keeps_static f.
Hypothesis Hout : raises_like_gravity f.

Lemma callback_outcome (bodies0 bodies : list Body) (w : W) :
  Forall2 same_static bodies0 bodies ->
  may_raise bodies0 (snd (f (bodies, w))).
Proof using Hout.
  intros Hs. eapply may_raise_static; [exact Hs | apply Hout].
Qed.

Lemma euler_outcome (bodies0 bodies : list Body) (w : W) :
  Forall2 same_static bodies0 bodies ->
  may_raise bodies0 (snd (EulerIntegrator.step dt f (bodies, w))).
Proof using Hout.
  intros Hs. rewrite euler_step_eq.
  pose proof (callback_outcome bodies0 bodies w Hs) as H.
  by destruct (f (bodies, w)) as [[bodies1 w1] [[]|e]].
Qed.

Lemma leapfrog_outcome (first_step : bool) (bodies : list Body) (w : W) :
  may_raise bodies
    (snd (LeapfrogIntegrator.step dt f (first_step, (bodies, w)))).
Proof using Hf Hout.
  pose proof (Forall2_same_static_refl bodies) as H0.
  destruct first_step.
  - rewrite cold_leapfrog_step.
    pose proof (callback_outcome bodies bodies w H0) as H.
    destruct (f (bodies, w)) as [[bodies1 w1] [[]|e]] eqn:Hfw; [|done].
    cbn [snd]. apply euler_outcome.
    apply Forall2_same_static_fmap; [apply half_kick_static|].
    by eapply (callback_static f Hf).
  - rewrite warm_leapfrog_is_euler. cbn [snd]. by apply euler_outcome.
Qed.

Lemma stage_outcome (n : nat) (bodies0 bodies : list Body) (w : W) :
  Forall2 same_static bodies0 bodies -> length bodies0 = n ->
  match snd (RK4Integrator.stage n dt f (bodies, w)) with
  | Ok k => length k.1 = n /\ length k.2 = n
  | Raise x => may_raise (A:=unit) bodies0 (Raise x)
  end.
Proof using Hf Hout.
  intros Hs Hn. unfold RK4Integrator.stage, mbind_.
  pose proof (callback_outcome bodies0 bodies w Hs) as H.
  destruct (f (bodies, w)) as [[bodies1 w1] [[]|e]] eqn:Hfw; [|done].
  apply (callback_static f Hf bodies0) in Hfw; [|done].
  destruct (capture_ok dt bodies1 n) as (k & -> & H1 & H2); [|done].
  apply Forall2_length in Hfw. lia.
Qed.

Lemma working_state_returns (ip iv : list Vector3D)
    (k : list Vector3D * list Vector3D) (scale : Vector3D -> Vector3D)
    (bodies : list Body) (w : W) :
  length ip = length bodies -> length iv = length bodies ->
  length k.1 = length bodies -> length k.2 = length bodies ->
  snd (on_bodies
         (for_enumerate (RK4Integrator.set_working_state ip iv k scale))
         (bodies, w)) = Ok tt.
Proof.
  intros Hip Hiv Hk1 Hk2.
  destruct (on_bodies_enumerate_ok
              (RK4Integrator.set_working_state ip iv k scale) bodies w)
    as (bodies' & -> & _); [|done].
  intros i b Hi. apply set_working_state_ok; lia.
Qed.

(** RK4 indexes its snapshot and derivative lists within range: nothing
    but the callback can raise. *)
Lemma rk4_outcome (bodies : list Body) (w : W) :
  may_raise bodies (snd (RK4Integrator.step dt f (bodies, w))).
Proof using Hf Hout.
  unfold RK4Integrator.step. cbv beta iota zeta. unfold mbind_.
  set (n := length bodies).
  set (ip := (fun body => Vector3D.copy (position body)) <$> bodies).
  set (iv := (fun body => Vector3D.copy (velocity body)) <$> bodies).
  assert (Hip : length ip = n) by apply length_fmap.
  assert (Hiv : length iv = n) by apply length_fmap.
  pose proof (Forall2_same_static_refl bodies) as H0.
  pose proof (stage_outcome n bodies bodies w H0 eq_refl) as O1.
  destruct (RK4Integrator.stage n dt f (bodies, w))
    as [[b1 w1] [k1|e]] eqn:E1; [|done]. simpl in O1. destruct O1 as [K11 K12].
  apply (stage_static f dt Hf n bodies) in E1; [|done].
  pose proof (working_state_returns ip iv k1 (fun k => Vector3D.mul k 0.5)
                b1 w1) as R1.
  pose proof (Forall2_length _ _ _ E1) as L1. fold n in L1.
  destruct (on_bodies _ (b1, w1)) as [[b1' w1'] [[]|e]] eqn:E1';
    [|simpl in R1; by rewrite R1 in * by lia].
  clear R1. apply (working_state_static _ _ _ _ bodies) in E1'; [|done].
  pose proof (stage_outcome n bodies b1' w1' E1' eq_refl) as O2.
  destruct (RK4Integrator.stage n dt f (b1', w1'))
    as [[b2 w2] [k2|e]] eqn:E2; [|done]. simpl in O2. destruct O2 as [K21 K22].
  apply (stage_static f dt Hf n bodies) in E2; [|done].
  pose proof (working_state_returns ip iv k2 (fun k => Vector3D.mul k 0.5)
                b2 w2) as R2.
  pose proof (Forall2_length _ _ _ E2) as L2. fold n in L2.
  destruct (on_bodies _ (b2, w2)) as [[b2' w2'] [[]|e]] eqn:E2';
    [|simpl in R2; by rewrite R2 in * by lia].
  clear R2. apply (working_state_static _ _ _ _ bodies) in E2'; [|done].
  pose proof (stage_outcome n bodies b2' w2' E2' eq_refl) as O3.
  destruct (RK4Integrator.stage n dt f (b2', w2'))
    as [[b3 w3] [k3|e]] eqn:E3; [|done]. simpl in O3. destruct O3 as [K31 K32].
  apply (stage_static f dt Hf n bodies) in E3; [|done].
  pose proof (working_state_returns ip iv k3 (fun k => k) b3 w3) as R3.
  pose proof (Forall2_length _ _ _ E3) as L3. fold n in L3.
  destruct (on_bodies _ (b3, w3)) as [[b3' w3'] [[]|e]] eqn:E3';
    [|simpl in R3; by rewrite R3 in * by lia].
  clear R3. apply (working_state_static _ _ _ _ bodies) in E3'; [|done].
  pose proof (stage_outcome n bodies b3' w3' E3' eq_refl) as O4.
  destruct (RK4Integrator.stage n dt f (b3', w3'))
    as [[b4 w4] [k4|e]] eqn:E4; [|done]. simpl in O4. destruct O4 as [K41 K42].
  apply (stage_static f dt Hf n bodies) in E4; [|done].
  pose proof (Forall2_length _ _ _ E4) as L4. fold n in L4.
  unfold on_bodies.
  destruct (for_enumerate_ok
              (RK4Integrator.final_update ip iv k1 k2 k3 k4) b4)
    as (b4' & -> & _); [|done].
  intros i b Hi. apply final_update_ok; lia.
Qed.

Lemma integrator_step_outcome (integrator : Integrator)
    (bodies : list Body) (w : W) :
  may_raise bodies (snd (Integrator_step dt f (integrator, (bodies, w)))).
Proof using Hf Hout.
  unfold Integrator_step. destruct integrator as [| |first_step].
  - pose proof (euler_outcome bodies bodies w
                  (Forall2_same_static_refl bodies)) as H.
    by destruct (EulerIntegrator.step _ _ _) as [[b1 w1] r].
  - pose proof (rk4_outcome bodies w) as H.
    by destruct (RK4Integrator.step _ _ _) as [[b1 w1] r].
  - pose proof (leapfrog_outcome first_step bodies w) as H.
    by destruct (LeapfrogIntegrator.step _ _ _) as [[fs [b1 w1]] r].
Qed.

End StepErrors.

(** The errors of the integration and of the energy bookkeeping. *)
Lemma step_outcome (e : PhysicsEngine) :
  may_raise (bodies e) (snd (PhysicsEngine.step e)).
Proof.
  unfold PhysicsEngine.step. destruct (bodies e) as [|b0 bs0] eqn:Hb; [done|].
  rewrite <- Hb. unfold mbind_, PhysicsEngine.integrate.
  pose proof (integrator_step_outcome (gravity (force_calculator e)) (dt e)
                (gravity_keeps_static _) (gravity_raises_like_gravity _)
                (integrator e) (bodies e) tt) as H.
  unfold gravity in H.
  destruct (Integrator_step _ _ _) as [[integrator' [bodies1 []]] [[]|x]];
    [|done].
  unfold PhysicsEngine.advance_clock, mmodify,
    PhysicsEngine._record_conservation_quantities, mbind_,
    PhysicsEngine.get_system_energy. simpl.
  pose proof (calculate_total_energy_outcome (force_calculator e) bodies1)
    as [_ Hval].
  destruct (GravitationalForceCalculator.calculate_total_energy _ bodies1)
    as [bodies2 [[[k p] t]|x]]; [done|]. simpl in *. by left.
Qed.

(** ** One step of the engine, summed up *)

(** X7: a step of an engine with bodies that returns has advanced the clock
    by [dt] and the step counter by one, kept [dt] and the force calculator,
    appended to every body's trajectory the position the body is left at
    (masses and names unchanged), and appended one sample to each of the
    three histories, stamped with the new time; the energy sample's total is
    kinetic plus potential, the momentum samples are those of the bodies as
    left. *)
Theorem step_returns_spec (e e' : PhysicsEngine) :
  bodies e <> [] ->
  PhysicsEngine.step e = (e', Ok tt) ->
  time e' = (time e + dt e)%float
  /\ step_count e' = (step_count e + 1)%Z
  /\ dt e' = dt e
  /\ force_calculator e' = force_calculator e
  /\ Forall2 advanced (bodies e) (bodies e')
  /\ sample_recorded e e'.
Proof. apply step_returns. Qed.

Lemma step_returns_spec_witness :
  let e := two_body_engine (LeapfrogIntegrator true) 86400 in
  let e' := fst (PhysicsEngine.step e) in
  time e' = (time e + dt e)%float
  /\ step_count e' = (step_count e + 1)%Z
  /\ dt e' = dt e
  /\ force_calculator e' = force_calculator e
  /\ Forall2 advanced (bodies e) (bodies e')
  /\ sample_recorded e e'.
Proof.
  intros e e'.
  apply (step_returns_spec e e'); [done|]. vm_compute. reflexivity.
Defined.

(** X8: a step that raises raises an [OverflowError], or a
    [ZeroDivisionError] when one of the engine's bodies has mass zero, and
    nothing else. It leaves the three histories and [dt] as they were. Either
    the integrator raised, and the clock and the step counter are unchanged;
    or the energy bookkeeping overflowed after the integration, and the clock
    and the step counter have already advanced though no sample was
    recorded. *)
Theorem step_raises_spec (e e' : PhysicsEngine) (x : exn) :
  PhysicsEngine.step e = (e', Raise x) ->
  (x = OverflowError
   \/ (x = ZeroDivisionError
       /\ Exists (fun b => PyFloat.is_zero (mass b) = true) (bodies e)))
  /\ energy_history e' = energy_history e
  /\ momentum_history e' = momentum_history e
  /\ angular_momentum_history e' = angular_momentum_history e
  /\ dt e' = dt e
  /\ ((time e' = time e /\ step_count e' = step_count e)
      \/ (x = OverflowError
          /\ time e' = (time e + dt e)%float
          /\ step_count e' = (step_count e + 1)%Z)).
Proof.
  intros Hstep. split; [|by apply (step_raises e e' x)].
  pose proof (step_outcome e) as H. by rewrite Hstep in H.
Qed.

Lemma step_raises_spec_witness :
  let e := probe_engine in
  let e' := fst (PhysicsEngine.step e) in
  (ZeroDivisionError = OverflowError
   \/ (ZeroDivisionError = ZeroDivisionError
       /\ Exists (fun b => PyFloat.is_zero (mass b) = true) (bodies e)))
  /\ energy_history e' = energy_history e
  /\ momentum_history e' = momentum_history e
  /\ angular_momentum_history e' = angular_momentum_history e
  /\ dt e' = dt e
  /\ ((time e' = time e /\ step_count e' = step_count e)
      \/ (ZeroDivisionError = OverflowError
          /\ time e' = (time e + dt e)%float
          /\ step_count e' = (step_count e + 1)%Z)).
Proof.
  intros e e'.
  apply (step_raises_spec e e' ZeroDivisionError). vm_compute. reflexivity.
Defined.

(** ** Which errors [run] can raise *)

Lemma step_keeps_masses (e e1 : PhysicsEngine) :
  PhysicsEngine.step e = (e1, Ok tt) ->
  Forall2 (fun b b' => mass b' = mass b) (bodies e) (bodies e1).
Proof.
  intros Hstep. destruct (decide (bodies e = [])) as [Hb|Hb].
  - rewrite (step_no_bodies e Hb) in Hstep. injection Hstep as <-.
    by apply Forall_Forall2_diag, Forall_forall.
  - destruct (step_returns e e1 Hb Hstep) as (_ & _ & _ & _ & Hadv & _).
    eapply Forall2_impl; [exact Hadv|]. by intros b b' [? _].
Qed.

Lemma while_loop_errors (cond : PhysicsEngine -> bool) (ci : Z)
    (fuel : nat) :
  forall (e : PhysicsEngine) (bodies0 : list Body),
    Forall2 (fun b b' => mass b' = mass b) bodies0 (bodies e) ->
    forall e' x,
      PhysicsEngine.while_loop fuel cond None ci e
      = PhysicsEngine.Raised e' x ->
      may_raise (A:=unit) bodies0 (Raise x).
Proof.
  induction fuel as [|fuel IH]; intros e bodies0 H0 e' x; simpl.
  - by destruct (cond e).
  - destruct (cond e); [|done]. rewrite step_without_callback.
    pose proof (step_outcome e) as Hout.
    destruct (PhysicsEngine.step e) as [e1 [[]|x1]] eqn:Hstep.
    + apply IH. eapply Forall2_trans; [|exact H0|by apply step_keeps_masses].
      intros b1 b2 b3 H12 H23. congruence.
    + intros [= _ <-]. simpl in Hout.
      exact (may_raise_same_mass (A:=unit) bodies0 (bodies e) (Raise x1)
               H0 Hout).
Qed.

(** X9: what [run] without a callback can raise: the [ValueError] of a call
    with neither [steps] nor [duration], and otherwise what a step can
    raise, an [OverflowError] or, when one of the bodies the engine holds at
    the call has mass zero, a [ZeroDivisionError]. *)
Theorem run_errors (fuel : nat) (steps : option Z) (duration : option float)
    (callback_interval : Z) (e e' : PhysicsEngine) (x : exn) :
  PhysicsEngine.run fuel steps duration None callback_interval e
  = PhysicsEngine.Raised e' x ->
  (x = ValueError /\ steps = None /\ duration = None)
  \/ x = OverflowError
  \/ (x = ZeroDivisionError
      /\ Exists (fun b => PyFloat.is_zero (mass b) = true) (bodies e)).
Proof.
  unfold PhysicsEngine.run. intros Hrun.
  assert (Hdiag : Forall2 (fun b b' => mass b' = mass b) (bodies e) (bodies e))
    by by apply Forall_Forall2_diag, Forall_forall.
  destruct steps as [n|]; [|destruct duration as [d|]].
  - right. exact (while_loop_errors _ _ _ e (bodies e) Hdiag e' x Hrun).
  - right. exact (while_loop_errors _ _ _ e (bodies e) Hdiag e' x Hrun).
  - left. by injection Hrun as _ <-.
Qed.

Lemma run_errors_witness :
  (ZeroDivisionError = ValueError /\ Some 3%Z = None /\ @None float = None)
  \/ ZeroDivisionError = OverflowError
  \/ (ZeroDivisionError = ZeroDivisionError
      /\ Exists (fun b => PyFloat.is_zero (mass b) = true)
           (bodies probe_engine)).
Proof.
  apply (run_errors 3 (Some 3%Z) None 1 probe_engine
           (engine_of (PhysicsEngine.run 3 (Some 3%Z) None None 1
                         probe_engine))
           ZeroDivisionError).
  vm_compute. reflexivity.
Defined.
